(** * mygit: the object store of a minimal git clone

    A shallow embedding of [mygit.py] ([hash_object], [find_object],
    [read_object], [cat_file], [read_tree], [init]) and of the part of
    [file_io.py] it calls, followed by the properties of the object store
    and of the repository layout.

    Conventions of the embedding.
    - Python [bytes] are [list byte]; Python [str] is a list of Unicode code
      points ([list N]); Python [int] is [Z] (indices can be [-1]).
    - A raised exception is the [Raise] case of [result]; the exception
      classes are the constructors of [exn].
    - For the object store the file system is reduced to the directory
      [<git_dir>/objects]: a finite map from names to nodes, two levels
      deep.  Names are path components (non-empty, without a separator); the
      model is exact for the ASCII names an object store holds.  For [init]
      it is a tree of files and directories from the root.
    - [hashlib.sha1] is written out after FIPS 180-4; [zlib] is an interface
      ([Zlib]) with the one law the program relies on. *)

From Stdlib Require Import ZArith NArith List Lia Bool.
From Stdlib Require Import Strings.Byte Strings.Ascii Strings.String.
From Stdlib Require Import Numbers.DecimalString Numbers.DecimalN.
From stdpp Require Import base option list gmap fin_maps.

Local Open Scope Z_scope.

Abbreviation bytes := (list byte).
Abbreviation str := (list N).

#[global] Instance byte_eq_dec : EqDecision byte := Byte.byte_eq_dec.

(** ** Python built-ins used by the program *)

Module Py.

Definition len {A} (l : list A) : Z := Z.of_nat (length l).

Definition Z_of_byte (b : byte) : Z := Z.of_N (Byte.to_N b).

Definition byte_of_Z (z : Z) : byte :=
  match Byte.of_N (Z.to_N (z mod 256)) with
  | Some b => b
  | None => x00
  end.

(** A string literal of the source, as code points. *)
Definition lit (s : string) : str :=
  map N_of_ascii (list_ascii_of_string s).

(** Index normalisation of a slice bound: a negative bound counts from the
    end, and every bound is clamped to [0 .. len]. *)
Definition clamp_index (n i : Z) : Z :=
  if i <? 0 then Z.max (i + n) 0 else Z.min i n.

(** [l[a:b]] *)
Definition slice {A} (l : list A) (a b : Z) : list A :=
  let n := len l in
  let a' := clamp_index n a in
  let b' := clamp_index n b in
  take (Z.to_nat (b' - a')) (drop (Z.to_nat a') l).

(** [l[a:]] *)
Definition slice_from {A} (l : list A) (a : Z) : list A :=
  slice l a (len l).

(** [l[:b]] *)
Definition slice_to {A} (l : list A) (b : Z) : list A :=
  slice l 0 b.

(** Position of the first occurrence of [b] in [l]. *)
Fixpoint index_of (b : byte) (l : bytes) : option nat :=
  match l with
  | [] => None
  | x :: l' =>
      if Byte.eqb x b then Some O
      else match index_of b l' with
           | Some k => Some (S k)
           | None => None
           end
  end.

(** [l.find(bytes([b]), start)]: the lowest index at or after [start]
    holding [b], or [-1]. *)
Definition find (b : byte) (l : bytes) (start : Z) : Z :=
  let s := clamp_index (len l) start in
  match index_of b (drop (Z.to_nat s) l) with
  | Some k => s + Z.of_nat k
  | None => -1
  end.

(** [l.split(bytes([sep]), 1)]: at most one split, at the first [sep]. *)
Definition split1 (sep : byte) (l : bytes) : list bytes :=
  match index_of sep l with
  | Some k => [take k l; drop (S k) l]
  | None => [l]
  end.

(** [s.startswith(p)] *)
Fixpoint startswith (s p : str) : bool :=
  match p, s with
  | [], _ => true
  | _ :: _, [] => false
  | c :: p', d :: s' => N.eqb c d && startswith s' p'
  end.

(** [s.lower()], on the ASCII letters (other code points are kept): exact
    for ASCII strings, which the queries of [find_object] are. *)
Definition lower_char (c : N) : N :=
  if (65 <=? c)%N && (c <=? 90)%N then (c + 32)%N else c.

Definition lower (s : str) : str := map lower_char s.

(** [str(n)] for a non-negative [n]: decimal digits, no sign. *)
Definition str_of_nat (n : N) : str :=
  lit (NilZero.string_of_uint (N.to_uint n)).

(** *** UTF-8 *)

Definition B (n : N) : byte := byte_of_Z (Z.of_N n).

(** [chr(c).encode("utf-8")]; a lone surrogate has no encoding. *)
Definition encode_char (c : N) : option bytes :=
  (if c <? 128 then Some [B c]
   else if c <? 2048 then
     Some [B (192 + c / 64); B (128 + c mod 64)]
   else if c <? 65536 then
     if (55296 <=? c) && (c <=? 57343) then None
     else Some [B (224 + c / 4096); B (128 + (c / 64) mod 64);
                B (128 + c mod 64)]
   else if c <? 1114112 then
     Some [B (240 + c / 262144); B (128 + (c / 4096) mod 64);
           B (128 + (c / 64) mod 64); B (128 + c mod 64)]
   else None)%N.

(** [s.encode("utf-8")] *)
Fixpoint encode_utf8 (s : str) : option bytes :=
  match s with
  | [] => Some []
  | c :: s' =>
      match encode_char c, encode_utf8 s' with
      | Some b, Some bs => Some (b ++ bs)
      | _, _ => None
      end
  end.

Definition V (b : byte) : N := Byte.to_N b.

Definition is_cont (b : byte) : bool := ((128 <=? V b) && (V b <=? 191))%N.

Definition in_range (lo hi : N) (b : byte) : bool :=
  ((lo <=? V b) && (V b <=? hi))%N.

(** Strict UTF-8 decoding of [b.decode("utf-8")]: shortest form only, no
    surrogates, nothing above U+10FFFF.  The recursion is on [fuel], which
    [decode_utf8] sets to the number of bytes. *)
Fixpoint decode_utf8_fuel (fuel : nat) (l : bytes) : option str :=
  match fuel with
  | O => match l with [] => Some [] | _ => None end
  | S fuel' =>
      match l with
      | [] => Some []
      | b0 :: l1 =>
          if (V b0 <? 128)%N then
            cons (V b0) <$> decode_utf8_fuel fuel' l1
          else if in_range 194 223 b0 then
            match l1 with
            | b1 :: l2 =>
                if is_cont b1 then
                  cons ((V b0 - 192) * 64 + (V b1 - 128))%N
                    <$> decode_utf8_fuel fuel' l2
                else None
            | _ => None
            end
          else if in_range 224 239 b0 then
            match l1 with
            | b1 :: b2 :: l3 =>
                if (if (V b0 =? 224)%N then in_range 160 191 b1
                    else if (V b0 =? 237)%N then in_range 128 159 b1
                    else is_cont b1) && is_cont b2 then
                  cons ((V b0 - 224) * 4096 + (V b1 - 128) * 64
                        + (V b2 - 128))%N
                    <$> decode_utf8_fuel fuel' l3
                else None
            | _ => None
            end
          else if in_range 240 244 b0 then
            match l1 with
            | b1 :: b2 :: b3 :: l4 =>
                if (if (V b0 =? 240)%N then in_range 144 191 b1
                    else if (V b0 =? 244)%N then in_range 128 143 b1
                    else is_cont b1) && is_cont b2 && is_cont b3 then
                  cons ((V b0 - 240) * 262144 + (V b1 - 128) * 4096
                        + (V b2 - 128) * 64 + (V b3 - 128))%N
                    <$> decode_utf8_fuel fuel' l4
                else None
            | _ => None
            end
          else None
      end
  end.

Definition decode_utf8 (l : bytes) : option str :=
  decode_utf8_fuel (length l) l.

(** *** [bytes.hex()] *)

Definition hex_digit (n : Z) : N :=
  Z.to_N (if n <? 10 then 48 + n else 87 + n).

Definition hex_byte (b : byte) : str :=
  [hex_digit (Z_of_byte b / 16); hex_digit (Z_of_byte b mod 16)].

Definition hex (l : bytes) : str := flat_map hex_byte l.

(** *** [int(b, 8)] on a bytes object

    CPython strips ASCII white space at both ends, takes one optional sign
    and one optional [0o]/[0O] prefix (which may be followed by a single
    underscore), then wants octal digits, single underscores allowed
    between digits only. *)

Definition is_space (b : byte) : bool :=
  let v := V b in
  ((v =? 32) || ((9 <=? v) && (v <=? 13)))%N.

Fixpoint lstrip (l : bytes) : bytes :=
  match l with
  | b :: l' => if is_space b then lstrip l' else l
  | [] => []
  end.

Definition rstrip (l : bytes) : bytes := rev (lstrip (rev l)).

Definition is_octal (b : byte) : bool := in_range 48 55 b.

(** Digits with single separating underscores; [prev_us] says that the
    previous byte was an underscore, [acc] is the value read so far. *)
Fixpoint octal_digits (l : bytes) (prev_us : bool) (acc : Z) : option Z :=
  match l with
  | [] => if prev_us then None else Some acc
  | b :: l' =>
      if is_octal b then octal_digits l' false (acc * 8 + (Z_of_byte b - 48))
      else if Byte.eqb b "_"%byte then
        if prev_us then None else octal_digits l' true acc
      else None
  end.

Definition int_base8 (l : bytes) : option Z :=
  let s := rstrip (lstrip l) in
  let '(neg, s) :=
    match s with
    | b :: s' =>
        if Byte.eqb b "-"%byte then (true, s')
        else if Byte.eqb b "+"%byte then (false, s')
        else (false, s)
    | [] => (false, s)
    end in
  let s :=
    match s with
    | b0 :: b1 :: s' =>
        if Byte.eqb b0 "0"%byte
           && (Byte.eqb b1 "o"%byte || Byte.eqb b1 "O"%byte) then
          match s' with
          | b2 :: s'' => if Byte.eqb b2 "_"%byte then s'' else s'
          | [] => s'
          end
        else s
    | _ => s
    end in
  match s with
  | b :: _ =>
      if is_octal b then
        (fun v : Z => if neg then - v else v) <$> octal_digits s false 0
      else None
  | [] => None
  end.

(** *** ["{:06o}".format(n)] *)

(** Octal digits of a positive number, most significant first. *)
Fixpoint octal_of_pos (p : positive) (acc : str) : str :=
  match p with
  | xH => 49%N :: acc
  | xO xH => 50%N :: acc
  | xI xH => 51%N :: acc
  | xO (xO xH) => 52%N :: acc
  | xI (xO xH) => 53%N :: acc
  | xO (xI xH) => 54%N :: acc
  | xI (xI xH) => 55%N :: acc
  | xO (xO (xO q)) => octal_of_pos q (48%N :: acc)
  | xI (xO (xO q)) => octal_of_pos q (49%N :: acc)
  | xO (xI (xO q)) => octal_of_pos q (50%N :: acc)
  | xI (xI (xO q)) => octal_of_pos q (51%N :: acc)
  | xO (xO (xI q)) => octal_of_pos q (52%N :: acc)
  | xI (xO (xI q)) => octal_of_pos q (53%N :: acc)
  | xO (xI (xI q)) => octal_of_pos q (54%N :: acc)
  | xI (xI (xI q)) => octal_of_pos q (55%N :: acc)
  end.

Definition octal_of_nat (n : Z) : str :=
  match n with
  | Zpos p => octal_of_pos p []
  | _ => [48%N]
  end.

(** Zero padding is sign-aware: the sign comes first and counts in the
    width. *)
Definition format_06o (n : Z) : str :=
  let digits := octal_of_nat (Z.abs n) in
  let sign := if n <? 0 then [45%N] else [] in
  let pad := (6 - length sign - length digits)%nat in
  sign ++ replicate pad 48%N ++ digits.

End Py.

(** ** [hashlib.sha1] (FIPS 180-4) *)

Module Sha1.

Definition w32 (x : Z) : Z := x mod 2 ^ 32.

Definition add32 (x y : Z) : Z := w32 (x + y).

Definition rotl (n x : Z) : Z :=
  w32 (Z.lor (Z.shiftl x n) (Z.shiftr x (32 - n))).

Definition not32 (x : Z) : Z := Z.lxor x 4294967295.

(** Big-endian bytes of the [n] low-order bytes of [x]. *)
Fixpoint be_bytes (n : nat) (x : Z) : bytes :=
  match n with
  | O => []
  | S n' => Py.byte_of_Z (Z.shiftr x (8 * Z.of_nat n')) :: be_bytes n' x
  end.

Definition be_word (l : bytes) : Z :=
  fold_left (fun acc b => acc * 256 + Py.Z_of_byte b) l 0.

(** Padding: a [1] bit, zeros up to 56 modulo 64, the bit length on 64
    bits. *)
Definition pad (msg : bytes) : bytes :=
  let n := Py.len msg in
  let zeros := Z.to_nat ((55 - n) mod 64) in
  msg ++ [Py.byte_of_Z 128] ++ replicate zeros x00 ++ be_bytes 8 (8 * n).

(** The blocks of 64 bytes; [fuel] bounds their number. *)
Fixpoint blocks (fuel : nat) (l : bytes) : list bytes :=
  match fuel with
  | O => []
  | S fuel' =>
      match l with
      | [] => []
      | _ => take 64 l :: blocks fuel' (drop 64 l)
      end
  end.

Fixpoint words (n : nat) (l : bytes) : list Z :=
  match n with
  | O => []
  | S n' => be_word (take 4 l) :: words n' (drop 4 l)
  end.

(** Message schedule, most recent word first. *)
Fixpoint schedule (n : nat) (ws : list Z) : list Z :=
  match n with
  | O => ws
  | S n' =>
      let w :=
        rotl 1 (Z.lxor (Z.lxor (Z.lxor (nth 2 ws 0) (nth 7 ws 0))
                          (nth 13 ws 0)) (nth 15 ws 0)) in
      schedule n' (w :: ws)
  end.

Record state := State { h0 : Z; h1 : Z; h2 : Z; h3 : Z; h4 : Z }.

Definition init : state :=
  State 1732584193 4023233417 2562383102 271733878 3285377520.

Definition round_f (t : nat) (b c d : Z) : Z :=
  if (t <? 20)%nat then Z.lor (Z.land b c) (Z.land (not32 b) d)
  else if (t <? 40)%nat then Z.lxor (Z.lxor b c) d
  else if (t <? 60)%nat then
    Z.lor (Z.lor (Z.land b c) (Z.land b d)) (Z.land c d)
  else Z.lxor (Z.lxor b c) d.

Definition round_k (t : nat) : Z :=
  if (t <? 20)%nat then 1518500249
  else if (t <? 40)%nat then 1859775393
  else if (t <? 60)%nat then 2400959708
  else 3395469782.

Fixpoint rounds (t : nat) (ws : list Z) (s : state) : state :=
  match ws with
  | [] => s
  | w :: ws' =>
      let '(State a b c d e) := s in
      let temp :=
        add32 (add32 (add32 (add32 (rotl 5 a) (round_f t b c d)) e)
                 (round_k t)) w in
      rounds (S t) ws' (State temp a (rotl 30 b) c d)
  end.

Definition compress_block (s : state) (block : bytes) : state :=
  let ws := rev (schedule 64 (rev (words 16 block))) in
  let '(State a b c d e) := rounds 0 ws s in
  State (add32 (h0 s) a) (add32 (h1 s) b) (add32 (h2 s) c)
        (add32 (h3 s) d) (add32 (h4 s) e).

(** [hashlib.sha1(msg).digest()] *)
Definition sha1 (msg : bytes) : bytes :=
  let p := pad msg in
  let s := fold_left compress_block (blocks (length p) p) init in
  be_bytes 4 (h0 s) ++ be_bytes 4 (h1 s) ++ be_bytes 4 (h2 s)
    ++ be_bytes 4 (h3 s) ++ be_bytes 4 (h4 s).

(** [hashlib.sha1(msg).hexdigest()] *)
Definition hexdigest (msg : bytes) : str := Py.hex (sha1 msg).

End Sha1.

(** A bytes literal of the source. *)
Definition ascii_bytes (s : string) : bytes := list_byte_of_string s.

(** ** Exceptions and results *)

(** The messages of the [ValueError]s the program raises or lets through. *)
Inductive value_error : Type :=
| AmbiguousPrefix (name : str) (count : nat)
    (* "Ambiguous prefix: {name} matches {len(matches)} objects" *)
| ExpectedObjectType (mode obj_type : str)
    (* "expected object type {}, got {}" *)
| UnexpectedMode (mode : str)
    (* "unexpected mode {mode!r}" *)
| NotEnoughValuesToUnpack
    (* unpacking [header.split(b" ", 1)] into two names *)
| InvalidLiteralForInt (literal : bytes).
    (* [int(mode_str, 8)] *)

Inductive exn : Type :=
| FileNotFoundError
| FileExistsError
| IsADirectoryError
| NotADirectoryError
| ValueError (v : value_error)
| UnicodeEncodeError
| UnicodeDecodeError
| ZlibError
| AssertionError (obj_type : str)
| OverflowError.

Inductive result (A : Type) : Type :=
| Ok (a : A)
| Raise (e : exn).
Arguments Ok {A} a.
Arguments Raise {A} e.

#[global] Instance result_ret : MRet result := fun _ a => Ok a.
#[global] Instance result_bind : MBind result := fun _ _ f r =>
  match r with
  | Ok a => f a
  | Raise e => Raise e
  end.

(** An optional value, or the exception [e]. *)
Definition or_raise {A} (e : exn) (o : option A) : result A :=
  match o with
  | Some a => Ok a
  | None => Raise e
  end.

(** ** [zlib] *)

Class Zlib : Type := {
  compress : bytes -> bytes;
  decompress : bytes -> option bytes;   (* [None]: [zlib.error] *)
  decompress_compress : forall b, decompress (compress b) = Some b
}.

(** ** Path components *)

(** A name that the operating system takes as one component of a path, and
    as that name: not empty, not [.] or [..], free of the separator [/] and
    of the NUL character, and of at most 255 bytes in UTF-8.  A file system
    model that looks names up as keys is exact for such names only: a name
    with a separator, [.] or [..] is resolved to another place by
    [os.path.join] and the operating system. *)
Definition component (c : str) : bool :=
  negb (bool_decide (c = []))
  && negb (bool_decide (c = Py.lit "."))
  && negb (bool_decide (c = Py.lit ".."))
  && forallb (fun x => negb (x =? 47)%N && negb (x =? 0)%N) c
  && match Py.encode_utf8 c with
     | Some b => bool_decide (length b <= 255)%nat
     | None => false
     end.

(** ** The directory [<git_dir>/objects] *)

(** The names looked up in these maps are path components; the functions
    below are exact where their arguments are (see [component]), which is
    so for the names made of hexadecimal digits that the program builds
    from an identifier. *)

(** What a bucket directory holds under a name. *)
Inductive entry : Type :=
| EFile (content : bytes)
| ESubdir.

(** What [objects] holds under a name. *)
Inductive node : Type :=
| NFile
| NDir (entries : gmap str entry).

(** [os.listdir]; only the set of names matters to the program. *)
Definition listdir {V} (m : gmap str V) : list str := (map_to_list m).*1.

(** [os.path.isdir(os.path.join(objects_dir, d))] *)
Definition isdir (fs : gmap str node) (d : str) : bool :=
  match fs !! d with
  | Some (NDir _) => true
  | _ => false
  end.

(** [os.path.exists(os.path.join(objects_dir, d, f))] *)
Definition path_exists (fs : gmap str node) (d f : str) : bool :=
  match fs !! d with
  | Some (NDir es) => bool_decide (is_Some (es !! f))
  | _ => false
  end.

(** [file_io.write_file(path, data, mode="wb", make_dirs=True)] for the path
    [objects/d/f]: [os.makedirs(parent, exist_ok=True)], then the file is
    opened for writing and replaced. *)
Definition write_file (fs : gmap str node) (d f : str) (data : bytes)
  : result (gmap str node) :=
  match fs !! d with
  | Some NFile => Raise FileExistsError
  | Some (NDir es) =>
      match es !! f with
      | Some ESubdir => Raise IsADirectoryError
      | _ => Ok (<[d := NDir (<[f := EFile data]> es)]> fs)
      end
  | None => Ok (<[d := NDir {[f := EFile data]}]> fs)
  end.

(** [file_io.read_file(path, mode="rb")] for the path [objects/d/f]; an
    empty [f] names the bucket itself. *)
Definition read_file (fs : gmap str node) (d f : str) : result bytes :=
  match fs !! d with
  | Some (NDir es) =>
      match f with
      | [] => Raise IsADirectoryError
      | _ =>
          match es !! f with
          | Some (EFile c) => Ok c
          | Some ESubdir => Raise IsADirectoryError
          | None => Raise FileNotFoundError
          end
      end
  | Some NFile => Raise NotADirectoryError
  | None => Raise FileNotFoundError
  end.

(** ** mygit.py *)

(** The argument [data: Union[bytes, str]] of [hash_object]. *)
Inductive py_data : Type :=
| PyBytes (b : bytes)
| PyStr (s : str).

Section Mygit.
Context `{Zlib}.

(** The bytes that are hashed and compressed: the header
    [f"{obj_type} {len(data_bytes)}\0".encode("utf-8")], then the data. *)
Definition object_full (obj_type : str) (data_bytes : bytes)
  : result bytes :=
  header ← or_raise UnicodeEncodeError
    (Py.encode_utf8
       (obj_type ++ Py.lit " "
          ++ Py.str_of_nat (N.of_nat (length data_bytes)) ++ [0%N]));
  mret (header ++ data_bytes).

Definition hash_object (data : py_data) (obj_type : str)
    (fs : gmap str node) : result (str * gmap str node) :=
  data_bytes ← match data with
                | PyStr s => or_raise UnicodeEncodeError (Py.encode_utf8 s)
                | PyBytes b => Ok b
                end;
  full ← object_full obj_type data_bytes;
  let sha := Sha1.hexdigest full in
  let compressed := compress full in
  fs' ← write_file fs (Py.slice_to sha 2) (Py.slice_from sha 2) compressed;
  mret (sha, fs').

(** The list [matches] that [find_object] builds for a name that is not 40
    characters long ([name] is already lower case). *)
Definition find_matches (name : str) (fs : gmap str node)
  : result (list str) :=
  if Py.len name <? 2 then
    Ok (flat_map
          (fun '(d, n) =>
             match n with
             | NFile => []
             | NDir es =>
                 filter (fun df => Py.startswith df name = true)
                   (map (fun f => d ++ f) (listdir es))
             end)
          (map_to_list fs))
  else
    let dir_prefix := Py.slice_to name 2 in
    let rest := Py.slice_from name 2 in
    match fs !! dir_prefix with
    | Some (NDir es) =>
        Ok (map (fun f => dir_prefix ++ f)
              (filter (fun f => Py.startswith f rest = true) (listdir es)))
    | _ => Raise FileNotFoundError
    end.

(** The end of [find_object]: no match, several matches, or
    [matches[0]]. *)
Definition unique_match (name : str) (matches : list str) : result str :=
  match matches with
  | [] => Raise FileNotFoundError
  | [m] => Ok m
  | _ => Raise (ValueError (AmbiguousPrefix name (length matches)))
  end.

Definition find_object (name : str) (fs : gmap str node) : result str :=
  let name := Py.lower name in
  if Py.len name =? 40 then
    if path_exists fs (Py.slice_to name 2) (Py.slice_from name 2)
    then Ok name
    else Raise FileNotFoundError
  else
    matches ← find_matches name fs;
    unique_match name matches.

(** The last five statements of [read_object]: the split of the
    decompressed bytes at the first NUL and of the header at its first
    space. *)
Definition parse_object (decompressed : bytes) : result (str * bytes) :=
  let header_end := Py.find x00 decompressed 0 in
  let header := Py.slice_to decompressed header_end in
  let data := Py.slice_from decompressed (header_end + 1) in
  match Py.split1 x20 header with
  | [obj_type; size_str] =>
      t ← or_raise UnicodeDecodeError (Py.decode_utf8 obj_type);
      mret (t, data)
  | _ => Raise (ValueError NotEnoughValuesToUnpack)
  end.

Definition read_object (sha : str) (fs : gmap str node)
  : result (str * bytes) :=
  full ← find_object sha fs;
  raw ← read_file fs (Py.slice_to full 2) (Py.slice_from full 2);
  decompressed ← or_raise ZlibError (decompress raw);
  parse_object decompressed.

(** *** [read_tree] *)

(** A yielded tuple [(mode_int, name, sha_hex)]. *)
Definition tree_entry : Type := Z * str * str.

(** How the iteration of a generator ends; [OutOfFuel] stands for a loop
    that is still running when the fuel of the model is used up. *)
Inductive gen_end : Type :=
| StopIteration
| GenRaise (e : exn)
| OutOfFuel.

(** The [while] loop of [read_tree] from cursor [i]: the entries yielded,
    in order, and how the iteration ends.  One unit of fuel per turn. *)
Fixpoint read_tree_loop (fuel : nat) (data : bytes) (i : Z)
  : list tree_entry * gen_end :=
  match fuel with
  | O => ([], OutOfFuel)
  | S fuel' =>
      if i <? Py.len data then
        let j := Py.find x20 data i in
        if j =? -1 then ([], StopIteration)
        else
          let mode_str := Py.slice data i j in
          let k := Py.find x00 data (j + 1) in
          match Py.decode_utf8 (Py.slice data (j + 1) k) with
          | None => ([], GenRaise UnicodeDecodeError)
          | Some name =>
              let sha_raw := Py.slice data (k + 1) (k + 21) in
              let sha_hex := Py.hex sha_raw in
              match Py.int_base8 mode_str with
              | None =>
                  ([], GenRaise (ValueError (InvalidLiteralForInt mode_str)))
              | Some mode_int =>
                  let '(es, e) := read_tree_loop fuel' data (k + 21) in
                  ((mode_int, name, sha_hex) :: es, e)
              end
          end
      else ([], StopIteration)
  end.

Definition read_tree (fuel : nat) (data : bytes)
  : list tree_entry * gen_end :=
  read_tree_loop fuel data 0.

(** *** [cat_file] *)

(** How a call that writes to standard output ends. *)
Inductive outcome : Type :=
| Returned
| Raised (e : exn)
| Running.

(** [print(s)] on a UTF-8 standard output. *)
Definition print (s : str) : result bytes :=
  or_raise UnicodeEncodeError (Py.encode_utf8 (s ++ [10%N])).

(** A mode that fits the C type [mode_t]: 32 bits, unsigned. *)
Definition fits_mode_t (mode : Z) : bool := (0 <=? mode) && (mode <? 2 ^ 32).

(** [stat.S_ISDIR(mode)], the function of the C module [_stat]: the mode is
    converted to [mode_t] first, and a negative or too large [int] raises
    [OverflowError]. *)
Definition S_ISDIR (mode : Z) : result bool :=
  if fits_mode_t mode then Ok (Z.land mode 61440 =? 16384)
  else Raise OverflowError.

(** The body of the [for] loop up to the string that is printed:
    [type_str = "tree" if stat.S_ISDIR(mode_int) else "blob"], then
    ["{:06o} {} {}\t{}".format(mode_int, type_str, sha1, path)]. *)
Definition tree_line (e : tree_entry) : result str :=
  let '(mode_int, path, sha1) := e in
  is_dir ← S_ISDIR mode_int;
  let type_str := if is_dir : bool then Py.lit "tree" else Py.lit "blob" in
  mret (Py.format_06o mode_int ++ Py.lit " " ++ type_str ++ Py.lit " " ++ sha1
          ++ [9%N] ++ path).

(** The [for] loop over [read_tree(data=data)]: the lines printed for the
    entries yielded, then the end [e] of the generator.  An exception of
    the body ends the loop; the entries after it are not asked for. *)
Fixpoint print_tree (es : list tree_entry) (e : gen_end)
  : bytes * outcome :=
  match es with
  | [] =>
      ([], match e with
           | StopIteration => Returned
           | GenRaise x => Raised x
           | OutOfFuel => Running
           end)
  | entry :: es' =>
      match tree_line entry ≫= print with
      | Ok line => let '(out, r) := print_tree es' e in (line ++ out, r)
      | Raise x => ([], Raised x)
      end
  end.

Definition is_in (x : str) (l : list string) : bool :=
  bool_decide (x ∈ map Py.lit l).

(** The bytes written to standard output and how the call ends. *)
Definition cat_file (fuel : nat) (mode sha : str) (fs : gmap str node)
  : bytes * outcome :=
  match read_object sha fs with
  | Raise e => ([], Raised e)
  | Ok (obj_type, data) =>
      if is_in mode ["commit"; "tree"; "blob"]%string then
        if bool_decide (obj_type ≠ mode) then
          ([], Raised (ValueError (ExpectedObjectType mode obj_type)))
        else (data, Returned)
      else if is_in mode ["-s"; "--size"; "size"]%string then
        match print (Py.str_of_nat (N.of_nat (length data))) with
        | Ok out => (out, Returned)
        | Raise e => ([], Raised e)
        end
      else if is_in mode ["-t"; "--type"; "type"]%string then
        match print obj_type with
        | Ok out => (out, Returned)
        | Raise e => ([], Raised e)
        end
      else if is_in mode ["-p"; "--pretty"; "pretty"]%string then
        if is_in obj_type ["commit"; "blob"]%string then (data, Returned)
        else if bool_decide (obj_type = Py.lit "tree") then
          let '(es, e) := read_tree fuel data in print_tree es e
        else ([], Raised (AssertionError obj_type))
      else ([], Raised (ValueError (UnexpectedMode mode)))
  end.

End Mygit.

(** ** Vocabulary of the properties *)

(** The three kinds of object. *)
Definition kinds : list str := map Py.lit ["blob"; "tree"; "commit"]%string.

(** The values of [mode] that [cat_file] knows. *)
Definition known_modes : list str :=
  map Py.lit ["commit"; "tree"; "blob"; "-s"; "--size"; "size";
              "-t"; "--type"; "type"; "-p"; "--pretty"; "pretty"]%string.

Definition is_ascii (s : str) : Prop := Forall (fun c => (c < 128)%N) s.

(** A lower-case hexadecimal digit. *)
Definition hex_lower (c : N) : bool :=
  ((48 <=? c) && (c <=? 57) || (97 <=? c) && (c <=? 102))%N.

Definition is_digit_char (c : N) : Prop := (48 <= c <= 57)%N.

Definition hex_name (n : nat) (s : str) : bool :=
  bool_decide (length s = n) && forallb hex_lower s.

(** A query, as [find_object] documents its argument: a string of
    hexadecimal digits, in either letter case.  The first two characters of
    a query are joined to the path of [objects] and the rest of a full
    identifier to the path of the bucket, so the model of the directory is
    exact for these queries, and not for one that holds [/], [.] or [..]. *)
Definition hex_query (q : str) : bool :=
  forallb (fun c => hex_lower (Py.lower_char c)) q.

(** The on-disk layout: [objects] holds bucket directories named by two
    hexadecimal digits, and a bucket holds files named by 38. *)
Definition entry_ok (f : str) (e : entry) : bool :=
  hex_name 38 f && match e with EFile _ => true | ESubdir => false end.

Definition node_ok (d : str) (n : node) : bool :=
  hex_name 2 d
  && match n with
     | NDir es => bool_decide (map_Forall (fun f e => entry_ok f e = true) es)
     | NFile => false
     end.

Definition store_wf (fs : gmap str node) : Prop :=
  map_Forall (fun d n => node_ok d n = true) fs.

(** The framed bytes, written as the specification words them: the ASCII
    header [<kind> <decimal length>], one null byte, the payload. *)
Definition framed (kind : str) (payload : bytes) : bytes :=
  map Py.B kind ++ [x20]
    ++ ascii_bytes (NilZero.string_of_uint
                      (N.to_uint (N.of_nat (length payload))))
    ++ [x00] ++ payload.

(** The object [(kind, payload)] is stored under the identifier [id]. *)
Definition stored `{Zlib} (fs : gmap str node) (id : str) (kind : str)
    (payload : bytes) : Prop :=
  length id = 40%nat
  /\ exists es,
       fs !! take 2 id = Some (NDir es)
       /\ es !! drop 2 id = Some (EFile (compress (framed kind payload))).

(** The identifiers in one bucket: bucket name, then entry name. *)
Definition bucket_ids (dn : str * node) : list str :=
  let '(d, n) := dn in
  match n with
  | NFile => []
  | NDir es => map (fun f => d ++ f) (listdir es)
  end.

(** The identifiers in the store. *)
Definition stored_ids (fs : gmap str node) : list str :=
  flat_map bucket_ids (map_to_list fs).

(** The stored identifiers that a query matches: those that start with it,
    letter case set aside. *)
Definition matching_ids (query : str) (fs : gmap str node) : list str :=
  filter (fun id => Py.startswith (Py.lower id) (Py.lower query) = true)
    (stored_ids fs).

(** *** The decode step, as the specification words it *)

(** [l.split(b" ")]: a split at every space. *)
Fixpoint split_all (sep : byte) (l : bytes) : list bytes :=
  match l with
  | [] => [[]]
  | b :: l' =>
      if Byte.eqb b sep then [] :: split_all sep l'
      else match split_all sep l' with
           | t :: ts => (b :: t) :: ts
           | [] => [[b]]
           end
  end.

Definition is_decimal (l : bytes) : bool :=
  match l with
  | [] => false
  | _ => forallb (Py.in_range 48 57) l
  end.

(** Framed bytes are malformed when they hold no null byte, when the part
    before the first null byte is not two tokens separated by a space, or
    when the second token is not a decimal number. *)
Definition spec_malformed_frame (b : bytes) : bool :=
  match Py.index_of x00 b with
  | None => true
  | Some k =>
      match split_all x20 (take k b) with
      | [_; size] => negb (is_decimal size)
      | _ => true
      end
  end.

(** *** The tree format, as the specification words it *)

(** A tree payload is well formed when, from the cursor on, every entry has
    its space, then its null byte, then 20 bytes. *)
Fixpoint spec_tree_well_formed (fuel : nat) (data : bytes) : bool :=
  match fuel with
  | O => match data with [] => true | _ => false end
  | S fuel' =>
      match data with
      | [] => true
      | _ =>
          match Py.index_of x20 data with
          | None => false
          | Some j =>
              match Py.index_of x00 (drop (S j) data) with
              | None => false
              | Some k =>
                  let rest := drop (S j + S k) data in
                  bool_decide (20 <= length rest)%nat
                  && spec_tree_well_formed fuel' (drop 20 rest)
              end
          end
      end
  end.

Definition spec_tree_malformed (data : bytes) : bool :=
  negb (spec_tree_well_formed (length data) data).

(** The bytes of one entry of a tree: mode, space, name, null byte, child
    identifier. *)
Definition raw_entry : Type := bytes * bytes * bytes.

Definition entry_bytes (e : raw_entry) : bytes :=
  let '(mode_str, name, sha_raw) := e in
  mode_str ++ [x20] ++ name ++ [x00] ++ sha_raw.

(** Its separators are the first space and the first null byte after it. *)
Definition entry_delimited (e : raw_entry) : Prop :=
  let '(mode_str, name, sha_raw) := e in
  (x20 ∉ mode_str) /\ (x00 ∉ name).

(** What [read_tree] yields for it, when the mode and the name parse. *)
Definition entry_value (e : raw_entry) : option tree_entry :=
  let '(mode_str, name, sha_raw) := e in
  match Py.int_base8 mode_str, Py.decode_utf8 name with
  | Some m, Some n => Some (m, n, Py.hex sha_raw)
  | _, _ => None
  end.

(** ** Sample data *)

(** A codec that satisfies [Zlib]: one marker byte in front of the data. *)
Definition tag_compress (b : bytes) : bytes := "x"%byte :: b.

Definition tag_decompress (b : bytes) : option bytes :=
  match b with
  | c :: b' => if Byte.eqb c "x"%byte then Some b' else None
  | [] => None
  end.

#[global] Instance tag_zlib : Zlib :=
  {| compress := tag_compress;
     decompress := tag_decompress;
     decompress_compress := fun b => eq_refl |}.

(** The payload of the repository's tests. *)
Definition hello : bytes := ascii_bytes "hello world" ++ [Py.byte_of_Z 10].

Definition hello_id : str :=
  Py.lit "3b18e512dba79e4c8300dd08aeb37f8e728b8dad".

Definition blob : str := Py.lit "blob".

(** The store after [hash_object(b"hello world\n")] in a new repository. *)
Definition hello_store : gmap str node :=
  {[ Py.lit "3b" :=
       NDir {[ drop 2 hello_id := EFile (tag_compress (framed blob hello)) ]} ]}.

(** A second blob whose identifier falls into the same bucket. *)
Definition v84 : bytes := ascii_bytes "v84" ++ [Py.byte_of_Z 10].

Definition v84_id : str :=
  Py.lit "3b8398cb79b29cf5403d669a1d0ad106b8086268".

Definition two_store : gmap str node :=
  {[ Py.lit "3b" :=
       NDir (<[ drop 2 v84_id := EFile (tag_compress (framed blob v84)) ]>
               {[ drop 2 hello_id :=
                    EFile (tag_compress (framed blob hello)) ]}) ]}.

(** The store that holds the second blob only. *)
Definition v84_store : gmap str node :=
  {[ Py.lit "3b" :=
       NDir {[ drop 2 v84_id := EFile (tag_compress (framed blob v84)) ]} ]}.

(** Framed bytes whose length token is not a number. *)
Definition bad_length_frame : bytes :=
  ascii_bytes "blob xyz" ++ [x00] ++ ascii_bytes "hello".

(** A tree payload whose only entry has 5 bytes of identifier. *)
Definition short_tree : bytes :=
  ascii_bytes "100644 a.txt" ++ [x00; x01; x02; x03; x04; x05].

(** A tree payload without any separator. *)
Definition junk_tree : bytes := ascii_bytes "junk".

(** A tree payload of 23 bytes without a null byte, with a space after
    position 20. *)
Definition loop_tree : bytes := ascii_bytes "1 aaaaaaaaaaaaaaaaaa7 x".

(** The payload of a tree with the one entry [a.txt], and its identifier;
    the store that holds this tree. *)
Definition a_tree : bytes :=
  ascii_bytes "100644 a.txt"
    ++ [x00; x3b; x18; xe5; x12; xdb; xa7; x9e; x4c; x83; x00;
        xdd; x08; xae; xb3; x7f; x8e; x72; x8b; x8d; xad].

Definition a_tree_id : str :=
  Py.lit "ebaa691b5554f29ac9d4f37811a1da6f24d376a1".

Definition tree_store : gmap str node :=
  {[ Py.lit "eb" :=
       NDir {[ drop 2 a_tree_id :=
                 EFile (tag_compress (framed (Py.lit "tree") a_tree)) ]} ]}.

(** One whole entry, and one cut short. *)
Definition file_entry : raw_entry :=
  (ascii_bytes "100644", ascii_bytes "a.txt",
   [x3b; x18; xe5; x12; xdb; xa7; x9e; x4c; x83; x00;
    xdd; x08; xae; xb3; x7f; x8e; x72; x8b; x8d; xad]).

Definition dir_entry_short : raw_entry :=
  (ascii_bytes "40000", ascii_bytes "dir", [x0a; x0b; x0c]).

(** The tree [a_tree] with a second entry whose mode is [-1], its
    identifier, and the store that holds this tree. *)
Definition neg_tree : bytes :=
  a_tree ++ ascii_bytes "-1 b" ++ x00 :: replicate 20 x00.

Definition neg_tree_id : str :=
  match hash_object (PyBytes neg_tree) (Py.lit "tree") ∅ with
  | Ok (sha, _) => sha
  | Raise _ => []
  end.

Definition neg_tree_store : gmap str node :=
  match hash_object (PyBytes neg_tree) (Py.lit "tree") ∅ with
  | Ok (_, fs) => fs
  | Raise _ => ∅
  end.

(** ** The rest of mygit.py *)

(** [s.endswith(suffix)] *)
Definition endswith (s suffix : str) : bool :=
  Py.startswith (rev s) (rev suffix).

(** [os.path.join(a, b)] on a POSIX system ([os.sep] is ["/"]). *)
Definition path_join (a b : str) : str :=
  if Py.startswith b (Py.lit "/") then b
  else if bool_decide (a = []) || endswith a (Py.lit "/") then a ++ b
  else a ++ Py.lit "/" ++ b.

(** [_get_git_dir(repo)]; [cwd] is what [os.getcwd()] returns. *)
Definition _get_git_dir (cwd : str) (repo : option str) : str :=
  match repo with
  | None => path_join cwd (Py.lit ".git")
  | Some repo =>
      if endswith repo (Py.lit "/" ++ Py.lit ".git")
         || endswith repo (Py.lit ".git")
      then repo
      else path_join repo (Py.lit ".git")
  end.

(** The flags of the [cat-file] sub-command, as [argparse] hands them over. *)
Record cat_file_args : Type := CatFileArgs {
  arg_pretty : bool;
  arg_type : bool;
  arg_size : bool;
  arg_blob : bool;
  arg_tree : bool;
  arg_commit : bool
}.

(** The [mode] that the command line passes to [cat_file]; [None] stands for
    [SystemExit("No mode specified for cat-file")]. *)
Definition cli_mode (args : cat_file_args) : option str :=
  if arg_pretty args then Some (Py.lit "pretty")
  else if arg_type args then Some (Py.lit "type")
  else if arg_size args then Some (Py.lit "size")
  else if arg_blob args then Some (Py.lit "blob")
  else if arg_tree args then Some (Py.lit "tree")
  else if arg_commit args then Some (Py.lit "commit")
  else None.

(** How [cat_file] ends when the generator of [read_tree] ends with [e]. *)
Definition outcome_of (e : gen_end) : outcome :=
  match e with
  | StopIteration => Returned
  | GenRaise x => Raised x
  | OutOfFuel => Running
  end.

(** The exceptions that [read_object] lets through. *)
Definition read_object_error (e : exn) : Prop :=
  match e with
  | FileNotFoundError | IsADirectoryError | NotADirectoryError
  | ZlibError | UnicodeDecodeError
  | ValueError NotEnoughValuesToUnpack => True
  | ValueError (AmbiguousPrefix _ n) => (2 <= n)%nat
  | _ => False
  end.

(** The mode of a yielded tuple fits [mode_t]. *)
Definition mode_fits (e : tree_entry) : bool := fits_mode_t e.1.1.

(** What holds of every yielded tuple: the name is a decoded string, the
    identifier is lower-case hexadecimal, two digits per byte and at most
    20 bytes. *)
Definition entry_sound (e : tree_entry) : Prop :=
  (exists nb, Py.decode_utf8 nb = Some e.1.2)
  /\ forallb hex_lower e.2 = true
  /\ exists n, (n <= 20)%nat /\ length e.2 = (2 * n)%nat.

(** The store is content-addressed: every file of a bucket holds a
    compressed frame whose digest is the name of the bucket followed by the
    name of the file. *)
Definition content_addressed `{Zlib} (fs : gmap str node) : Prop :=
  forall d es f c,
    fs !! d = Some (NDir es) -> es !! f = Some (EFile c) ->
    exists full, decompress c = Some full /\ Sha1.hexdigest full = d ++ f.

(** ** More sample data *)

(** A blob written with the kind [tag v1], and the store that holds it. *)
Definition tag_v1_id : str :=
  Py.lit "df546ea9ae4e3d864118a6160528dd856fd9ee45".

Definition tag_v1_store : gmap str node :=
  {[ Py.lit "df" :=
       NDir {[ drop 2 tag_v1_id :=
                 EFile (tag_compress
                          (ascii_bytes "tag v1 12" ++ [x00] ++ hello)) ]} ]}.

(** A store in which a file stands where the bucket [3b] should be. *)
Definition blocked_store : gmap str node := {[ Py.lit "3b" := NFile ]}.

(** A store whose one object declares a size of 999 bytes. *)
Definition wrong_size_id : str :=
  Py.lit "d040e31ab75939913f50270456debc5b190769aa".

Definition wrong_size_store : gmap str node :=
  {[ Py.lit "d0" :=
       NDir {[ drop 2 wrong_size_id :=
                 EFile (tag_compress
                          (ascii_bytes "blob 999" ++ [x00] ++ hello)) ]} ]}.

(** ** The file system as a tree, for [init] *)

(** [init] makes directories several levels deep and writes text files, so
    its file system is a tree from the root.  A path is the list of its
    components; the operating system is POSIX (one separator, [\n] written
    as it is). *)

(** A file, or a directory with its entries. *)
#[warnings="-register-all"]
Inductive tree : Type :=
| TFile (content : bytes)
| TDir (children : gmap str tree).

(** A path, as its components from the root of the tree. *)
Abbreviation path := (list str).

(** A path made of names that are components. *)
Definition plain_path (p : path) : Prop :=
  Forall (fun c => component c = true) p.

Fixpoint tlookup (t : tree) (p : path) : option tree :=
  match p with
  | [] => Some t
  | c :: p' =>
      match t with
      | TDir m => m !! c ≫= fun t' => tlookup t' p'
      | TFile _ => None
      end
  end.

(** [os.path.exists(p)] *)
Definition texists (t : tree) (p : path) : bool :=
  match tlookup t p with
  | Some _ => true
  | None => false
  end.

(** [os.path.isdir(p)] *)
Definition tisdir (t : tree) (p : path) : bool :=
  match tlookup t p with
  | Some (TDir _) => true
  | _ => false
  end.

(** The content of the regular file at [p]. *)
Definition tfile (t : tree) (p : path) : option bytes :=
  match tlookup t p with
  | Some (TFile c) => Some c
  | _ => None
  end.

(** [os.mkdir(p)]: the parent has to be a directory and the name free. *)
Fixpoint mkdir (p : path) (t : tree) : result tree :=
  match p with
  | [] => Raise FileExistsError
  | c :: p' =>
      match t with
      | TFile _ => Raise NotADirectoryError
      | TDir m =>
          match p' with
          | [] =>
              match m !! c with
              | Some _ => Raise FileExistsError
              | None => Ok (TDir (<[c := TDir ∅]> m))
              end
          | _ =>
              match m !! c with
              | Some t' =>
                  match mkdir p' t' with
                  | Ok t'' => Ok (TDir (<[c := t'']> m))
                  | Raise e => Raise e
                  end
              | None => Raise FileNotFoundError
              end
          end
      end
  end.

(** [os.makedirs(p, exist_ok=True)]: the parent is made first when it does
    not exist (a [FileExistsError] of that call is passed over), then the
    directory is made; an error of [os.mkdir] is passed over when the path
    is a directory.  [fuel] is the length of the path. *)
Fixpoint makedirs_fuel (fuel : nat) (t : tree) (p : path) : result tree :=
  let parent := removelast p in
  match
    match fuel with
    | S fuel' =>
        if negb (texists t parent) then
          match makedirs_fuel fuel' t parent with
          | Ok t1 => Ok t1
          | Raise FileExistsError => Ok t
          | Raise e => Raise e
          end
        else Ok t
    | O => Ok t
    end
  with
  | Ok t1 =>
      match mkdir p t1 with
      | Ok t2 => Ok t2
      | Raise e => if tisdir t1 p then Ok t1 else Raise e
      end
  | Raise e => Raise e
  end.

Definition makedirs (t : tree) (p : path) : result tree :=
  makedirs_fuel (length p) t p.

(** [open(p, "w")], then the write of [content]: the file is made or
    replaced. *)
Fixpoint open_write (p : path) (content : bytes) (t : tree) : result tree :=
  match p with
  | [] => Raise IsADirectoryError
  | c :: p' =>
      match t with
      | TFile _ => Raise NotADirectoryError
      | TDir m =>
          match p' with
          | [] =>
              match m !! c with
              | Some (TDir _) => Raise IsADirectoryError
              | _ => Ok (TDir (<[c := TFile content]> m))
              end
          | _ =>
              match m !! c with
              | Some t' =>
                  match open_write p' content t' with
                  | Ok t'' => Ok (TDir (<[c := t'']> m))
                  | Raise e => Raise e
                  end
              | None => Raise FileNotFoundError
              end
          end
      end
  end.

(** [file_io.write_file(p, data, mode="w", make_dirs=True)] for a string
    [data]: the parent directories, then the file is opened (made or
    emptied) and the encoded text (UTF-8, [\n] kept as it is) written. *)
Definition write_file_text (t : tree) (p : path) (data : str) : result tree :=
  t1 ← makedirs t (removelast p);
  t2 ← open_write p [] t1;
  content ← or_raise UnicodeEncodeError (Py.encode_utf8 data);
  open_write p content t2.

(** The constants of [init]. *)
Definition init_dirs : list path :=
  [[Py.lit "objects"]; [Py.lit "refs"; Py.lit "heads"];
   [Py.lit "refs"; Py.lit "tags"]; [Py.lit "hooks"]; [Py.lit "info"]].

Definition head_content : str := Py.lit "ref: refs/heads/master" ++ [10%N].

Definition config_content : str :=
  Py.lit "[core]" ++ [10%N; 9%N] ++ Py.lit "repositoryformatversion = 0"
    ++ [10%N; 9%N] ++ Py.lit "filemode = true"
    ++ [10%N; 9%N] ++ Py.lit "bare = false" ++ [10%N].

Definition description_content : str :=
  Py.lit "Unnamed repository; edit this file 'description' to name the "
    ++ Py.lit "repository." ++ [10%N].

(** The [for] loop of [init] over [dirs]. *)
Fixpoint makedirs_all (t : tree) (git_dir_path : path) (dirs : list path)
  : result tree :=
  match dirs with
  | [] => Ok t
  | d :: dirs' =>
      match makedirs t (git_dir_path ++ d) with
      | Ok t1 => makedirs_all t1 git_dir_path dirs'
      | Raise e => Raise e
      end
  end.

(** [init(repo_name, base_path)] for a [repo_name] that is one path
    component; [base_path] is the path given, or [os.getcwd()].  [file_io]
    is the module of the repository, so the files are written by its
    [write_file].

    [os.path.join(base_path, repo_name)] is the path with one more
    component only when [repo_name] is a [component]: for [.], [..], the
    empty string or a name with [/] the program works in another directory
    than this model.  The properties of [init] are stated for a [repo_name]
    and paths made of components ([plain_path]). *)
Definition init (repo_name : str) (base_path : path) (t : tree)
  : result (path * tree) :=
  let repo_path := base_path ++ [repo_name] in
  t1 ← makedirs t repo_path;
  let git_dir_path := repo_path ++ [Py.lit ".git"] in
  t2 ← makedirs_all t1 git_dir_path init_dirs;
  t3 ← write_file_text t2 (git_dir_path ++ [Py.lit "HEAD"]) head_content;
  t4 ← write_file_text t3 (git_dir_path ++ [Py.lit "config"]) config_content;
  t5 ← write_file_text t4 (git_dir_path ++ [Py.lit "description"])
         description_content;
  mret (repo_path, t5).

Definition empty_root : tree := TDir ∅.

(** [newline=None] on reading: [\r\n] and [\r] become [\n]. *)
Fixpoint universal_newlines (s : str) : str :=
  match s with
  | [] => []
  | c :: s' =>
      if (c =? 13)%N then
        match s' with
        | d :: s'' =>
            if (d =? 10)%N then 10%N :: universal_newlines s''
            else 10%N :: universal_newlines s'
        | [] => [10%N]
        end
      else c :: universal_newlines s'
  end.

(** [file_io.read_file(p, mode="r")]: the file in text mode (UTF-8). *)
Definition read_file_text (t : tree) (p : path) : result str :=
  match tlookup t p with
  | Some (TFile content) =>
      s ← or_raise UnicodeDecodeError (Py.decode_utf8 content);
      mret (universal_newlines s)
  | Some (TDir _) => Raise IsADirectoryError
  | None =>
      if existsb (fun n => match tfile t (take n p) with
                           | Some _ => true
                           | None => false
                           end) (seq 0 (length p))
      then Raise NotADirectoryError
      else Raise FileNotFoundError
  end.

(** [git_dir_path] of [init]. *)
Definition git_dir (repo_name : str) (base_path : path) : path :=
  (base_path ++ [repo_name]) ++ [Py.lit ".git"].

(** The files [init] writes, each with its text. *)
Definition init_files : list (str * str) :=
  [(Py.lit "HEAD", head_content); (Py.lit "config", config_content);
   (Py.lit "description", description_content)].

(** Nothing stands in the way of [init]: no regular file on the path of a
    directory of the layout, and no directory where a file goes. *)
Definition init_ready (repo_name : str) (base_path : path) (t : tree) : Prop :=
  (forall d q,
      d ∈ init_dirs -> q `prefix_of` git_dir repo_name base_path ++ d ->
      tfile t q = None) /\
  (forall f c, (f, c) ∈ init_files ->
          tisdir t (git_dir repo_name base_path ++ [f]) = false).

(** The tree [init("repo", "/")] leaves of an empty root. *)
Definition fresh_repo : tree :=
  match init (Py.lit "repo") [] empty_root with
  | Ok (_, t) => t
  | Raise _ => empty_root
  end.

(** A root where [repo] is a regular file, and one where [repo/.git] is. *)
Definition file_root : tree := TDir {[ Py.lit "repo" := TFile [] ]}.

Definition git_file_root : tree :=
  TDir {[ Py.lit "repo" := TDir {[ Py.lit ".git" := TFile [] ]} ]}.

(** * Properties *)

(** ** Facts on the built-ins *)

Lemma byte_eqb_true (x y : byte) : Byte.eqb x y = true <-> x = y.
Proof. split; [apply Byte.byte_dec_bl | apply Byte.byte_dec_lb]. Qed.

Lemma byte_eqb_false (x y : byte) : Byte.eqb x y = false <-> x <> y.
Proof.
  split.
  - apply Byte.eqb_false.
  - intros Hne. destruct (Byte.eqb x y) eqn:E; [|done].
    by apply byte_eqb_true in E.
Qed.

Lemma len_app {A} (l1 l2 : list A) : Py.len (l1 ++ l2) = Py.len l1 + Py.len l2.
Proof. unfold Py.len. rewrite length_app. lia. Qed.

Lemma len_nonneg {A} (l : list A) : 0 <= Py.len l.
Proof. unfold Py.len. lia. Qed.

Lemma index_of_notin (b : byte) (l : bytes) :
  b ∉ l -> Py.index_of b l = None.
Proof.
  induction l as [|x l IH]; [done|].
  intros Hn. apply not_elem_of_cons in Hn as [Hx Hl]. simpl.
  rewrite (proj2 (byte_eqb_false x b)) by congruence.
  by rewrite IH.
Qed.

Lemma index_of_app (b : byte) (l r : bytes) :
  b ∉ l -> Py.index_of b (l ++ b :: r) = Some (length l).
Proof.
  induction l as [|x l IH]; simpl.
  - intros _. by rewrite (proj2 (byte_eqb_true b b)).
  - intros Hn. apply not_elem_of_cons in Hn as [Hx Hl].
    rewrite (proj2 (byte_eqb_false x b)) by congruence.
    by rewrite IH.
Qed.

Lemma index_of_Some (b : byte) (l : bytes) (k : nat) :
  Py.index_of b l = Some k ->
  l = take k l ++ b :: drop (S k) l /\ b ∉ take k l.
Proof.
  revert k. induction l as [|x l IH]; intros k; simpl; [done|].
  destruct (Byte.eqb x b) eqn:E.
  - apply byte_eqb_true in E as ->. intros [= <-]. simpl.
    split; [by rewrite drop_0 | apply not_elem_of_nil].
  - apply byte_eqb_false in E.
    destruct (Py.index_of b l) as [k'|] eqn:Ek; [|done].
    intros [= <-]. destruct (IH k' eq_refl) as [Hl Hn]. simpl. split.
    + by rewrite <- Hl.
    + apply not_elem_of_cons. split; [congruence | done].
Qed.

Lemma index_of_None (b : byte) (l : bytes) :
  Py.index_of b l = None -> b ∉ l.
Proof.
  induction l as [|x l IH]; simpl; [intros _; apply not_elem_of_nil|].
  destruct (Byte.eqb x b) eqn:E; [done|].
  apply byte_eqb_false in E.
  destruct (Py.index_of b l); [done|].
  intros _. apply not_elem_of_cons. split; [congruence | by apply IH].
Qed.

(** A slice with bounds that are not negative is a [take] of a [drop]. *)
Lemma slice_take_drop {A} (l : list A) (a b : Z) :
  0 <= a -> 0 <= b ->
  Py.slice l a b = take (Z.to_nat b - Z.to_nat a) (drop (Z.to_nat a) l).
Proof.
  intros Ha Hb. unfold Py.slice, Py.clamp_index, Py.len.
  rewrite (proj2 (Z.ltb_ge a 0)), (proj2 (Z.ltb_ge b 0)) by done.
  destruct (decide (Z.of_nat (length l) <= a)) as [Hge|Hlt].
  - rewrite !drop_ge by lia. by rewrite !take_nil.
  - rewrite (Z.min_l a) by lia.
    destruct (decide (Z.of_nat (length l) <= b)) as [Hbge|Hblt].
    + rewrite (Z.min_r b) by lia.
      rewrite !take_ge; [done| |]; rewrite length_drop; lia.
    + rewrite (Z.min_l b) by lia. f_equal. lia.
Qed.

Lemma slice_to_take {A} (l : list A) (n : nat) :
  Py.slice_to l (Z.of_nat n) = take n l.
Proof.
  unfold Py.slice_to. rewrite slice_take_drop by lia.
  simpl. rewrite drop_0. f_equal. lia.
Qed.

Lemma slice_from_drop {A} (l : list A) (n : nat) :
  Py.slice_from l (Z.of_nat n) = drop n l.
Proof.
  unfold Py.slice_from. rewrite slice_take_drop by (unfold Py.len; lia).
  rewrite Nat2Z.id. apply take_ge. rewrite length_drop. unfold Py.len. lia.
Qed.

Lemma slice_mid {A} (p x r : list A) :
  Py.slice (p ++ x ++ r) (Py.len p) (Py.len p + Py.len x) = x.
Proof.
  unfold Py.len. rewrite slice_take_drop by lia.
  rewrite Nat2Z.id, drop_app_length.
  replace (Z.to_nat _ - _)%nat with (length x) by lia.
  by rewrite take_app_length.
Qed.

(** The stop bound of a slice may lie beyond the end. *)
Lemma slice_beyond {A} (p x : list A) (b : Z) :
  Py.len p + Py.len x <= b ->
  Py.slice (p ++ x) (Py.len p) b = x.
Proof.
  unfold Py.len. intros Hb. rewrite slice_take_drop by lia.
  rewrite Nat2Z.id, drop_app_length. apply take_ge. lia.
Qed.

Lemma find_from (b : byte) (l : bytes) (s : nat) :
  (s <= length l)%nat ->
  Py.find b l (Z.of_nat s)
  = match Py.index_of b (drop s l) with
    | Some k => Z.of_nat (s + k)
    | None => -1
    end.
Proof.
  intros Hs. unfold Py.find, Py.clamp_index, Py.len.
  rewrite (proj2 (Z.ltb_ge (Z.of_nat s) 0)) by lia.
  rewrite Z.min_l, Nat2Z.id by lia.
  destruct (Py.index_of b (drop s l)); [lia | done].
Qed.

Lemma find_0 (b : byte) (l : bytes) :
  Py.find b l 0
  = match Py.index_of b l with
    | Some k => Z.of_nat k
    | None => -1
    end.
Proof.
  change 0 with (Z.of_nat 0). rewrite find_from by lia. by rewrite drop_0.
Qed.

(** The first [b] after a prefix [p] and a [b]-free stretch [x]. *)
Lemma find_app (b : byte) (p x r : bytes) :
  b ∉ x -> Py.find b (p ++ x ++ b :: r) (Py.len p) = Py.len p + Py.len x.
Proof.
  intros Hx. unfold Py.len. rewrite find_from by (rewrite length_app; lia).
  rewrite drop_app_length, index_of_app by done. lia.
Qed.

Lemma find_absent (b : byte) (p x : bytes) :
  b ∉ x -> Py.find b (p ++ x) (Py.len p) = -1.
Proof.
  intros Hx. unfold Py.len. rewrite find_from by (rewrite length_app; lia).
  by rewrite drop_app_length, index_of_notin.
Qed.

(** *** UTF-8 and ASCII *)

Lemma V_B (c : N) : (c < 256)%N -> Py.V (Py.B c) = c.
Proof.
  intros Hc. unfold Py.V, Py.B, Py.byte_of_Z.
  rewrite Z.mod_small by lia. rewrite N2Z.id.
  destruct (Byte.of_N c) as [b|] eqn:E.
  - by apply Byte.to_of_N.
  - apply Byte.of_N_None_iff in E. lia.
Qed.

Lemma B_inj_small (c d : N) :
  (c < 256)%N -> (d < 256)%N -> Py.B c = Py.B d -> c = d.
Proof.
  intros Hc Hd Heq. rewrite <- (V_B c), <- (V_B d) by done. by rewrite Heq.
Qed.

Lemma B_of_ascii (a : ascii) : Py.B (N_of_ascii a) = byte_of_ascii a.
Proof. destruct a as [[] [] [] [] [] [] [] []]; reflexivity. Qed.

Lemma map_B_lit (s : string) : map Py.B (Py.lit s) = ascii_bytes s.
Proof.
  unfold Py.lit, ascii_bytes, list_byte_of_string.
  rewrite map_map. apply map_ext. intros a. apply B_of_ascii.
Qed.

Lemma is_ascii_app (s t : str) : is_ascii s -> is_ascii t -> is_ascii (s ++ t).
Proof. apply Forall_app_2. Qed.

Lemma encode_utf8_ascii (s : str) :
  is_ascii s -> Py.encode_utf8 s = Some (map Py.B s).
Proof.
  induction 1 as [|c s Hc _ IH]; [done|]. simpl.
  unfold Py.encode_char. rewrite (proj2 (N.ltb_lt c 128)) by done.
  by rewrite IH.
Qed.

Lemma decode_utf8_fuel_ascii (s : str) (fuel : nat) :
  is_ascii s -> (length s <= fuel)%nat ->
  Py.decode_utf8_fuel fuel (map Py.B s) = Some s.
Proof.
  intros Hs. revert fuel.
  induction Hs as [|c s Hc _ IH]; intros fuel Hf; [by destruct fuel|].
  destruct fuel as [|fuel]; [simpl in Hf; lia|].
  simpl. rewrite V_B by lia.
  rewrite (proj2 (N.ltb_lt c 128)) by done.
  rewrite IH by (simpl in Hf; lia). done.
Qed.

Lemma decode_utf8_ascii (s : str) :
  is_ascii s -> Py.decode_utf8 (map Py.B s) = Some s.
Proof.
  intros Hs. apply decode_utf8_fuel_ascii; [done|]. by rewrite length_map.
Qed.

Lemma notin_map_B (c : N) (s : str) :
  (c < 128)%N -> is_ascii s -> c ∉ s -> Py.B c ∉ map Py.B s.
Proof.
  intros Hc Hs Hn Hin. apply list_elem_of_fmap in Hin as (d & Heq & Hd).
  apply Hn. assert (d < 128)%N by (by eapply Forall_forall in Hs; [|done]).
  apply B_inj_small in Heq; [by subst | lia | lia].
Qed.

(** *** Decimal digits *)

Lemma string_of_uint_digits (u : Decimal.uint) :
  Forall is_digit_char (Py.lit (NilEmpty.string_of_uint u)).
Proof.
  induction u; simpl; constructor; try done; unfold is_digit_char; simpl; lia.
Qed.

Lemma str_of_nat_digits (n : N) : Forall is_digit_char (Py.str_of_nat n).
Proof.
  unfold Py.str_of_nat, NilZero.string_of_uint.
  destruct (N.to_uint n) eqn:E; try (rewrite <- E; apply string_of_uint_digits).
  repeat constructor; unfold is_digit_char; simpl; lia.
Qed.

Lemma digits_ascii (s : str) : Forall is_digit_char s -> is_ascii s.
Proof.
  intros Hs. eapply Forall_impl; [exact Hs|].
  unfold is_digit_char. intros c ?. simpl. lia.
Qed.

Lemma digits_notin (c : N) (s : str) :
  (c < 48)%N -> Forall is_digit_char s -> c ∉ s.
Proof.
  intros Hc Hs Hin. eapply Forall_forall in Hs; [|done].
  unfold is_digit_char in Hs. lia.
Qed.

(** *** Hexadecimal names *)

Lemma Z_of_byte_range (b : byte) : 0 <= Py.Z_of_byte b < 256.
Proof.
  unfold Py.Z_of_byte. pose proof (Byte.to_N_bounded b). lia.
Qed.

Lemma hex_digit_lower (n : Z) : 0 <= n < 16 -> hex_lower (Py.hex_digit n) = true.
Proof.
  intros Hn. unfold Py.hex_digit, hex_lower.
  destruct (n <? 10) eqn:E;
    [apply Z.ltb_lt in E | apply Z.ltb_ge in E];
    apply orb_true_iff; [left | right];
    apply andb_true_iff; split; apply N.leb_le; lia.
Qed.

Lemma hex_length (l : bytes) : length (Py.hex l) = (2 * length l)%nat.
Proof. induction l as [|b l IH]; simpl; [done | lia]. Qed.

Lemma hex_lower_hex (l : bytes) : forallb hex_lower (Py.hex l) = true.
Proof.
  induction l as [|b l IH]; [done|]. simpl.
  pose proof (Z_of_byte_range b).
  rewrite !hex_digit_lower, IH; [done| |].
  - apply Z.mod_pos_bound. lia.
  - split; [apply Z.div_pos; lia | apply Z.div_lt_upper_bound; lia].
Qed.

Lemma lower_hex_lower (s : str) : forallb hex_lower s = true -> Py.lower s = s.
Proof.
  induction s as [|c s IH]; [done|]. simpl.
  intros [Hc Hs]%andb_true_iff. rewrite IH by done. f_equal.
  unfold Py.lower_char, hex_lower in *.
  destruct ((65 <=? c)%N && (c <=? 90)%N) eqn:E; [|done].
  apply andb_true_iff in E as [?%N.leb_le ?%N.leb_le].
  apply orb_true_iff in Hc
    as [[?%N.leb_le ?%N.leb_le]%andb_true_iff
       |[?%N.leb_le ?%N.leb_le]%andb_true_iff]; lia.
Qed.

Lemma sha1_length (msg : bytes) : length (Sha1.sha1 msg) = 20%nat.
Proof. unfold Sha1.sha1. by rewrite !length_app. Qed.

Lemma hexdigest_length (msg : bytes) : length (Sha1.hexdigest msg) = 40%nat.
Proof. unfold Sha1.hexdigest. by rewrite hex_length, sha1_length. Qed.

Lemma hexdigest_lower (msg : bytes) :
  forallb hex_lower (Sha1.hexdigest msg) = true.
Proof. apply hex_lower_hex. Qed.

Lemma forallb_take {A} (p : A -> bool) (l : list A) (n : nat) :
  forallb p l = true -> forallb p (take n l) = true.
Proof.
  revert n. induction l as [|x l IH]; intros [|n]; simpl; try done.
  intros [-> ?]%andb_true_iff. simpl. by apply IH.
Qed.

Lemma forallb_drop {A} (p : A -> bool) (l : list A) (n : nat) :
  forallb p l = true -> forallb p (drop n l) = true.
Proof.
  revert n. induction l as [|x l IH]; intros [|n]; simpl; try done.
  intros [_ ?]%andb_true_iff. by apply IH.
Qed.

Lemma hex_name_bucket (msg : bytes) :
  hex_name 2 (take 2 (Sha1.hexdigest msg)) = true.
Proof.
  unfold hex_name. apply andb_true_iff. split.
  - apply bool_decide_eq_true. rewrite length_take, hexdigest_length. lia.
  - apply forallb_take, hexdigest_lower.
Qed.

Lemma hex_name_entry (msg : bytes) :
  hex_name 38 (drop 2 (Sha1.hexdigest msg)) = true.
Proof.
  unfold hex_name. apply andb_true_iff. split.
  - apply bool_decide_eq_true. rewrite length_drop, hexdigest_length. lia.
  - apply forallb_drop, hexdigest_lower.
Qed.

(** *** The files of the store *)

Lemma write_file_stored (fs fs' : gmap str node) (d f : str) (data : bytes) :
  write_file fs d f data = Ok fs' ->
  exists es, fs' !! d = Some (NDir es) /\ es !! f = Some (EFile data).
Proof.
  unfold write_file. intros Hw.
  destruct (fs !! d) as [[|es]|] eqn:Ed; [done| |].
  - destruct (es !! f) as [[c|]|] eqn:Ef; [| done |];
      injection Hw as <-; eexists; rewrite !lookup_insert_eq; done.
  - injection Hw as <-. eexists.
    by rewrite lookup_insert_eq, lookup_singleton_eq.
Qed.

Lemma write_file_wf (fs : gmap str node) (d f : str) (data : bytes) :
  store_wf fs -> hex_name 2 d = true -> hex_name 38 f = true ->
  exists fs', write_file fs d f data = Ok fs' /\ store_wf fs'.
Proof.
  intros Hwf Hd Hf. unfold write_file.
  destruct (fs !! d) as [n|] eqn:Ed.
  - pose proof (Hwf d n Ed) as Hn. unfold node_ok in Hn.
    apply andb_true_iff in Hn as [_ Hn].
    destruct n as [|es]; [done|]. apply bool_decide_eq_true in Hn.
    assert (Hes : map_Forall (fun f e => entry_ok f e = true)
                    (<[f := EFile data]> es)).
    { apply map_Forall_insert_2; [|done].
      unfold entry_ok. by rewrite Hf. }
    assert (Hfs : store_wf (<[d := NDir (<[f := EFile data]> es)]> fs)).
    { apply map_Forall_insert_2; [|done].
      unfold node_ok. rewrite Hd. by apply bool_decide_eq_true. }
    destruct (es !! f) as [e|] eqn:Ef; [|eauto].
    pose proof (Hn f e Ef) as He. unfold entry_ok in He.
    apply andb_true_iff in He as [_ He]. destruct e; [eauto | done].
  - eexists. split; [done|].
    apply map_Forall_insert_2; [|done].
    unfold node_ok. rewrite Hd. apply bool_decide_eq_true.
    apply map_Forall_singleton. unfold entry_ok. by rewrite Hf.
Qed.

Lemma read_file_stored (fs : gmap str node) (d f : str) (es : gmap str entry)
    (c : bytes) :
  fs !! d = Some (NDir es) -> es !! f = Some (EFile c) -> f <> [] ->
  read_file fs d f = Ok c.
Proof.
  intros Hd Hf Hne. unfold read_file. rewrite Hd, Hf. by destruct f.
Qed.

(** ** The object store *)

Section Properties.
Context `{Zlib}.

(** The three kinds are ASCII words without a space or a null. *)
Lemma kinds_token (kind : str) :
  kind ∈ kinds -> is_ascii kind /\ (0%N ∉ kind) /\ (32%N ∉ kind).
Proof.
  unfold kinds. simpl. rewrite !elem_of_cons, elem_of_nil.
  intros [->|[->|[->|[]]]]; (split; [|split]);
    try (repeat constructor; simpl; lia);
    (intros Hin; repeat (apply elem_of_cons in Hin as [Hin|Hin]; [done|]);
     by apply elem_of_nil in Hin).
Qed.

(** *** Framing *)

Lemma object_full_framed (kind : str) (payload : bytes) :
  is_ascii kind -> object_full kind payload = Ok (framed kind payload).
Proof.
  intros Hk. unfold object_full, framed.
  rewrite encode_utf8_ascii.
  - unfold Py.str_of_nat. rewrite !map_app, !map_B_lit.
    cbn [or_raise mbind result_bind mret result_ret].
    by rewrite <- !app_assoc.
  - apply is_ascii_app; [done|].
    apply is_ascii_app; [repeat constructor; simpl; lia|].
    apply is_ascii_app; [apply digits_ascii, str_of_nat_digits|].
    repeat constructor.
Qed.

Lemma parse_object_header (t size payload : bytes) :
  x00 ∉ t -> x20 ∉ t -> x00 ∉ size ->
  parse_object (t ++ x20 :: size ++ x00 :: payload)
  = (or_raise UnicodeDecodeError (Py.decode_utf8 t)
       ≫= fun ty => mret (ty, payload)).
Proof.
  intros Ht0 Ht Hs0. unfold parse_object.
  assert (Hh : x00 ∉ t ++ x20 :: size).
  { rewrite elem_of_app, elem_of_cons. intros [?|[?|?]]; done. }
  replace (t ++ x20 :: size ++ x00 :: payload)
    with ((t ++ x20 :: size) ++ x00 :: payload)
    by (by rewrite <- app_assoc).
  set (header := t ++ x20 :: size) in *.
  rewrite find_0, index_of_app by done.
  rewrite slice_to_take, take_app_length.
  replace (Z.of_nat (length header) + 1) with (Z.of_nat (S (length header)))
    by lia.
  rewrite slice_from_drop.
  replace (header ++ x00 :: payload) with ((header ++ [x00]) ++ payload)
    by (by rewrite <- app_assoc).
  replace (S (length header)) with (length (header ++ [x00]))
    by (rewrite length_app; simpl; lia).
  rewrite drop_app_length.
  unfold Py.split1, header. rewrite index_of_app by done.
  by rewrite take_app_length.
Qed.

(** Decoding the frame of an object gives the object back. *)
Lemma parse_object_framed (kind : str) (payload : bytes) :
  is_ascii kind -> 0%N ∉ kind -> 32%N ∉ kind ->
  parse_object (framed kind payload) = Ok (kind, payload).
Proof.
  intros Hk H0 H32. unfold framed.
  change (parse_object
            (map Py.B kind
             ++ x20 :: ascii_bytes
                         (NilZero.string_of_uint
                            (N.to_uint (N.of_nat (length payload))))
             ++ x00 :: payload) = Ok (kind, payload)).
  rewrite parse_object_header.
  - by rewrite decode_utf8_ascii.
  - change x00 with (Py.B 0). by apply notin_map_B.
  - change x20 with (Py.B 32). by apply notin_map_B.
  - rewrite <- map_B_lit. change x00 with (Py.B 0).
    pose proof (str_of_nat_digits (N.of_nat (length payload))) as Hd.
    apply notin_map_B; [done | by apply digits_ascii |].
    by apply digits_notin.
Qed.

(** *** Writing *)

Lemma hash_object_inv (kind : str) (payload : bytes) (fs fs' : gmap str node)
    (sha : str) :
  is_ascii kind ->
  hash_object (PyBytes payload) kind fs = Ok (sha, fs') ->
  sha = Sha1.hexdigest (framed kind payload)
  /\ write_file fs (take 2 sha) (drop 2 sha)
       (compress (framed kind payload)) = Ok fs'.
Proof.
  intros Hk. unfold hash_object. simpl.
  rewrite object_full_framed by done. simpl.
  change 2 with (Z.of_nat 2). rewrite slice_to_take, slice_from_drop.
  destruct (write_file _ _ _ _) as [fs''|e] eqn:Ew; [|done].
  simpl. by intros [= <- <-].
Qed.

Lemma hash_object_wf (kind : str) (payload : bytes) (fs : gmap str node) :
  is_ascii kind -> store_wf fs ->
  exists fs',
    hash_object (PyBytes payload) kind fs
    = Ok (Sha1.hexdigest (framed kind payload), fs')
    /\ store_wf fs'.
Proof.
  intros Hk Hwf. unfold hash_object. simpl.
  rewrite object_full_framed by done. simpl.
  change 2 with (Z.of_nat 2). rewrite slice_to_take, slice_from_drop.
  destruct (write_file_wf fs _ _ (compress (framed kind payload)) Hwf
              (hex_name_bucket (framed kind payload))
              (hex_name_entry (framed kind payload)))
    as (fs' & -> & Hwf').
  by exists fs'.
Qed.

Lemma hash_object_stored (kind : str) (payload : bytes)
    (fs fs' : gmap str node) (sha : str) :
  is_ascii kind ->
  hash_object (PyBytes payload) kind fs = Ok (sha, fs') ->
  stored fs' sha kind payload.
Proof.
  intros Hk Hw. apply hash_object_inv in Hw as [-> Hw]; [|done].
  split; [apply hexdigest_length | by apply write_file_stored in Hw].
Qed.

(** *** Reading *)

Lemma find_object_full (id : str) (fs : gmap str node)
    (es : gmap str entry) :
  length id = 40%nat -> forallb hex_lower id = true ->
  fs !! take 2 id = Some (NDir es) -> is_Some (es !! drop 2 id) ->
  find_object id fs = Ok id.
Proof.
  intros Hlen Hhex Hd Hf. unfold find_object.
  rewrite lower_hex_lower by done.
  unfold Py.len. rewrite Hlen. simpl.
  change 2 with (Z.of_nat 2). rewrite slice_to_take, slice_from_drop.
  unfold path_exists. rewrite Hd. by rewrite bool_decide_eq_true_2.
Qed.

(** Reading through any name that resolves to a stored object. *)
Lemma read_object_stored (q id kind : str) (payload : bytes)
    (fs : gmap str node) :
  is_ascii kind -> 0%N ∉ kind -> 32%N ∉ kind ->
  find_object q fs = Ok id -> stored fs id kind payload ->
  read_object q fs = Ok (kind, payload).
Proof.
  intros Hk H0 H32 Hfind (Hlen & es & Hd & Hf). unfold read_object.
  rewrite Hfind. simpl.
  change 2 with (Z.of_nat 2). rewrite slice_to_take, slice_from_drop.
  rewrite (read_file_stored fs _ _ es (compress (framed kind payload)));
    [|done|done|].
  - simpl. rewrite decompress_compress. simpl.
    by apply parse_object_framed.
  - intros Hnil. apply (f_equal length) in Hnil.
    rewrite length_drop, Hlen in Hnil. done.
Qed.

Lemma write_file_again (fs fs' : gmap str node) (d f : str) (c : bytes) :
  write_file fs d f c = Ok fs' -> write_file fs' d f c = Ok fs'.
Proof.
  intros Hw. destruct (write_file_stored _ _ _ _ _ Hw) as (es & Hd & Hf).
  unfold write_file. rewrite Hd, Hf.
  by rewrite (insert_id es), (insert_id fs').
Qed.

(** A write is the write of one file, whose path and content depend on the
    arguments [data] and [obj_type] only. *)
Lemma hash_object_pure (data : py_data) (kind : str) (fs fs' : gmap str node)
    (sha : str) :
  hash_object data kind fs = Ok (sha, fs') ->
  exists full,
    sha = Sha1.hexdigest full
    /\ forall fs0,
        hash_object data kind fs0
        = (write_file fs0 (take 2 sha) (drop 2 sha) (compress full)
             ≫= fun fs0' => mret (sha, fs0')).
Proof.
  unfold hash_object. intros Hw.
  destruct (match data with
            | PyBytes b => Ok b
            | PyStr s => or_raise UnicodeEncodeError (Py.encode_utf8 s)
            end) as [data_bytes|e]; [|done].
  simpl in *.
  destruct (object_full kind data_bytes) as [full|e]; [|done].
  simpl in *. exists full.
  revert Hw. change 2 with (Z.of_nat 2).
  rewrite slice_to_take, slice_from_drop. intros Hw.
  destruct (write_file fs _ _ _) as [fs1|e] eqn:Ew; [|done].
  simpl in Hw. injection Hw as <- <-. done.
Qed.

(** C1: for each of the three kinds and every payload, [hash_object]
    followed by [read_object] on the identifier it returned gives back the
    kind and the payload, byte for byte and without the header; the write
    returns in every store that has the on-disk layout. *)
Theorem hash_object_read_object (kind : str) (payload : bytes)
    (fs : gmap str node) :
  kind ∈ kinds ->
  (store_wf fs ->
   exists sha fs', hash_object (PyBytes payload) kind fs = Ok (sha, fs'))
  /\ (forall sha fs',
        hash_object (PyBytes payload) kind fs = Ok (sha, fs') ->
        read_object sha fs' = Ok (kind, payload)).
Proof.
  intros (Hk & H0 & H32)%kinds_token. split.
  - intros Hwf.
    destruct (hash_object_wf kind payload fs Hk Hwf) as (fs' & Hw & _).
    eauto.
  - intros sha fs' Hw.
    pose proof (hash_object_stored _ _ _ _ _ Hk Hw) as Hst.
    apply hash_object_inv in Hw as [-> _]; [|done].
    apply (read_object_stored _ (Sha1.hexdigest (framed kind payload)));
      try done.
    destruct Hst as (Hlen & es & Hd & Hf).
    by apply (find_object_full _ _ es); [|apply hexdigest_lower| |eexists].
Qed.

(** C6: the bytes hashed and stored for [(kind, payload)] are the ASCII
    header [<kind> <decimal length of the payload>], one null byte and the
    payload; the identifier is the SHA-1 digest (20 bytes) of these bytes
    as 40 lower-case hexadecimal digits; the object is stored in the bucket
    named by the first 2 digits, under the entry named by the other 38. *)
Theorem hash_object_encoding (k : string) (payload : bytes)
    (fs : gmap str node) :
  let framed_bytes :=
    ascii_bytes k ++ [x20]
      ++ ascii_bytes (NilZero.string_of_uint
                        (N.to_uint (N.of_nat (length payload))))
      ++ [x00] ++ payload in
  Py.lit k ∈ kinds ->
  object_full (Py.lit k) payload = Ok framed_bytes
  /\ (store_wf fs ->
      exists sha fs',
        hash_object (PyBytes payload) (Py.lit k) fs = Ok (sha, fs'))
  /\ (forall sha fs',
        hash_object (PyBytes payload) (Py.lit k) fs = Ok (sha, fs') ->
        sha = Py.hex (Sha1.sha1 framed_bytes)
        /\ length (Sha1.sha1 framed_bytes) = 20%nat
        /\ length sha = 40%nat
        /\ forallb hex_lower sha = true
        /\ length (take 2 sha) = 2%nat
        /\ length (drop 2 sha) = 38%nat
        /\ exists es,
             fs' !! take 2 sha = Some (NDir es)
             /\ es !! drop 2 sha = Some (EFile (compress framed_bytes))).
Proof.
  intros framed_bytes (Hk & _ & _)%kinds_token.
  assert (Hfr : framed_bytes = framed (Py.lit k) payload).
  { unfold framed_bytes, framed. by rewrite map_B_lit. }
  rewrite Hfr. split; [by apply object_full_framed|]. split.
  - intros Hwf.
    destruct (hash_object_wf _ payload fs Hk Hwf) as (fs' & Hw & _). eauto.
  - intros sha fs' Hw.
    destruct (hash_object_stored _ _ _ _ _ Hk Hw) as (Hlen & es & Hd & Hf).
    apply hash_object_inv in Hw as [Hsha _]; [|done].
    split; [done|]. split; [apply sha1_length|]. split; [done|].
    split; [rewrite Hsha; apply hexdigest_lower|].
    rewrite length_take, length_drop, Hlen.
    split; [done|]. split; [done|]. eauto.
Qed.

(** C7: the identifier that [hash_object] returns and the place and bytes
    it writes depend on the content only: two writes of the same content
    from two store states return the same identifier and put the same
    bytes at the same bucket and entry, and a second write into the store
    left by the first returns the same identifier and leaves the store as
    it is. *)
Theorem hash_object_deterministic (data : py_data) (kind : str)
    (fs1 fs2 fs1' fs2' : gmap str node) (sha1 sha2 : str) :
  hash_object data kind fs1 = Ok (sha1, fs1') ->
  hash_object data kind fs2 = Ok (sha2, fs2') ->
  sha1 = sha2
  /\ (exists content es1 es2,
        fs1' !! take 2 sha1 = Some (NDir es1)
        /\ es1 !! drop 2 sha1 = Some (EFile content)
        /\ fs2' !! take 2 sha1 = Some (NDir es2)
        /\ es2 !! drop 2 sha1 = Some (EFile content))
  /\ hash_object data kind fs1' = Ok (sha1, fs1').
Proof.
  intros Hw1 Hw2.
  destruct (hash_object_pure _ _ _ _ _ Hw1) as (full & Hsha & Hpure).
  rewrite Hpure in Hw1, Hw2.
  destruct (write_file fs1 _ _ _) as [fs1''|] eqn:E1; [|done].
  destruct (write_file fs2 _ _ _) as [fs2''|] eqn:E2; [|done].
  simpl in Hw1, Hw2. injection Hw1 as <-. injection Hw2 as <- <-.
  split; [done|]. split.
  - destruct (write_file_stored _ _ _ _ _ E1) as (es1 & ? & ?).
    destruct (write_file_stored _ _ _ _ _ E2) as (es2 & ? & ?).
    by exists (compress full), es1, es2.
  - rewrite Hpure. by rewrite (write_file_again _ _ _ _ _ E1).
Qed.

(** C10: [hash_object] on a character string is [hash_object] on its UTF-8
    encoding: same identifier, same store afterwards; a string that has no
    UTF-8 encoding (a lone surrogate) raises [UnicodeEncodeError]. *)
Theorem hash_object_str (s : str) (kind : str) (fs : gmap str node) :
  hash_object (PyStr s) kind fs
  = match Py.encode_utf8 s with
    | Some b => hash_object (PyBytes b) kind fs
    | None => Raise UnicodeEncodeError
    end.
Proof. unfold hash_object. by destruct (Py.encode_utf8 s). Qed.


End Properties.

(** ** Prefixes *)

Lemma startswith_refl (s : str) : Py.startswith s s = true.
Proof. induction s as [|c s IH]; [done|]. simpl. by rewrite N.eqb_refl. Qed.

Lemma startswith_app (a s p : str) :
  Py.startswith (a ++ s) (a ++ p) = Py.startswith s p.
Proof. induction a as [|c a IH]; [done|]. simpl. by rewrite N.eqb_refl. Qed.

Lemma startswith_take (s p : str) :
  Py.startswith s p = true -> take (length p) s = p.
Proof.
  revert s. induction p as [|c p IH]; intros [|d s]; simpl; try done.
  intros [->%N.eqb_eq Hs]%andb_true_iff. f_equal. by apply IH.
Qed.

Lemma startswith_length (s p : str) :
  Py.startswith s p = true -> (length p <= length s)%nat.
Proof.
  intros Hs. apply startswith_take in Hs. apply (f_equal length) in Hs.
  rewrite length_take in Hs. lia.
Qed.

Lemma startswith_same_length (s p : str) :
  length s = length p -> Py.startswith s p = true -> s = p.
Proof.
  intros Hlen Hs. apply startswith_take in Hs. rewrite <- Hlen in Hs.
  by rewrite firstn_all in Hs.
Qed.

(** A name that starts with [p] starts with the first two characters
    of [p]. *)
Lemma startswith_bucket (d f p : str) :
  length d = 2%nat -> (2 <= length p)%nat ->
  Py.startswith (d ++ f) p = true -> d = take 2 p.
Proof.
  intros Hd Hp Hs. apply startswith_take in Hs.
  apply (f_equal (take 2)) in Hs. rewrite take_take in Hs.
  rewrite Nat.min_l in Hs by lia. rewrite <- Hs.
  rewrite take_app_le by lia. rewrite take_ge; [done | lia].
Qed.

Lemma lower_length (s : str) : length (Py.lower s) = length s.
Proof. apply length_map. Qed.

Lemma elem_of_listdir {V} (m : gmap str V) (f : str) :
  f ∈ listdir m <-> is_Some (m !! f).
Proof.
  unfold listdir. rewrite list_elem_of_fmap. split.
  - intros ([f' v] & -> & Hin). apply elem_of_map_to_list in Hin. eauto.
  - intros [v Hv]. exists (f, v). split; [done|].
    by apply elem_of_map_to_list.
Qed.

Lemma NoDup_listdir {V} (m : gmap str V) : NoDup (listdir m).
Proof. apply NoDup_fst_map_to_list. Qed.

(** For a name of two characters or more, other than 40, [find_object]
    reads one bucket. *)
Lemma find_object_scan (q : str) (fs : gmap str node) :
  (2 <= length q)%nat -> length q <> 40%nat ->
  find_object q fs
  = match fs !! take 2 (Py.lower q) with
    | Some (NDir es) =>
        unique_match (Py.lower q)
          (map (fun f => take 2 (Py.lower q) ++ f)
             (filter (fun f => Py.startswith f (drop 2 (Py.lower q)) = true)
                (listdir es)))
    | _ => Raise FileNotFoundError
    end.
Proof.
  intros Hlo Hne. unfold find_object, find_matches, Py.len.
  rewrite lower_length.
  rewrite (proj2 (Z.eqb_neq _ 40)) by lia.
  rewrite (proj2 (Z.ltb_ge _ 2)) by lia.
  change 2 with (Z.of_nat 2). rewrite slice_to_take, slice_from_drop.
  by destruct (fs !! take 2 (Py.lower q)) as [[|es]|].
Qed.

(** C5: for a query of 2 to 39 hexadecimal digits [find_object] reads the
    one bucket named by the first two characters of the (lower-cased) query:
    it raises [FileNotFoundError] when that bucket is not a directory, its
    matches are exactly the entries of that bucket whose names start with the
    rest of the query, each prefixed by the bucket name, and no other bucket
    has an influence on the result. *)
Theorem find_object_single_bucket (q : str) (fs : gmap str node) :
  hex_query q = true ->
  (2 <= length q <= 39)%nat ->
  let name := Py.lower q in
  let d := take 2 name in
  let rest := drop 2 name in
  (isdir fs d = false -> find_object q fs = Raise FileNotFoundError)
  /\ (forall es, fs !! d = Some (NDir es) ->
      exists ms,
        find_matches name fs = Ok ms
        /\ NoDup ms
        /\ (forall id,
             id ∈ ms
             <-> exists f,
                 id = d ++ f /\ is_Some (es !! f)
                 /\ Py.startswith f rest = true)
        /\ find_object q fs = unique_match name ms)
  /\ (forall fs', fs' !! d = fs !! d -> find_object q fs' = find_object q fs).
Proof.
  intros _ Hlen name d rest. split; [|split].
  - intros Hdir. rewrite find_object_scan by lia. fold name d.
    unfold isdir in Hdir. by destruct (fs !! d) as [[|es]|].
  - intros es Hd.
    exists (map (fun f => d ++ f)
              (filter (fun f => Py.startswith f rest = true) (listdir es))).
    split; [|split; [|split]].
    + unfold find_matches, Py.len. subst name. rewrite lower_length.
      rewrite (proj2 (Z.ltb_ge _ 2)) by lia.
      change 2 with (Z.of_nat 2). rewrite slice_to_take, slice_from_drop.
      fold d rest. by rewrite Hd.
    + apply (NoDup_fmap_2 (fun f => d ++ f)), NoDup_filter, NoDup_listdir.
    + intros id. change (map ?f ?l) with (f <$> l).
      rewrite list_elem_of_fmap. split.
      * intros (f & -> & [Hst Hin]%list_elem_of_filter).
        exists f. by rewrite <- elem_of_listdir.
      * intros (f & -> & Hin & Hst). exists f. split; [done|].
        apply list_elem_of_filter. by rewrite elem_of_listdir.
    + rewrite find_object_scan by lia. fold name d rest. by rewrite Hd.
  - intros fs' Heq. rewrite !find_object_scan by lia. fold name d.
    by rewrite Heq.
Qed.

(** ** Resolution against the stored identifiers *)

Lemma filter_ext_in {A} (P Q : A -> Prop) `{!forall x, Decision (P x)}
    `{!forall x, Decision (Q x)} (l : list A) :
  (forall x, x ∈ l -> P x <-> Q x) -> filter P l = filter Q l.
Proof.
  induction l as [|x l IH]; [done|]. intros Hpq.
  rewrite !filter_cons.
  rewrite IH by (intros y Hy; apply Hpq; by right).
  destruct (decide (P x)) as [Hp|Hp], (decide (Q x)) as [Hq|Hq]; try done;
    exfalso; apply (Hpq x) in Hp || apply (Hpq x) in Hq; try done; by left.
Qed.

Lemma filter_none {A} (P : A -> Prop) `{!forall x, Decision (P x)}
    (l : list A) :
  (forall x, x ∈ l -> ~ P x) -> filter P l = [].
Proof.
  induction l as [|x l IH]; [done|]. intros Hn.
  rewrite filter_cons_False by (apply Hn; by left).
  apply IH. intros y Hy. apply Hn. by right.
Qed.

Lemma filter_fmap_in {A B} (f : A -> B) (P : B -> Prop) (Q : A -> Prop)
    `{!forall x, Decision (P x)} `{!forall x, Decision (Q x)} (l : list A) :
  (forall x, x ∈ l -> P (f x) <-> Q x) ->
  filter P (map f l) = map f (filter Q l).
Proof.
  induction l as [|x l IH]; [done|]. intros Hpq. simpl.
  rewrite !filter_cons.
  rewrite IH by (intros y Hy; apply Hpq; by right).
  destruct (decide (P (f x))) as [Hp|Hp], (decide (Q x)) as [Hq|Hq];
    try done;
    exfalso; apply (Hpq x) in Hp || apply (Hpq x) in Hq; try done; by left.
Qed.

(** In a list without repetition, the elements equal to [x]. *)
Lemma filter_unique {A} `{!EqDecision A} (P : A -> Prop)
    `{!forall x, Decision (P x)} (l : list A) (x : A) :
  NoDup l -> (forall y, y ∈ l -> P y <-> y = x) ->
  filter P l = if decide (x ∈ l) then [x] else [].
Proof.
  induction 1 as [|y l Hy Hnd IH]; intros Hp; [done|].
  rewrite filter_cons.
  assert (Hl : forall z, z ∈ l -> P z <-> z = x)
    by (intros z Hz; apply Hp; by right).
  destruct (decide (P y)) as [Hpy|Hpy].
  - apply (Hp y) in Hpy as ->; [|by left].
    rewrite decide_True by by left.
    rewrite IH by done. by rewrite decide_False.
  - rewrite IH by done.
    destruct (decide (x ∈ l)) as [Hx|Hx].
    + by rewrite decide_True by by right.
    + rewrite decide_False; [done|].
      intros [->|?]%elem_of_cons; [|done].
      apply Hpy, Hp; [by left | done].
Qed.

Lemma unique_match_perm (name : str) (ms ms' : list str) :
  ms ≡ₚ ms' -> unique_match name ms = unique_match name ms'.
Proof.
  intros Hp. pose proof (Permutation_length Hp) as Hlen.
  destruct ms as [|m [|m2 ms]], ms' as [|m' [|m2' ms']]; try done.
  - by apply Permutation_singleton_l in Hp as [= ->].
  - simpl in *. by rewrite Hlen.
Qed.

Lemma node_ok_inv (d : str) (n : node) :
  node_ok d n = true ->
  length d = 2%nat /\ forallb hex_lower d = true
  /\ exists es,
      n = NDir es
      /\ forall f, f ∈ listdir es ->
                   length f = 38%nat /\ forallb hex_lower f = true.
Proof.
  unfold node_ok, hex_name.
  intros [[Hlen%bool_decide_eq_true Hhex]%andb_true_iff Hn]%andb_true_iff.
  split; [done|]. split; [done|].
  destruct n as [|es]; [done|]. exists es. split; [done|].
  apply bool_decide_eq_true in Hn.
  intros f [e He]%elem_of_listdir. specialize (Hn f e He).
  unfold entry_ok, hex_name in Hn.
  apply andb_true_iff in Hn
    as [[Hl%bool_decide_eq_true Hh]%andb_true_iff _].
  done.
Qed.

Lemma lower_app (s t : str) : Py.lower (s ++ t) = Py.lower s ++ Py.lower t.
Proof. apply map_app. Qed.

Lemma bucket_ids_wf (d : str) (n : node) (id : str) :
  node_ok d n = true -> id ∈ bucket_ids (d, n) ->
  Py.lower id = id /\ length id = 40%nat /\ length d = 2%nat
  /\ exists f, id = d ++ f.
Proof.
  intros (Hd & Hhex & es & -> & Hes)%node_ok_inv. simpl.
  change (map ?f ?l) with (f <$> l). rewrite list_elem_of_fmap.
  intros (f & -> & Hf). destruct (Hes f Hf) as [Hlen Hfhex].
  split; [|split; [|split]]; [| |done|by exists f].
  - rewrite lower_app. by rewrite !lower_hex_lower.
  - rewrite length_app. lia.
Qed.

(** A query of fewer than two characters: the scan of every bucket. *)
Lemma find_object_small (q : str) (fs : gmap str node) :
  store_wf fs -> (length q < 2)%nat ->
  find_object q fs = unique_match (Py.lower q) (matching_ids q fs).
Proof.
  intros Hwf Hlen. unfold find_object, find_matches, Py.len.
  rewrite lower_length.
  rewrite (proj2 (Z.eqb_neq _ 40)) by lia.
  rewrite (proj2 (Z.ltb_lt _ 2)) by lia.
  simpl. f_equal. unfold matching_ids, stored_ids.
  apply map_Forall_to_list in Hwf.
  induction Hwf as [|[d n] l Hdn _ IH]; [done|].
  simpl. rewrite filter_app, <- IH. f_equal.
  simpl in Hdn. destruct n as [|es]; [done|].
  apply filter_ext_in. intros id Hid.
  destruct (bucket_ids_wf d (NDir es) id Hdn Hid) as (-> & _). done.
Qed.

(** Buckets other than the one a query names hold no match. *)
Lemma other_buckets_no_match (name : str) (l : list (str * node)) :
  (2 <= length name)%nat ->
  Forall (fun dn => node_ok dn.1 dn.2 = true /\ dn.1 <> take 2 name) l ->
  filter (fun id => Py.startswith (Py.lower id) name = true)
    (flat_map bucket_ids l) = [].
Proof.
  intros Hlen Hl. apply filter_none. intros id Hin Hst.
  apply list_elem_of_In, in_flat_map in Hin as ([d n] & Hdn & Hid).
  apply list_elem_of_In in Hdn, Hid.
  eapply Forall_forall in Hl; [|done]. simpl in Hl. destruct Hl as [Hok Hne].
  destruct (bucket_ids_wf d n id Hok Hid) as (Hlow & _ & Hd & f & ->).
  rewrite Hlow in Hst. by apply startswith_bucket in Hst.
Qed.

(** The stored identifiers that a query of two characters or more matches
    are those of the bucket it names. *)
Lemma matching_ids_bucket (q : str) (fs : gmap str node) :
  store_wf fs -> (2 <= length q)%nat ->
  matching_ids q fs
  ≡ₚ match fs !! take 2 (Py.lower q) with
     | Some (NDir es) =>
         map (fun f => take 2 (Py.lower q) ++ f)
           (filter (fun f => Py.startswith f (drop 2 (Py.lower q)) = true)
              (listdir es))
     | _ => []
     end.
Proof.
  intros Hwf Hlen. unfold matching_ids, stored_ids.
  set (name := Py.lower q). set (d := take 2 name).
  assert (Hname : (2 <= length name)%nat)
    by (unfold name; rewrite lower_length; lia).
  destruct (fs !! d) as [n|] eqn:Ed.
  - rewrite <- (map_to_list_delete fs d n Ed). simpl.
    rewrite filter_app.
    rewrite (other_buckets_no_match name (map_to_list (delete d fs)));
      [|done|].
    + rewrite app_nil_r.
      pose proof (Hwf d n Ed) as Hok. simpl in Hok.
      destruct (node_ok_inv d n Hok) as (Hd & Hhex & es & -> & Hes).
      simpl. rewrite (filter_fmap_in _ _
        (fun f => Py.startswith f (drop 2 name) = true)); [done|].
      intros f Hf. destruct (Hes f Hf) as [_ Hfhex].
      rewrite lower_app, !lower_hex_lower by done.
      rewrite <- (take_drop 2 name) at 1. fold d.
      by rewrite startswith_app.
    + apply Forall_forall. intros [d' n'] Hin.
      apply elem_of_map_to_list, lookup_delete_Some in Hin as [Hne Hin].
      simpl. split; [by apply (Hwf d' n') | done].
  - rewrite other_buckets_no_match; [done|done|].
    apply Forall_forall. intros [d' n'] Hin.
    apply elem_of_map_to_list in Hin. simpl.
    split; [by apply (Hwf d' n')|].
    intros Heq. rewrite Heq in Hin. unfold d in Ed. congruence.
Qed.

(** [find_object] returns what [unique_match] makes of the stored
    identifiers that match the query. *)
Lemma find_object_matching (q : str) (fs : gmap str node) :
  store_wf fs ->
  find_object q fs = unique_match (Py.lower q) (matching_ids q fs).
Proof.
  intros Hwf.
  destruct (decide (length q < 2)%nat) as [Hsmall|Hbig];
    [by apply find_object_small|].
  rewrite (unique_match_perm _ _ _ (matching_ids_bucket q fs Hwf ltac:(lia))).
  destruct (decide (length q = 40%nat)) as [H40|Hne];
    [|by rewrite find_object_scan by lia;
         destruct (fs !! take 2 (Py.lower q)) as [[|es]|]].
  unfold find_object, Py.len. rewrite lower_length, H40.
  change (Z.of_nat 40 =? 40) with true. cbv iota.
  change 2 with (Z.of_nat 2). rewrite slice_to_take, slice_from_drop.
  unfold path_exists.
  destruct (fs !! take 2 (Py.lower q)) as [n|] eqn:Ed; [|done].
  destruct (node_ok_inv _ n (Hwf _ n Ed)) as (_ & _ & es & -> & Hes).
  rewrite (filter_unique _ (listdir es) (drop 2 (Py.lower q)));
    [|apply NoDup_listdir|].
  - destruct (decide (drop 2 (Py.lower q) ∈ listdir es)) as [Hin|Hin].
    + rewrite bool_decide_eq_true_2 by by apply elem_of_listdir.
      simpl. by rewrite take_drop.
    + rewrite bool_decide_eq_false_2; [done|]. by rewrite <- elem_of_listdir.
  - intros f Hf. destruct (Hes f Hf) as [Hflen _]. split.
    + apply startswith_same_length.
      rewrite length_drop, lower_length. lia.
    + intros ->. apply startswith_refl.
Qed.

(** C4: in a store with the on-disk layout and for a query of hexadecimal
    digits (in either letter case, of any length), [find_object] raises
    [FileNotFoundError] when no stored identifier matches the query, raises
    the [ValueError] "Ambiguous prefix" with the number of matches when more
    than one does, and returns the one identifier that matches otherwise;
    it never returns one of several matches. *)
Theorem find_object_resolve (q : str) (fs : gmap str node) :
  hex_query q = true ->
  store_wf fs ->
  match matching_ids q fs with
  | [] => find_object q fs = Raise FileNotFoundError
  | [id] => find_object q fs = Ok id
  | ms =>
      find_object q fs
      = Raise (ValueError (AmbiguousPrefix (Py.lower q) (length ms)))
  end.
Proof.
  intros _ Hwf. rewrite find_object_matching by done.
  by destruct (matching_ids q fs) as [|? [|? ?]].
Qed.

Section Reading.
Context `{Zlib}.

(** C9: [read_object] resolves its argument with [find_object] first, so
    in a store with the on-disk layout a query that only one stored
    identifier matches (an abbreviation included) reads the object stored
    under that identifier, and a query that several stored identifiers
    match raises the [ValueError] "Ambiguous prefix". *)
Theorem read_object_prefix (q : str) (fs : gmap str node) :
  store_wf fs ->
  (forall id kind payload,
      kind ∈ kinds -> matching_ids q fs = [id] ->
      stored fs id kind payload ->
      read_object q fs = Ok (kind, payload))
  /\ ((1 < length (matching_ids q fs))%nat ->
      read_object q fs
      = Raise (ValueError (AmbiguousPrefix (Py.lower q)
                             (length (matching_ids q fs))))).
Proof.
  intros Hwf. split.
  - intros id kind payload (Hk & H0 & H32)%kinds_token Hm Hst.
    apply (read_object_stored q id); try done.
    by rewrite find_object_matching, Hm.
  - intros Hlen. unfold read_object.
    rewrite find_object_matching by done.
    by destruct (matching_ids q fs) as [|? [|? ?]]; simpl in *; try lia.
Qed.

End Reading.

(** ** The decode step *)

(** C2, as the code has it: when the bytes hold a null byte and no space
    comes before the first one, the decode step raises the [ValueError] of
    the unpacking; when a space comes before the first null byte, it splits
    the header at the first space only and does not look at the length
    token: the result is the kind (the token before the space, when it is
    UTF-8) and the bytes after the null byte. *)
Theorem parse_object_header_check :
  (forall (b : bytes) (k : nat),
      Py.index_of x00 b = Some k -> x20 ∉ take k b ->
      parse_object b = Raise (ValueError NotEnoughValuesToUnpack))
  /\ (forall t size payload : bytes,
        x00 ∉ t -> x20 ∉ t -> x00 ∉ size ->
        parse_object (t ++ x20 :: size ++ x00 :: payload)
        = match Py.decode_utf8 t with
          | Some kind => Ok (kind, payload)
          | None => Raise UnicodeDecodeError
          end).
Proof.
  split.
  - intros b k Hk Hsp. unfold parse_object.
    rewrite find_0, Hk, slice_to_take.
    unfold Py.split1. by rewrite index_of_notin.
  - intros t size payload Ht0 Ht Hs0.
    rewrite parse_object_header by done.
    by destruct (Py.decode_utf8 t).
Qed.

(** ** The tree decoder *)

(** Past the end of the payload the loop stops. *)
Lemma read_tree_loop_end (fuel : nat) (data : bytes) (i : Z) :
  Py.len data <= i -> read_tree_loop (S fuel) data i = ([], StopIteration).
Proof. intros Hi. simpl. by rewrite (proj2 (Z.ltb_ge _ _)). Qed.

(** Without a space at or after the cursor the loop stops. *)
Lemma read_tree_loop_no_space (fuel : nat) (pre tail : bytes) :
  x20 ∉ tail ->
  read_tree_loop (S fuel) (pre ++ tail) (Py.len pre) = ([], StopIteration).
Proof.
  intros Ht. simpl. rewrite find_absent by done.
  by destruct (_ <? _).
Qed.

(** One turn of the loop on an entry whose separators are present. *)
Lemma read_tree_loop_entry (fuel : nat) (pre m n rest : bytes) :
  x20 ∉ m -> x00 ∉ n ->
  let data := pre ++ m ++ x20 :: n ++ x00 :: rest in
  read_tree_loop (S fuel) data (Py.len pre)
  = match Py.decode_utf8 n with
    | None => ([], GenRaise UnicodeDecodeError)
    | Some name =>
        match Py.int_base8 m with
        | None => ([], GenRaise (ValueError (InvalidLiteralForInt m)))
        | Some mode_int =>
            let '(es, e) :=
              read_tree_loop fuel data
                (Py.len pre + Py.len m + 1 + Py.len n + 1 + 20) in
            ((mode_int, name, Py.hex (take 20 rest)) :: es, e)
        end
    end.
Proof.
  intros Hm Hn data. cbn [read_tree_loop].
  assert (Hlt : (Py.len pre <? Py.len data) = true).
  { apply Z.ltb_lt. unfold data, Py.len. rewrite !length_app. simpl. lia. }
  rewrite Hlt.
  assert (Hj : Py.find x20 data (Py.len pre) = Py.len pre + Py.len m)
    by (by apply find_app).
  rewrite Hj.
  pose proof (len_nonneg pre). pose proof (len_nonneg m).
  pose proof (len_nonneg n).
  rewrite (proj2 (Z.eqb_neq _ (-1))) by lia.
  assert (Hmode : Py.slice data (Py.len pre) (Py.len pre + Py.len m) = m)
    by apply slice_mid.
  rewrite Hmode.
  set (p1 := pre ++ m ++ [x20]).
  assert (Hd1 : data = p1 ++ n ++ x00 :: rest)
    by (unfold data, p1; by rewrite <- !app_assoc).
  assert (Hp1 : Py.len p1 = Py.len pre + Py.len m + 1)
    by (unfold p1, Py.len; rewrite !length_app; simpl; lia).
  rewrite <- Hp1.
  assert (Hk : Py.find x00 data (Py.len p1) = Py.len p1 + Py.len n)
    by (rewrite Hd1; by apply find_app).
  rewrite Hk.
  assert (Hname : Py.slice data (Py.len p1) (Py.len p1 + Py.len n) = n)
    by (rewrite Hd1; apply slice_mid).
  rewrite Hname.
  destruct (Py.decode_utf8 n) as [name|]; [|done].
  destruct (Py.int_base8 m) as [mode_int|]; [|done].
  set (p2 := p1 ++ n ++ [x00]).
  assert (Hd2 : data = p2 ++ rest)
    by (rewrite Hd1; unfold p2; by rewrite <- !app_assoc).
  assert (Hp2 : Py.len p2 = Py.len p1 + Py.len n + 1)
    by (unfold p2, Py.len; rewrite !length_app; simpl; lia).
  rewrite <- Hp2.
  assert (Hsha : Py.slice data (Py.len p2) (Py.len p1 + Py.len n + 21)
                 = take 20 rest).
  { pose proof (len_nonneg p2). rewrite slice_take_drop by lia.
    replace (Z.to_nat (Py.len p2)) with (length p2)
      by (unfold Py.len; lia).
    rewrite Hd2, drop_app_length. f_equal. unfold Py.len in *. lia. }
  rewrite Hsha.
  replace (Py.len p1 + Py.len n + 21) with (Py.len p2 + 20) by lia.
  done.
Qed.

Lemma entry_bytes_shape (m n s rest : bytes) :
  entry_bytes (m, n, s) ++ rest = m ++ x20 :: n ++ x00 :: s ++ rest.
Proof. unfold entry_bytes. by rewrite <- !app_assoc. Qed.

Lemma entry_bytes_len (m n s : bytes) :
  Py.len (entry_bytes (m, n, s)) = Py.len m + 1 + Py.len n + 1 + Py.len s.
Proof.
  unfold entry_bytes, Py.len. rewrite !length_app. simpl.
  rewrite ?length_app. simpl. lia.
Qed.

(** The loop over a run of whole entries. *)
Lemma read_tree_loop_entries (ents : list raw_entry) (es : list tree_entry) :
  Forall2 (fun e v => entry_delimited e /\ length e.2 = 20%nat
                      /\ entry_value e = Some v) ents es ->
  forall (pre rest : bytes) (fuel : nat),
    read_tree_loop (length ents + fuel)
      (pre ++ concat (map entry_bytes ents) ++ rest) (Py.len pre)
    = let '(es', e) :=
        read_tree_loop fuel (pre ++ concat (map entry_bytes ents) ++ rest)
          (Py.len pre + Py.len (concat (map entry_bytes ents))) in
      (es ++ es', e).
Proof.
  induction 1 as [|[[m n] s] v ents es (Hdel & Hlen & Hval) _ IH];
    intros pre rest fuel.
  - simpl. rewrite Z.add_0_r. by destruct (read_tree_loop _ _ _).
  - destruct Hdel as [Hm Hn]. simpl in Hlen.
    unfold entry_value in Hval.
    destruct (Py.int_base8 m) as [mode_int|] eqn:Em; [|done].
    destruct (Py.decode_utf8 n) as [name|] eqn:En; [|done].
    injection Hval as <-.
    cbn [map concat length Nat.add].
    rewrite <- (app_assoc (entry_bytes (m, n, s))).
    rewrite entry_bytes_shape.
    rewrite read_tree_loop_entry by done. rewrite En, Em.
    rewrite take_app_length' by done.
    rewrite <- entry_bytes_shape.
    replace (Py.len pre + Py.len m + 1 + Py.len n + 1 + 20)
      with (Py.len (pre ++ entry_bytes (m, n, s)))
      by (rewrite len_app, entry_bytes_len; unfold Py.len; lia).
    rewrite (app_assoc pre). rewrite IH.
    rewrite !len_app. rewrite Z.add_assoc.
    by destruct (read_tree_loop _ _ _).
Qed.

(** C3, as the code has it: [read_tree] raises nothing on a payload whose
    last entry is cut short.  After any run of whole entries (whose modes
    and names parse), bytes without a space end the sequence silently, and
    an entry whose null byte is followed by fewer than 20 bytes is yielded
    with the identifier cut short (two digits per byte present) before the
    sequence ends. *)
Theorem read_tree_truncation (ents : list raw_entry) (es : list tree_entry) :
  Forall2 (fun e v => entry_delimited e /\ length e.2 = 20%nat
                      /\ entry_value e = Some v) ents es ->
  (forall (tail : bytes) (fuel : nat),
      x20 ∉ tail -> (length ents < fuel)%nat ->
      read_tree fuel (concat (map entry_bytes ents) ++ tail)
      = (es, StopIteration))
  /\ (forall (last : raw_entry) (v : tree_entry) (fuel : nat),
        entry_delimited last -> (length last.2 < 20)%nat ->
        entry_value last = Some v -> (length ents + 1 < fuel)%nat ->
        read_tree fuel (concat (map entry_bytes ents) ++ entry_bytes last)
        = (es ++ [v], StopIteration)
        /\ length v.2 = (2 * length last.2)%nat).
Proof.
  intros Hents. split.
  - intros tail fuel Ht Hfuel. unfold read_tree.
    replace fuel with (length ents + S (fuel - length ents - 1))%nat by lia.
    pose proof (read_tree_loop_entries ents es Hents [] tail) as Hloop.
    simpl in Hloop. rewrite Hloop.
    change (Py.len []) with 0. rewrite Z.add_0_l.
    rewrite read_tree_loop_no_space by done. by rewrite app_nil_r.
  - intros [[m n] s] v fuel [Hm Hn] Hs Hval Hfuel. simpl in Hs.
    unfold entry_value in Hval.
    destruct (Py.int_base8 m) as [mode_int|] eqn:Em; [|done].
    destruct (Py.decode_utf8 n) as [name|] eqn:En; [|done].
    injection Hval as <-. split; [|apply hex_length].
    unfold read_tree.
    replace fuel with (length ents + S (S (fuel - length ents - 2)))%nat
      by lia.
    pose proof (read_tree_loop_entries ents es Hents []
                  (entry_bytes (m, n, s))) as Hloop.
    simpl in Hloop. rewrite Hloop.
    change (Py.len []) with 0. rewrite Z.add_0_l.
    rewrite read_tree_loop_entry by done. rewrite En, Em.
    rewrite read_tree_loop_end.
    + by rewrite take_ge by lia.
    + unfold Py.len. rewrite !length_app. simpl. rewrite !length_app. simpl.
      lia.
Qed.

(** * Checks on concrete data *)

(** The digest of FIPS 180-4, appendix A.1. *)
Example sha1_abc :
  Sha1.hexdigest (ascii_bytes "abc")
  = Py.lit "a9993e364706816aba3e25717850c26c9cd0d89d".
Proof. vm_compute. reflexivity. Qed.

(** A message of two blocks (FIPS 180-4, appendix A.2). *)
Example sha1_two_blocks :
  Sha1.hexdigest
    (ascii_bytes "abcdbcdecdefdefgefghfghighijhijkijkljklmklmnlmnomnopnopq")
  = Py.lit "84983e441c3bd26ebaae4aa1f95129e5e54670f1".
Proof. vm_compute. reflexivity. Qed.

(** Slices, searches and splits as Python evaluates them. *)
Example slice_examples :
  Py.slice (ascii_bytes "abcdef") 1 (-1) = ascii_bytes "bcde"
  /\ Py.slice_from (ascii_bytes "abcdef") (-2) = ascii_bytes "ef"
  /\ Py.slice (ascii_bytes "abcdef") 4 2 = []
  /\ Py.slice_to (ascii_bytes "abcdef") (-10) = []
  /\ Py.find "c"%byte (ascii_bytes "abcdef") (-4) = 2
  /\ Py.find "c"%byte (ascii_bytes "abcdef") 9 = -1
  /\ Py.split1 x20 (ascii_bytes "a b c") = [ascii_bytes "a"; ascii_bytes "b c"]
  /\ Py.split1 x20 (ascii_bytes "abc") = [ascii_bytes "abc"].
Proof. repeat split; vm_compute; reflexivity. Qed.

Example int_base8_examples :
  Py.int_base8 (ascii_bytes "100644") = Some 33188
  /\ Py.int_base8 (ascii_bytes " -0o_17 ") = Some (-15)
  /\ Py.int_base8 (ascii_bytes "+7") = Some 7
  /\ Py.int_base8 (ascii_bytes "0_7") = Some 7
  /\ Py.int_base8 (ascii_bytes "1__7") = None
  /\ Py.int_base8 (ascii_bytes "7_") = None
  /\ Py.int_base8 (ascii_bytes "_7") = None
  /\ Py.int_base8 (ascii_bytes "- 7") = None
  /\ Py.int_base8 (ascii_bytes "0o") = None
  /\ Py.int_base8 (ascii_bytes "8") = None
  /\ Py.int_base8 [] = None.
Proof. repeat split; vm_compute; reflexivity. Qed.

Example format_06o_examples :
  Py.format_06o 33188 = Py.lit "100644"
  /\ Py.format_06o 16384 = Py.lit "040000"
  /\ Py.format_06o (-10) = Py.lit "-00012".
Proof. repeat split; vm_compute; reflexivity. Qed.

(** The write of the repository's test. *)
Example hash_object_hello :
  hash_object (PyBytes hello) blob ∅ = Ok (hello_id, hello_store).
Proof. vm_compute. reflexivity. Qed.

Example hash_object_v84 :
  hash_object (PyBytes v84) blob hello_store = Ok (v84_id, two_store).
Proof. vm_compute. reflexivity. Qed.

Lemma Ok_pair_inj {A B} (a a' : A) (b b' : B) :
  Ok (a, b) = Ok (a', b') -> a = a' /\ b = b'.
Proof. by intros [= -> ->]. Qed.

Lemma store_wf_empty : store_wf ∅.
Proof. apply map_Forall_empty. Qed.

Lemma store_wf_hello : store_wf hello_store.
Proof.
  destruct (hash_object_wf blob hello ∅) as (fs' & Hw & Hwf);
    [repeat constructor | apply store_wf_empty |].
  rewrite hash_object_hello in Hw.
  apply Ok_pair_inj in Hw as [_ <-]. exact Hwf.
Qed.

Lemma store_wf_two : store_wf two_store.
Proof.
  destruct (hash_object_wf blob v84 hello_store) as (fs' & Hw & Hwf);
    [repeat constructor | apply store_wf_hello |].
  rewrite hash_object_v84 in Hw.
  apply Ok_pair_inj in Hw as [_ <-]. exact Hwf.
Qed.

Lemma blob_kind : blob ∈ kinds.
Proof. repeat constructor. Qed.

Lemma hash_object_read_object_witness :
  (exists sha fs', hash_object (PyBytes hello) blob ∅ = Ok (sha, fs'))
  /\ read_object hello_id hello_store = Ok (blob, hello).
Proof.
  destruct (hash_object_read_object blob hello ∅ blob_kind) as [Hex Hrt].
  split; [exact (Hex store_wf_empty) | exact (Hrt _ _ hash_object_hello)].
Defined.

(** C2, as stated, fails: the length token [xyz] is not a number and the
    decode step returns the object nevertheless. *)
Lemma parse_object_accepts_bad_length :
  spec_malformed_frame bad_length_frame = true
  /\ parse_object bad_length_frame = Ok (blob, ascii_bytes "hello").
Proof. split; vm_compute; reflexivity. Qed.

Lemma parse_object_header_check_witness :
  parse_object (ascii_bytes "blob" ++ [x00] ++ hello)
  = Raise (ValueError NotEnoughValuesToUnpack)
  /\ parse_object bad_length_frame = Ok (blob, ascii_bytes "hello").
Proof.
  destruct parse_object_header_check as [Hnosp Hsp]. split.
  - apply (Hnosp _ 4%nat); [reflexivity | compute_done].
  - apply (Hsp (ascii_bytes "blob") (ascii_bytes "xyz") (ascii_bytes "hello"));
      compute_done.
Defined.

(** Without a null byte the whole input comes back as the payload. *)
Example parse_object_no_null :
  parse_object (ascii_bytes "blob 5hello")
  = Ok (blob, ascii_bytes "blob 5hello").
Proof. vm_compute. reflexivity. Qed.

(** C3, as stated, fails: an entry with 5 bytes of identifier is yielded,
    and a payload without a space yields nothing; no error in either case. *)
Lemma read_tree_accepts_short_entry :
  spec_tree_malformed short_tree = true
  /\ read_tree 2 short_tree
     = ([(33188, Py.lit "a.txt", Py.lit "0102030405")], StopIteration)
  /\ spec_tree_malformed junk_tree = true
  /\ read_tree 1 junk_tree = ([], StopIteration).
Proof. repeat split; vm_compute; reflexivity. Qed.

Lemma read_tree_truncation_witness :
  read_tree 2 (concat (map entry_bytes [file_entry]) ++ [])
  = ([(33188, Py.lit "a.txt", hello_id)], StopIteration)
  /\ read_tree 3 (concat (map entry_bytes [file_entry])
                  ++ entry_bytes dir_entry_short)
     = ([(33188, Py.lit "a.txt", hello_id)]
          ++ [(16384, Py.lit "dir", Py.lit "0a0b0c")], StopIteration).
Proof.
  assert (Hents : Forall2
            (fun e v => entry_delimited e /\ length e.2 = 20%nat
                        /\ entry_value e = Some v)
            [file_entry] [(33188, Py.lit "a.txt", hello_id)]).
  { constructor; [|constructor].
    split; [split; compute_done | split; [reflexivity|]].
    vm_compute. reflexivity. }
  destruct (read_tree_truncation _ _ Hents) as [Htail Hlast]. split.
  - apply Htail; [compute_done | simpl; lia].
  - apply Hlast; [split; compute_done | simpl; lia | | simpl; lia].
    vm_compute. reflexivity.
Defined.

Example hash_object_hello_after_v84 :
  hash_object (PyBytes hello) blob v84_store = Ok (hello_id, two_store).
Proof. vm_compute. reflexivity. Qed.

Example read_object_hello :
  read_object hello_id hello_store = Ok (blob, hello).
Proof. vm_compute. reflexivity. Qed.

(** The checks of the repository's tests: resolution by a prefix of six
    characters, and the modes of [cat_file]. *)
Example find_object_hello_prefix :
  find_object (take 6 hello_id) hello_store = Ok hello_id.
Proof. vm_compute. reflexivity. Qed.

Example cat_file_hello :
  cat_file 0 (Py.lit "type") hello_id hello_store
  = (ascii_bytes "blob" ++ [Py.byte_of_Z 10], Returned)
  /\ cat_file 0 (Py.lit "size") hello_id hello_store
     = (ascii_bytes "12" ++ [Py.byte_of_Z 10], Returned)
  /\ cat_file 0 (Py.lit "pretty") hello_id hello_store = (hello, Returned).
Proof. repeat split; vm_compute; reflexivity. Qed.

(** A tree, written and pretty-printed. *)
Example cat_file_tree :
  hash_object (PyBytes a_tree) (Py.lit "tree") ∅ = Ok (a_tree_id, tree_store)
  /\ cat_file 2 (Py.lit "-p") a_tree_id tree_store
     = (ascii_bytes "100644 blob 3b18e512dba79e4c8300dd08aeb37f8e728b8dad"
          ++ [Py.byte_of_Z 9] ++ ascii_bytes "a.txt" ++ [Py.byte_of_Z 10],
        Returned).
Proof. split; vm_compute; reflexivity. Qed.

Lemma find_object_resolve_witness :
  find_object (Py.lit "3B1") two_store = Ok hello_id
  /\ find_object (Py.lit "3b") two_store
     = Raise (ValueError (AmbiguousPrefix (Py.lit "3b") 2))
  /\ find_object (Py.lit "3c") two_store = Raise FileNotFoundError.
Proof.
  pose proof (find_object_resolve (Py.lit "3B1") two_store eq_refl
                store_wf_two) as H1.
  pose proof (find_object_resolve (Py.lit "3b") two_store eq_refl
                store_wf_two) as H2.
  pose proof (find_object_resolve (Py.lit "3c") two_store eq_refl
                store_wf_two) as H3.
  assert (M1 : matching_ids (Py.lit "3B1") two_store = [hello_id])
    by (vm_compute; reflexivity).
  assert (M2 : matching_ids (Py.lit "3b") two_store = [v84_id; hello_id])
    by (vm_compute; reflexivity).
  assert (M3 : matching_ids (Py.lit "3c") two_store = [])
    by (vm_compute; reflexivity).
  rewrite M1 in H1. rewrite M2 in H2. rewrite M3 in H3.
  exact (conj H1 (conj H2 H3)).
Defined.

Lemma find_object_single_bucket_witness :
  find_object (Py.lit "3c18") two_store = Raise FileNotFoundError
  /\ find_object (Py.lit "3b18") (<[Py.lit "aa" := NDir ∅]> hello_store)
     = find_object (Py.lit "3b18") hello_store.
Proof.
  destruct (find_object_single_bucket (Py.lit "3c18") two_store
              eq_refl ltac:(simpl; lia)) as (Hmiss & _ & _).
  destruct (find_object_single_bucket (Py.lit "3b18") hello_store
              eq_refl ltac:(simpl; lia)) as (_ & _ & Hsame).
  split; [apply Hmiss | apply Hsame]; vm_compute; reflexivity.
Defined.

Lemma hash_object_encoding_witness :
  hello_id
  = Py.hex (Sha1.sha1 (ascii_bytes "blob" ++ [x20] ++ ascii_bytes "12"
                         ++ [x00] ++ hello))
  /\ length hello_id = 40%nat.
Proof.
  destruct (hash_object_encoding "blob" hello ∅ blob_kind) as (_ & _ & Hw).
  destruct (Hw _ _ hash_object_hello) as (Hsha & _ & Hlen & _).
  exact (conj Hsha Hlen).
Defined.

Lemma hash_object_deterministic_witness :
  hash_object (PyBytes hello) blob hello_store = Ok (hello_id, hello_store).
Proof.
  destruct (hash_object_deterministic _ _ _ _ _ _ _ _
              hash_object_hello hash_object_hello_after_v84)
    as (_ & _ & Hagain).
  exact Hagain.
Defined.



Lemma stored_hello_two : stored two_store hello_id blob hello.
Proof.
  apply (hash_object_stored blob hello v84_store);
    [repeat constructor | apply hash_object_hello_after_v84].
Qed.

Lemma read_object_prefix_witness :
  read_object (Py.lit "3b1") two_store = Ok (blob, hello)
  /\ read_object (Py.lit "3b") two_store
     = Raise (ValueError (AmbiguousPrefix (Py.lit "3b") 2)).
Proof.
  destruct (read_object_prefix (Py.lit "3b1") two_store store_wf_two)
    as [Hone _].
  destruct (read_object_prefix (Py.lit "3b") two_store store_wf_two)
    as [_ Hmany].
  assert (M1 : matching_ids (Py.lit "3b1") two_store = [hello_id])
    by (vm_compute; reflexivity).
  assert (M2 : matching_ids (Py.lit "3b") two_store = [v84_id; hello_id])
    by (vm_compute; reflexivity).
  rewrite M2 in Hmany.
  split; [|apply Hmany; simpl; lia].
  exact (Hone hello_id blob hello blob_kind M1 stored_hello_two).
Defined.

(** Without a null byte the cursor goes back to 20 at every turn: on
    [loop_tree] the generator never ends, whatever the fuel. *)
Lemma read_tree_loop_tree_step (fuel : nat) :
  read_tree_loop (S fuel) loop_tree 20
  = let '(es, e) := read_tree_loop fuel loop_tree 20 in
    ((7, [], Py.lit "3120616161616161616161616161616161616161") :: es, e).
Proof.
  cbn [read_tree_loop].
  replace (20 <? Py.len loop_tree) with true by (vm_compute; reflexivity).
  replace (Py.find x20 loop_tree 20) with 21 by (vm_compute; reflexivity).
  change (21 =? -1) with false. cbv iota.
  replace (Py.find x00 loop_tree (21 + 1)) with (-1)
    by (vm_compute; reflexivity).
  replace (Py.decode_utf8 (Py.slice loop_tree (21 + 1) (-1)))
    with (Some ([] : str)) by (vm_compute; reflexivity).
  replace (Py.int_base8 (Py.slice loop_tree 20 21)) with (Some 7)
    by (vm_compute; reflexivity).
  replace (Py.hex (Py.slice loop_tree (-1 + 1) (-1 + 21)))
    with (Py.lit "3120616161616161616161616161616161616161")
    by (vm_compute; reflexivity).
  reflexivity.
Qed.

Lemma read_tree_loop_tree_running (fuel : nat) :
  (read_tree_loop fuel loop_tree 20).2 = OutOfFuel.
Proof.
  induction fuel as [|fuel IH]; [done|].
  rewrite read_tree_loop_tree_step.
  by destruct (read_tree_loop fuel loop_tree 20).
Qed.

Example read_tree_missing_null_never_ends (fuel : nat) :
  (read_tree fuel loop_tree).2 = OutOfFuel.
Proof.
  destruct fuel as [|fuel]; [done|].
  unfold read_tree. cbn [read_tree_loop].
  replace (0 <? Py.len loop_tree) with true by (vm_compute; reflexivity).
  replace (Py.find x20 loop_tree 0) with 1 by (vm_compute; reflexivity).
  change (1 =? -1) with false. cbv iota.
  replace (Py.find x00 loop_tree (1 + 1)) with (-1)
    by (vm_compute; reflexivity).
  replace (Py.decode_utf8 (Py.slice loop_tree (1 + 1) (-1)))
    with (Some (Py.lit "aaaaaaaaaaaaaaaaaa7 ")) by (vm_compute; reflexivity).
  replace (Py.int_base8 (Py.slice loop_tree 0 1)) with (Some 1)
    by (vm_compute; reflexivity).
  change (-1 + 21) with 20.
  pose proof (read_tree_loop_tree_running fuel) as Hrun.
  by destruct (read_tree_loop fuel loop_tree 20).
Qed.

(** * Further properties *)

(** ** UTF-8 round trips *)

Lemma B_V (b : byte) : Py.B (Py.V b) = b.
Proof.
  unfold Py.B, Py.V, Py.byte_of_Z.
  pose proof (Byte.to_N_bounded b).
  rewrite Z.mod_small by lia. rewrite N2Z.id.
  by rewrite Byte.of_to_N.
Qed.

Lemma V_bound (b : byte) : (Py.V b < 256)%N.
Proof. unfold Py.V. pose proof (Byte.to_N_bounded b). lia. Qed.

Ltac n_div_lia := zify; Z.to_euclidean_division_equations; lia.

Lemma in_range_true (lo hi : N) (b : byte) :
  Py.in_range lo hi b = true <-> (lo <= Py.V b <= hi)%N.
Proof.
  unfold Py.in_range. rewrite andb_true_iff, !N.leb_le. done.
Qed.

Lemma is_cont_true (b : byte) :
  Py.is_cont b = true <-> (128 <= Py.V b <= 191)%N.
Proof. apply (in_range_true 128 191). Qed.

(** One character, encoded, is what the decoder reads first. *)
Lemma decode_encode_char (c : N) (b rest : bytes) (fuel : nat) :
  Py.encode_char c = Some b ->
  Py.decode_utf8_fuel (S fuel) (b ++ rest)
  = cons c <$> Py.decode_utf8_fuel fuel rest.
Proof.
  unfold Py.encode_char.
  destruct (N.ltb_spec c 128) as [H1|H1].
  { intros [= <-]. simpl. rewrite V_B by lia.
    by rewrite (proj2 (N.ltb_lt _ _)) by lia. }
  destruct (N.ltb_spec c 2048) as [H2|H2].
  { intros [= <-]. cbn [app Py.decode_utf8_fuel].
    assert (Hq : (194 <= 192 + c / 64 <= 223)%N) by n_div_lia.
    assert (Hr : (128 <= 128 + c mod 64 <= 191)%N) by n_div_lia.
    rewrite !V_B by lia.
    rewrite (proj2 (N.ltb_ge _ _)) by lia.
    rewrite (proj2 (in_range_true 194 223 _)) by (rewrite V_B; lia).
    rewrite (proj2 (is_cont_true _)) by (rewrite V_B; lia).
    do 2 f_equal. n_div_lia. }
  destruct (N.ltb_spec c 65536) as [H3|H3].
  { destruct ((55296 <=? c)%N && (c <=? 57343)%N) eqn:Hs; [done|].
    intros [= <-]. cbn [app Py.decode_utf8_fuel].
    assert (Hsur : (c < 55296 \/ 57343 < c)%N).
    { apply andb_false_iff in Hs as [Hs|Hs]; apply N.leb_gt in Hs; lia. }
    assert (Hq : (224 <= 224 + c / 4096 <= 239)%N) by n_div_lia.
    assert (Hm : (128 <= 128 + (c / 64) mod 64 <= 191)%N) by n_div_lia.
    assert (Hr : (128 <= 128 + c mod 64 <= 191)%N) by n_div_lia.
    rewrite !V_B by lia.
    rewrite (proj2 (N.ltb_ge _ _)) by lia.
    rewrite (proj2 (in_range_true 224 239 _)) by (rewrite V_B; lia).
    destruct (in_range_true 194 223 (Py.B (224 + c / 4096))) as [Hno _].
    destruct (Py.in_range 194 223 (Py.B (224 + c / 4096))) eqn:E;
      [specialize (Hno eq_refl); rewrite V_B in Hno by lia; lia|].
    replace ((if (224 + c / 4096 =? 224)%N
              then Py.in_range 160 191 (Py.B (128 + (c / 64) mod 64))
              else if (224 + c / 4096 =? 237)%N
                   then Py.in_range 128 159 (Py.B (128 + (c / 64) mod 64))
                   else Py.is_cont (Py.B (128 + (c / 64) mod 64)))
             && Py.is_cont (Py.B (128 + c mod 64))) with true.
    { do 2 f_equal. n_div_lia. }
    symmetry. apply andb_true_iff. split;
      [|apply is_cont_true; rewrite V_B; lia].
    destruct (N.eqb_spec (224 + c / 4096) 224) as [E0|E0];
      [|destruct (N.eqb_spec (224 + c / 4096) 237) as [E1|E1]].
    - apply in_range_true. rewrite V_B by lia. n_div_lia.
    - apply in_range_true. rewrite V_B by lia. n_div_lia.
    - apply is_cont_true. rewrite V_B by lia. lia. }
  destruct (N.ltb_spec c 1114112) as [H4|H4]; [|done].
  intros [= <-]. cbn [app Py.decode_utf8_fuel].
  assert (Hq : (240 <= 240 + c / 262144 <= 244)%N) by n_div_lia.
  assert (Hm1 : (128 <= 128 + (c / 4096) mod 64 <= 191)%N) by n_div_lia.
  assert (Hm2 : (128 <= 128 + (c / 64) mod 64 <= 191)%N) by n_div_lia.
  assert (Hr : (128 <= 128 + c mod 64 <= 191)%N) by n_div_lia.
  rewrite !V_B by lia.
  rewrite (proj2 (N.ltb_ge _ _)) by lia.
  destruct (in_range_true 194 223 (Py.B (240 + c / 262144))) as [Hno1 _].
  destruct (Py.in_range 194 223 (Py.B (240 + c / 262144))) eqn:E1;
    [specialize (Hno1 eq_refl); rewrite V_B in Hno1 by lia; lia|].
  destruct (in_range_true 224 239 (Py.B (240 + c / 262144))) as [Hno2 _].
  destruct (Py.in_range 224 239 (Py.B (240 + c / 262144))) eqn:E2;
    [specialize (Hno2 eq_refl); rewrite V_B in Hno2 by lia; lia|].
  rewrite (proj2 (in_range_true 240 244 _)) by (rewrite V_B; lia).
  replace ((if (240 + c / 262144 =? 240)%N
            then Py.in_range 144 191 (Py.B (128 + (c / 4096) mod 64))
            else if (240 + c / 262144 =? 244)%N
                 then Py.in_range 128 143 (Py.B (128 + (c / 4096) mod 64))
                 else Py.is_cont (Py.B (128 + (c / 4096) mod 64)))
           && Py.is_cont (Py.B (128 + (c / 64) mod 64))
           && Py.is_cont (Py.B (128 + c mod 64))) with true.
  { do 2 f_equal. n_div_lia. }
  symmetry. rewrite !andb_true_iff. split; [split|];
    [|apply is_cont_true; rewrite V_B; lia
     |apply is_cont_true; rewrite V_B; lia].
  destruct (N.eqb_spec (240 + c / 262144) 240) as [E0|E0];
    [|destruct (N.eqb_spec (240 + c / 262144) 244) as [E4|E4]].
  - apply in_range_true. rewrite V_B by lia. n_div_lia.
  - apply in_range_true. rewrite V_B by lia. n_div_lia.
  - apply is_cont_true. rewrite V_B by lia. lia.
Qed.

Lemma encode_char_length (c : N) (b : bytes) :
  Py.encode_char c = Some b -> (1 <= length b <= 4)%nat.
Proof.
  unfold Py.encode_char. intros Hb.
  repeat match type of Hb with
         | context [if ?x then _ else _] => destruct x
         end; try done; injection Hb as <-; simpl; lia.
Qed.

Lemma decode_encode_fuel (s : str) (bs : bytes) :
  Py.encode_utf8 s = Some bs ->
  forall fuel, (length bs <= fuel)%nat ->
               Py.decode_utf8_fuel fuel bs = Some s.
Proof.
  revert bs. induction s as [|c s IH]; intros bs.
  - intros [= <-] [|fuel] _; done.
  - simpl. destruct (Py.encode_char c) as [b|] eqn:Ec; [|done].
    destruct (Py.encode_utf8 s) as [bs'|] eqn:Es; [|done].
    intros [= <-] fuel Hfuel. rewrite length_app in Hfuel.
    pose proof (encode_char_length c b Ec).
    destruct fuel as [|fuel]; [lia|].
    rewrite (decode_encode_char c b bs' fuel Ec).
    by rewrite (IH bs' eq_refl fuel) by lia.
Qed.

(** [s.encode("utf-8").decode("utf-8") == s] *)
Lemma decode_encode_utf8 (s : str) (bs : bytes) :
  Py.encode_utf8 s = Some bs -> Py.decode_utf8 bs = Some s.
Proof. intros Hs. by apply decode_encode_fuel. Qed.

Lemma fmap_cons_Some {A} (x : A) (o : option (list A)) (l : list A) :
  cons x <$> o = Some l -> exists l', o = Some l' /\ l = x :: l'.
Proof. destruct o as [l'|]; [|done]. intros [= <-]. eauto. Qed.

(** What the decoder reads first is the encoding of a character. *)
Lemma decode_step_inv (fuel : nat) (l : bytes) (s : str) :
  Py.decode_utf8_fuel (S fuel) l = Some s ->
  (l = [] /\ s = [])
  \/ exists c b rest s',
      l = b ++ rest /\ s = c :: s' /\ Py.encode_char c = Some b
      /\ Py.decode_utf8_fuel fuel rest = Some s'.
Proof.
  cbn [Py.decode_utf8_fuel].
  destruct l as [|b0 l1]; [intros [= <-]; by left|].
  intros Hd. right. revert Hd.
  pose proof (V_bound b0) as Hb0.
  destruct (N.ltb_spec (Py.V b0) 128) as [H1|H1].
  { intros (s' & Hs' & ->)%fmap_cons_Some.
    exists (Py.V b0), [b0], l1, s'. repeat split; [|done].
    unfold Py.encode_char. rewrite (proj2 (N.ltb_lt _ _)) by done.
    by rewrite B_V. }
  destruct (Py.in_range 194 223 b0) eqn:R2.
  { apply in_range_true in R2.
    destruct l1 as [|b1 l2]; [done|].
    destruct (Py.is_cont b1) eqn:C1; [|done]. apply is_cont_true in C1.
    intros (s' & Hs' & ->)%fmap_cons_Some.
    exists ((Py.V b0 - 192) * 64 + (Py.V b1 - 128))%N, [b0; b1], l2, s'.
    repeat split; [|done].
    unfold Py.encode_char.
    rewrite (proj2 (N.ltb_ge _ 128)) by lia.
    rewrite (proj2 (N.ltb_lt _ 2048)) by lia.
    replace (192 + ((Py.V b0 - 192) * 64 + (Py.V b1 - 128)) / 64)%N
      with (Py.V b0) by n_div_lia.
    replace (128 + ((Py.V b0 - 192) * 64 + (Py.V b1 - 128)) mod 64)%N
      with (Py.V b1) by n_div_lia.
    by rewrite !B_V. }
  destruct (Py.in_range 224 239 b0) eqn:R3.
  { apply in_range_true in R3.
    destruct l1 as [|b1 [|b2 l3]]; [done|done|].
    match goal with
    | |- (if ?c then _ else _) = _ -> _ => destruct c eqn:Hc; [|done]
    end.
    apply andb_true_iff in Hc as [Hc1 C2]. apply is_cont_true in C2.
    assert (C1 : (128 <= Py.V b1 <= 191)%N
                 /\ (Py.V b0 = 224 -> 160 <= Py.V b1)%N
                 /\ (Py.V b0 = 237 -> Py.V b1 <= 159)%N).
    { destruct (N.eqb_spec (Py.V b0) 224) as [E0|E0];
        [|destruct (N.eqb_spec (Py.V b0) 237) as [E1|E1]];
        [apply in_range_true in Hc1|apply in_range_true in Hc1
        |apply is_cont_true in Hc1]; lia. }
    destruct C1 as (C1 & C1a & C1b).
    intros (s' & Hs' & ->)%fmap_cons_Some.
    set (c := ((Py.V b0 - 224) * 4096 + (Py.V b1 - 128) * 64
               + (Py.V b2 - 128))%N).
    exists c, [b0; b1; b2], l3, s'. repeat split; [|done].
    unfold Py.encode_char.
    assert (Hlo : (2048 <= c)%N) by (unfold c; lia).
    assert (Hhi : (c < 65536)%N) by (unfold c; lia).
    rewrite (proj2 (N.ltb_ge _ 128)) by lia.
    rewrite (proj2 (N.ltb_ge _ 2048)) by lia.
    rewrite (proj2 (N.ltb_lt _ 65536)) by lia.
    assert (Hsur : ((55296 <=? c)%N && (c <=? 57343)%N) = false).
    { apply andb_false_iff.
      destruct (N.leb_spec 55296 c); [right|by left].
      apply N.leb_gt. unfold c in *. lia. }
    rewrite Hsur.
    replace (224 + c / 4096)%N with (Py.V b0) by (unfold c; n_div_lia).
    replace (128 + (c / 64) mod 64)%N with (Py.V b1)
      by (unfold c; n_div_lia).
    replace (128 + c mod 64)%N with (Py.V b2) by (unfold c; n_div_lia).
    by rewrite !B_V. }
  destruct (Py.in_range 240 244 b0) eqn:R4; [|done].
  apply in_range_true in R4.
  destruct l1 as [|b1 [|b2 [|b3 l4]]]; [done|done|done|].
  match goal with
  | |- (if ?c then _ else _) = _ -> _ => destruct c eqn:Hc; [|done]
  end.
  apply andb_true_iff in Hc as [Hc C3]. apply is_cont_true in C3.
  apply andb_true_iff in Hc as [Hc1 C2]. apply is_cont_true in C2.
  assert (C1 : (128 <= Py.V b1 <= 191)%N
               /\ (Py.V b0 = 240 -> 144 <= Py.V b1)%N
               /\ (Py.V b0 = 244 -> Py.V b1 <= 143)%N).
  { destruct (N.eqb_spec (Py.V b0) 240) as [E0|E0];
      [|destruct (N.eqb_spec (Py.V b0) 244) as [E1|E1]];
      [apply in_range_true in Hc1|apply in_range_true in Hc1
      |apply is_cont_true in Hc1]; lia. }
  destruct C1 as (C1 & C1a & C1b).
  intros (s' & Hs' & ->)%fmap_cons_Some.
  set (c := ((Py.V b0 - 240) * 262144 + (Py.V b1 - 128) * 4096
             + (Py.V b2 - 128) * 64 + (Py.V b3 - 128))%N).
  exists c, [b0; b1; b2; b3], l4, s'. repeat split; [|done].
  unfold Py.encode_char.
  assert (Hlo : (65536 <= c)%N) by (unfold c; lia).
  assert (Hhi : (c < 1114112)%N) by (unfold c; lia).
  rewrite (proj2 (N.ltb_ge _ 128)) by lia.
  rewrite (proj2 (N.ltb_ge _ 2048)) by lia.
  rewrite (proj2 (N.ltb_ge _ 65536)) by lia.
  rewrite (proj2 (N.ltb_lt _ 1114112)) by lia.
  replace (240 + c / 262144)%N with (Py.V b0) by (unfold c; n_div_lia).
  replace (128 + (c / 4096) mod 64)%N with (Py.V b1)
    by (unfold c; n_div_lia).
  replace (128 + (c / 64) mod 64)%N with (Py.V b2) by (unfold c; n_div_lia).
  replace (128 + c mod 64)%N with (Py.V b3) by (unfold c; n_div_lia).
  by rewrite !B_V.
Qed.

Lemma encode_decode_fuel (fuel : nat) (l : bytes) (s : str) :
  Py.decode_utf8_fuel fuel l = Some s -> Py.encode_utf8 s = Some l.
Proof.
  revert l s. induction fuel as [|fuel IH]; intros l s.
  - destruct l; [|done]. by intros [= <-].
  - intros [[-> ->]|(c & b & rest & s' & -> & -> & Hc & Hrest)]%decode_step_inv;
      [done|].
    simpl. by rewrite Hc, (IH _ _ Hrest).
Qed.

(** [b.decode("utf-8").encode("utf-8") == b] *)
Lemma encode_decode_utf8 (l : bytes) (s : str) :
  Py.decode_utf8 l = Some s -> Py.encode_utf8 s = Some l.
Proof. apply encode_decode_fuel. Qed.

Lemma encode_utf8_app (s t : str) :
  Py.encode_utf8 (s ++ t)
  = match Py.encode_utf8 s, Py.encode_utf8 t with
    | Some a, Some b => Some (a ++ b)
    | _, _ => None
    end.
Proof.
  induction s as [|c s IH]; simpl.
  - by destruct (Py.encode_utf8 t).
  - rewrite IH. destruct (Py.encode_char c) as [b|]; [|done].
    destruct (Py.encode_utf8 s), (Py.encode_utf8 t); try done.
    by rewrite app_assoc.
Qed.

(** A byte below 128 in an encoding is a character of the string. *)
Lemma encode_char_low (c : N) (b : bytes) (x : byte) :
  Py.encode_char c = Some b -> x ∈ b -> (Py.V x < 128)%N -> c = Py.V x.
Proof.
  unfold Py.encode_char.
  destruct (N.ltb_spec c 128) as [H1|H1].
  { intros [= <-] ->%list_elem_of_singleton _. rewrite V_B; [done|lia]. }
  intros Hb Hx Hlow. exfalso.
  assert (Hhigh : Forall (fun y => (128 <= Py.V y)%N) b).
  { destruct (N.ltb_spec c 2048);
      [|destruct (N.ltb_spec c 65536);
        [destruct ((55296 <=? c)%N && (c <=? 57343)%N); [done|]
        |destruct (N.ltb_spec c 1114112); [|done]]];
      injection Hb as <-;
      repeat (constructor; [rewrite V_B; n_div_lia|]); constructor. }
  eapply Forall_forall in Hhigh; [|done]. lia.
Qed.

Lemma encode_utf8_low (s : str) (bs : bytes) (x : byte) :
  Py.encode_utf8 s = Some bs -> x ∈ bs -> (Py.V x < 128)%N -> Py.V x ∈ s.
Proof.
  revert bs. induction s as [|c s IH]; intros bs; simpl.
  - intros [= <-] Hx. by apply elem_of_nil in Hx.
  - destruct (Py.encode_char c) as [b|] eqn:Ec; [|done].
    destruct (Py.encode_utf8 s) as [bs'|] eqn:Es; [|done].
    intros [= <-] [Hx|Hx]%elem_of_app Hlow.
    + rewrite (encode_char_low c b x Ec Hx Hlow). by left.
    + right. by apply (IH bs').
Qed.

(** ** [read_tree]: what it yields *)

Lemma find_ge (b : byte) (l : bytes) (s : Z) : -1 <= Py.find b l s.
Proof.
  unfold Py.find, Py.clamp_index.
  destruct (Py.index_of b _); [|done].
  pose proof (len_nonneg l). destruct (Z.ltb_spec s 0); lia.
Qed.

Lemma slice_length_le {A} (l : list A) (a b : Z) :
  0 <= a -> 0 <= b -> (length (Py.slice l a b) <= Z.to_nat (b - a))%nat.
Proof.
  intros Ha Hb. rewrite slice_take_drop by done. rewrite length_take. lia.
Qed.

Lemma octal_of_pos_ascii (n : nat) :
  forall (p : positive) (acc : str),
    (Pos.size_nat p <= n)%nat -> is_ascii acc ->
    is_ascii (Py.octal_of_pos p acc).
Proof.
  induction n as [|n IH]; intros p acc Hn Hacc; [destruct p; simpl in Hn; lia|].
  destruct p as [[[q|q|]|[q|q|]|]|[[q|q|]|[q|q|]|]|]; simpl in *;
    try (apply IH; [lia|]);
    try (constructor; [simpl; lia | done]).
Qed.

Lemma format_06o_ascii (m : Z) : is_ascii (Py.format_06o m).
Proof.
  unfold Py.format_06o. apply is_ascii_app; [|apply is_ascii_app].
  - destruct (m <? 0); repeat constructor.
  - apply Forall_replicate. simpl. lia.
  - unfold Py.octal_of_nat. destruct (Z.abs m); try (repeat constructor).
    eapply octal_of_pos_ascii; [done | constructor].
Qed.

Lemma hex_lower_ascii (s : str) : forallb hex_lower s = true -> is_ascii s.
Proof.
  induction s as [|c s IH]; [constructor|]. simpl.
  intros [Hc Hs]%andb_true_iff. constructor; [|by apply IH].
  unfold hex_lower in Hc. simpl.
  apply orb_true_iff in Hc
    as [[?%N.leb_le ?%N.leb_le]%andb_true_iff
       |[?%N.leb_le ?%N.leb_le]%andb_true_iff]; lia.
Qed.

Lemma read_tree_loop_sound (fuel : nat) (data : bytes) (i : Z) :
  Forall entry_sound (read_tree_loop fuel data i).1.
Proof.
  revert i. induction fuel as [|fuel IH]; intros i; [constructor|].
  cbn [read_tree_loop].
  destruct (i <? Py.len data); [|constructor].
  pose proof (find_ge x20 data i) as Hj.
  destruct (Z.eqb_spec (Py.find x20 data i) (-1)) as [|Hne]; [constructor|].
  set (j := Py.find x20 data i) in *.
  pose proof (find_ge x00 data (j + 1)) as Hk.
  set (k := Py.find x00 data (j + 1)) in *.
  destruct (Py.decode_utf8 (Py.slice data (j + 1) k)) as [name|] eqn:En;
    [|constructor].
  destruct (Py.int_base8 (Py.slice data i j)) as [m|]; [|constructor].
  specialize (IH (k + 21)).
  destruct (read_tree_loop fuel data (k + 21)) as [es e]. simpl in *.
  constructor; [|done]. split; [eauto|]. split; [apply hex_lower_hex|].
  simpl. exists (length (Py.slice data (k + 1) (k + 21))).
  split; [|apply hex_length].
  pose proof (slice_length_le data (k + 1) (k + 21)). lia.
Qed.

(** ** [cat_file]: the other modes *)

Lemma is_in_true (x : str) (l : list string) :
  is_in x l = true <-> x ∈ map Py.lit l.
Proof. unfold is_in. apply bool_decide_eq_true. Qed.

Lemma is_in_false (x : str) (l : list string) :
  is_in x l = false <-> x ∉ map Py.lit l.
Proof. unfold is_in. apply bool_decide_eq_false. Qed.

Lemma parse_object_type (dec : bytes) (t : str) (data : bytes) :
  parse_object dec = Ok (t, data) -> exists tb, Py.decode_utf8 tb = Some t.
Proof.
  unfold parse_object.
  destruct (Py.split1 x20 _) as [|tb [|size [|? ?]]]; try done.
  destruct (Py.decode_utf8 tb) as [t'|] eqn:Et; [|done].
  simpl. intros [= <- _]. eauto.
Qed.

Lemma print_ascii (s : str) :
  is_ascii s -> print s = Ok (map Py.B s ++ [x0a]).
Proof.
  intros Hs. unfold print. rewrite encode_utf8_ascii.
  - by rewrite map_app.
  - apply is_ascii_app; [done | repeat constructor].
Qed.

Lemma print_encodable (s : str) (b : bytes) :
  Py.encode_utf8 s = Some b -> print s = Ok (b ++ [x0a]).
Proof.
  intros Hs. unfold print. rewrite encode_utf8_app, Hs. reflexivity.
Qed.

Section CatFile.
Context `{Zlib}.

Lemma read_object_type (q : str) (fs : gmap str node) (t : str)
    (data : bytes) :
  read_object q fs = Ok (t, data) -> exists tb, Py.decode_utf8 tb = Some t.
Proof.
  unfold read_object.
  destruct (find_object q fs) as [full|]; [|done]. simpl.
  destruct (read_file fs _ _) as [raw|]; [|done]. simpl.
  destruct (decompress raw) as [dec|]; [|done]. simpl.
  apply parse_object_type.
Qed.

(** X1: for an object that [read_object] reads, the modes [-s], [--size] and
    [size] print the length of the payload in decimal digits and a newline,
    and return. *)
Theorem cat_file_size (fuel : nat) (mode sha obj_type : str) (data : bytes)
    (fs : gmap str node) :
  read_object sha fs = Ok (obj_type, data) ->
  mode ∈ map Py.lit ["-s"; "--size"; "size"]%string ->
  cat_file fuel mode sha fs
  = (ascii_bytes (NilZero.string_of_uint
                    (N.to_uint (N.of_nat (length data)))) ++ [x0a],
     Returned).
Proof.
  intros Hread Hmode. unfold cat_file. rewrite Hread.
  rewrite (proj2 (is_in_false mode _)).
  - rewrite (proj2 (is_in_true mode _)) by done.
    rewrite print_ascii by apply digits_ascii, str_of_nat_digits.
    unfold Py.str_of_nat. by rewrite map_B_lit.
  - revert Hmode. simpl. rewrite !elem_of_cons, !elem_of_nil.
    intros [->|[->|[->|[]]]] [?|[?|[?|[]]]]; done.
Qed.

(** X2: for an object that [read_object] reads, the modes [-t], [--type]
    and [type] print the UTF-8 bytes of the kind and a newline, and return:
    the kind that [read_object] returns always has an encoding. *)
Theorem cat_file_type (fuel : nat) (mode sha obj_type : str) (data : bytes)
    (fs : gmap str node) :
  read_object sha fs = Ok (obj_type, data) ->
  mode ∈ map Py.lit ["-t"; "--type"; "type"]%string ->
  exists tb,
    Py.encode_utf8 obj_type = Some tb
    /\ cat_file fuel mode sha fs = (tb ++ [x0a], Returned).
Proof.
  intros Hread Hmode.
  destruct (read_object_type _ _ _ _ Hread) as (tb & Htb).
  apply encode_decode_utf8 in Htb. exists tb. split; [done|].
  unfold cat_file. rewrite Hread.
  rewrite (proj2 (is_in_false mode ["commit"; "tree"; "blob"]%string)).
  - rewrite (proj2 (is_in_false mode ["-s"; "--size"; "size"]%string)).
    + rewrite (proj2 (is_in_true mode _)) by done.
      by rewrite (print_encodable _ tb).
    + revert Hmode. simpl. rewrite !elem_of_cons, !elem_of_nil.
      intros [->|[->|[->|[]]]] [?|[?|[?|[]]]]; done.
  - revert Hmode. simpl. rewrite !elem_of_cons, !elem_of_nil.
    intros [->|[->|[->|[]]]] [?|[?|[?|[]]]]; done.
Qed.

Lemma pretty_mode (mode : str) :
  mode ∈ map Py.lit ["-p"; "--pretty"; "pretty"]%string ->
  is_in mode ["commit"; "tree"; "blob"]%string = false
  /\ is_in mode ["-s"; "--size"; "size"]%string = false
  /\ is_in mode ["-t"; "--type"; "type"]%string = false
  /\ is_in mode ["-p"; "--pretty"; "pretty"]%string = true.
Proof.
  intros Hmode. rewrite !is_in_false, is_in_true.
  repeat split; try done;
    revert Hmode; simpl; rewrite !elem_of_cons, !elem_of_nil;
    intros [->|[->|[->|[]]]] [?|[?|[?|[]]]]; done.
Qed.

(** X3: in the modes [-p], [--pretty] and [pretty], a blob or a commit is
    written out as it is, and an object whose kind is none of blob, commit
    and tree raises [AssertionError] without any output. *)
Theorem cat_file_pretty_raw (fuel : nat) (mode sha obj_type : str)
    (data : bytes) (fs : gmap str node) :
  read_object sha fs = Ok (obj_type, data) ->
  mode ∈ map Py.lit ["-p"; "--pretty"; "pretty"]%string ->
  (obj_type ∈ map Py.lit ["commit"; "blob"]%string ->
   cat_file fuel mode sha fs = (data, Returned))
  /\ (obj_type ∉ map Py.lit ["commit"; "blob"; "tree"]%string ->
      cat_file fuel mode sha fs = ([], Raised (AssertionError obj_type))).
Proof.
  intros Hread (M1 & M2 & M3 & M4)%pretty_mode.
  unfold cat_file. rewrite Hread, M1, M2, M3, M4. split.
  - intros Ht. by rewrite (proj2 (is_in_true obj_type _)).
  - intros Ht. rewrite (proj2 (is_in_false obj_type _)).
    + rewrite bool_decide_eq_false_2; [done|].
      intros ->. apply Ht. simpl. rewrite !elem_of_cons. tauto.
    + intros Hin. apply Ht. revert Hin. simpl. rewrite !elem_of_cons. tauto.
Qed.

Lemma encode_utf8_ascii_app (a s : str) (sb : bytes) :
  is_ascii a -> Py.encode_utf8 s = Some sb ->
  Py.encode_utf8 (a ++ s) = Some (map Py.B a ++ sb).
Proof.
  intros Ha Hs. by rewrite encode_utf8_app, (encode_utf8_ascii a), Hs.
Qed.

Lemma tree_line_encodable (e : tree_entry) :
  entry_sound e -> mode_fits e = true ->
  exists s b, tree_line e = Ok s /\ Py.encode_utf8 s = Some b.
Proof.
  destruct e as [[m name] sha]. intros ((nb & Hnb) & Hhex & _) Hm.
  unfold mode_fits in Hm. cbn [fst snd] in *.
  apply encode_decode_utf8 in Hnb. unfold tree_line, S_ISDIR. rewrite Hm.
  cbn [mbind result_bind mret result_ret].
  eexists _, _. split; [reflexivity|].
  apply encode_utf8_ascii_app; [apply format_06o_ascii|].
  apply encode_utf8_ascii_app; [repeat constructor|].
  apply encode_utf8_ascii_app;
    [destruct (Z.land m 61440 =? 16384); repeat constructor|].
  apply encode_utf8_ascii_app; [repeat constructor|].
  apply encode_utf8_ascii_app; [by apply hex_lower_ascii|].
  apply encode_utf8_ascii_app; [repeat constructor|].
  exact Hnb.
Qed.

Lemma tree_line_overflow (e : tree_entry) :
  mode_fits e = false -> tree_line e = Raise OverflowError.
Proof.
  destruct e as [[m name] sha]. unfold mode_fits, tree_line, S_ISDIR.
  cbn [fst snd]. by intros ->.
Qed.

Lemma print_tree_sound (es : list tree_entry) (e : gen_end) :
  Forall entry_sound es -> Forall (fun x => mode_fits x = true) es ->
  exists lines,
    Forall2 (fun entry line => tree_line entry ≫= print = Ok line) es lines
    /\ print_tree es e = (concat lines, outcome_of e).
Proof.
  intros Hs. induction Hs as [|entry es Hentry _ IH]; intros Hm.
  - exists []. split; [constructor|]. by destruct e.
  - apply Forall_cons in Hm as [Hm1 Hm].
    destruct (IH Hm) as (lines & Hlines & IHeq).
    destruct (tree_line_encodable entry Hentry Hm1) as (s & b & Hs' & Hb).
    exists ((b ++ [x0a]) :: lines). split.
    + constructor; [|done]. rewrite Hs'. cbn [mbind result_bind].
      by apply print_encodable.
    + cbn [print_tree]. rewrite Hs'. cbn [mbind result_bind].
      rewrite (print_encodable _ b Hb), IHeq. done.
Qed.

Lemma print_tree_overflow (es1 : list tree_entry) (entry : tree_entry)
    (es2 : list tree_entry) (e : gen_end) :
  Forall entry_sound es1 -> Forall (fun x => mode_fits x = true) es1 ->
  mode_fits entry = false ->
  exists lines,
    Forall2 (fun entry line => tree_line entry ≫= print = Ok line) es1 lines
    /\ print_tree (es1 ++ entry :: es2) e
       = (concat lines, Raised OverflowError).
Proof.
  intros Hs. induction Hs as [|x es1 Hx _ IH]; intros Hm Ho.
  - exists []. split; [constructor|]. cbn [app print_tree].
    by rewrite (tree_line_overflow _ Ho).
  - apply Forall_cons in Hm as [Hm1 Hm].
    destruct (IH Hm Ho) as (lines & Hlines & IHeq).
    destruct (tree_line_encodable x Hx Hm1) as (s & b & Hs' & Hb).
    exists ((b ++ [x0a]) :: lines). split.
    + constructor; [|done]. rewrite Hs'. cbn [mbind result_bind].
      by apply print_encodable.
    + cbn [app print_tree]. rewrite Hs'. cbn [mbind result_bind].
      rewrite (print_encodable _ b Hb), IHeq. done.
Qed.

Lemma print_tree_Raised (es : list tree_entry) (ge : gen_end) (x : exn) :
  Forall entry_sound es ->
  (print_tree es ge).2 = Raised x -> x = OverflowError \/ ge = GenRaise x.
Proof.
  induction 1 as [|entry es Hentry _ IH]; cbn [print_tree].
  - destruct ge; cbn; try done. intros [= ->]. by right.
  - destruct (mode_fits entry) eqn:Hm.
    + destruct (tree_line_encodable entry Hentry Hm) as (s & b & -> & Hb).
      cbn [mbind result_bind]. rewrite (print_encodable _ b Hb).
      by destruct (print_tree es ge) as [out r].
    + rewrite (tree_line_overflow _ Hm). cbn. intros [= <-]. by left.
Qed.

(** X4: in the modes [-p], [--pretty] and [pretty] a tree is printed entry by
    entry.  When the mode of every tuple that [read_tree] yields fits 32
    bits without a sign, the output is one line for each tuple, in order,
    and the call ends as the generator ends: it returns when the generator
    stops, and when the generator raises, the lines of the entries before
    the error have been written and the exception is raised.  At the first
    tuple whose mode does not fit, [stat.S_ISDIR] raises [OverflowError]:
    the lines of the tuples before it have been written, and none after. *)
Theorem cat_file_pretty_tree (fuel : nat) (mode sha : str) (data : bytes)
    (fs : gmap str node) :
  read_object sha fs = Ok (Py.lit "tree", data) ->
  mode ∈ map Py.lit ["-p"; "--pretty"; "pretty"]%string ->
  (Forall (fun e => mode_fits e = true) (read_tree fuel data).1 ->
   exists lines,
     Forall2 (fun entry line => tree_line entry ≫= print = Ok line)
       (read_tree fuel data).1 lines
     /\ cat_file fuel mode sha fs
        = (concat lines, outcome_of (read_tree fuel data).2))
  /\ (forall es1 entry es2,
        (read_tree fuel data).1 = es1 ++ entry :: es2 ->
        Forall (fun e => mode_fits e = true) es1 ->
        mode_fits entry = false ->
        exists lines,
          Forall2 (fun entry line => tree_line entry ≫= print = Ok line)
            es1 lines
          /\ cat_file fuel mode sha fs
             = (concat lines, Raised OverflowError)).
Proof.
  intros Hread (M1 & M2 & M3 & M4)%pretty_mode.
  unfold cat_file. rewrite Hread, M1, M2, M3, M4.
  rewrite (proj2 (is_in_false (Py.lit "tree") _)) by compute_done.
  rewrite bool_decide_eq_true_2 by done.
  pose proof (read_tree_loop_sound fuel data 0) as Hsound.
  unfold read_tree. destruct (read_tree_loop fuel data 0) as [es e].
  cbn [fst snd] in *. split.
  - intros Hm. by apply print_tree_sound.
  - intros es1 entry es2 -> Hm Ho.
    apply Forall_app in Hsound as [Hsound _].
    by apply print_tree_overflow.
Qed.

End CatFile.

(** ** [find_object]: what it returns and what it raises *)

Lemma unique_match_Ok (name : str) (ms : list str) (id : str) :
  unique_match name ms = Ok id -> ms = [id].
Proof. destruct ms as [|m [|m' ms]]; try done. by intros [= ->]. Qed.

Lemma unique_match_Raise (name : str) (ms : list str) (e : exn) :
  unique_match name ms = Raise e ->
  e = FileNotFoundError
  \/ (e = ValueError (AmbiguousPrefix name (length ms))
      /\ (2 <= length ms)%nat).
Proof.
  destruct ms as [|m [|m' ms]]; try done; intros [= <-]; [by left|].
  right. split; [done | simpl; lia].
Qed.

Lemma find_matches_small (name : str) (fs : gmap str node) (id : str) :
  id ∈ flat_map
         (fun '(d, n) =>
            match n with
            | NFile => []
            | NDir es =>
                filter (fun df => Py.startswith df name = true)
                  (map (fun f => d ++ f) (listdir es))
            end)
         (map_to_list fs) ->
  Py.startswith id name = true
  /\ exists d es f,
      id = d ++ f /\ fs !! d = Some (NDir es) /\ is_Some (es !! f).
Proof.
  intros Hin. apply list_elem_of_In, in_flat_map in Hin as ([d n] & Hdn & Hid).
  apply list_elem_of_In, elem_of_map_to_list in Hdn.
  destruct n as [|es]; [done|].
  apply list_elem_of_In, list_elem_of_filter in Hid as [Hst Hid].
  change (map ?g ?l) with (g <$> l) in Hid.
  apply list_elem_of_fmap in Hid as (f & -> & Hf).
  split; [done|]. exists d, es, f. by rewrite <- elem_of_listdir.
Qed.

Lemma find_object_Ok_inv (q : str) (fs : gmap str node) (id : str) :
  find_object q fs = Ok id ->
  Py.startswith id (Py.lower q) = true
  /\ exists d es f,
      id = d ++ f /\ fs !! d = Some (NDir es) /\ is_Some (es !! f).
Proof.
  destruct (decide (length q = 40%nat)) as [H40|H40].
  - unfold find_object, Py.len. rewrite lower_length, H40.
    change (Z.of_nat 40 =? 40) with true. cbv iota.
    change 2 with (Z.of_nat 2). rewrite slice_to_take, slice_from_drop.
    unfold path_exists.
    destruct (fs !! take 2 (Py.lower q)) as [[|es]|] eqn:Ed; try done.
    destruct (bool_decide _) eqn:Ef; [|done].
    apply bool_decide_eq_true in Ef. intros [= <-].
    split; [apply startswith_refl|].
    exists (take 2 (Py.lower q)), es, (drop 2 (Py.lower q)).
    by rewrite take_drop.
  - destruct (decide (length q < 2)%nat) as [Hsmall|Hbig].
    + unfold find_object, find_matches, Py.len. rewrite lower_length.
      rewrite (proj2 (Z.eqb_neq _ 40)) by lia.
      rewrite (proj2 (Z.ltb_lt _ 2)) by lia.
      cbn [mbind result_bind]. intros Hm%unique_match_Ok.
      apply find_matches_small. rewrite Hm. by left.
    + rewrite find_object_scan by lia.
      destruct (fs !! take 2 (Py.lower q)) as [[|es]|] eqn:Ed; try done.
      intros Hm%unique_match_Ok.
      assert (Hin : id ∈ map (fun f => take 2 (Py.lower q) ++ f)
                      (filter (fun f => Py.startswith f (drop 2 (Py.lower q))
                                        = true) (listdir es)))
        by (rewrite Hm; by left).
      change (map ?g ?l) with (g <$> l) in Hin.
      apply list_elem_of_fmap in Hin as (f & -> & [Hst Hf]%list_elem_of_filter).
      split.
      * rewrite <- (take_drop 2 (Py.lower q)) at 2.
        by rewrite startswith_app.
      * exists (take 2 (Py.lower q)), es, f. by rewrite <- elem_of_listdir.
Qed.

(** X5: for a query of hexadecimal digits and whatever the store holds, an
    identifier that [find_object] returns starts with the lower-cased query
    and names an entry that exists: it is the name of a bucket directory
    followed by the name of an entry of that bucket. *)
Theorem find_object_sound (q : str) (fs : gmap str node) (id : str) :
  hex_query q = true ->
  find_object q fs = Ok id ->
  Py.startswith id (Py.lower q) = true
  /\ exists d es f,
      id = d ++ f /\ fs !! d = Some (NDir es) /\ is_Some (es !! f).
Proof. intros _. apply find_object_Ok_inv. Qed.

Lemma find_object_Raise_inv (q : str) (fs : gmap str node) (e : exn) :
  find_object q fs = Raise e ->
  e = FileNotFoundError
  \/ exists n, (2 <= n)%nat /\ e = ValueError (AmbiguousPrefix (Py.lower q) n).
Proof.
  unfold find_object.
  destruct (Py.len (Py.lower q) =? 40).
  - destruct (path_exists _ _ _); [done|]. intros [= <-]. by left.
  - destruct (find_matches (Py.lower q) fs) as [ms|e'] eqn:Em.
    + cbn [mbind result_bind].
      intros [->|[-> Hn]]%unique_match_Raise; [by left|]. right. eauto.
    + cbn [mbind result_bind]. intros [= <-]. left.
      unfold find_matches in Em.
      destruct (_ <? _); [done|].
      by destruct (fs !! _) as [[|?]|]; try done; injection Em as <-.
Qed.


Lemma startswith_trans (x a b : str) :
  Py.startswith x a = true -> Py.startswith a b = true ->
  Py.startswith x b = true.
Proof.
  revert x a. induction b as [|c b IH]; intros [|d x] [|e a]; simpl; try done.
  intros [->%N.eqb_eq Hx]%andb_true_iff [->%N.eqb_eq Ha]%andb_true_iff.
  rewrite N.eqb_refl. simpl. by apply (IH x a).
Qed.

Lemma stored_ids_wf (fs : gmap str node) (id : str) :
  store_wf fs -> id ∈ stored_ids fs ->
  Py.lower id = id /\ length id = 40%nat
  /\ exists es,
      fs !! take 2 id = Some (NDir es) /\ is_Some (es !! drop 2 id).
Proof.
  intros Hwf Hin. unfold stored_ids in Hin.
  apply list_elem_of_In, in_flat_map in Hin as ([d n] & Hdn & Hid).
  apply list_elem_of_In, elem_of_map_to_list in Hdn.
  apply list_elem_of_In in Hid.
  pose proof (Hwf d n Hdn) as Hok. simpl in Hok.
  destruct (bucket_ids_wf d n id Hok Hid) as (Hlow & Hlen & Hd & f & ->).
  split; [done|]. split; [done|].
  destruct (node_ok_inv d n Hok) as (_ & _ & es & -> & _).
  simpl in Hid. change (map ?g ?l) with (g <$> l) in Hid.
  apply list_elem_of_fmap in Hid as (f' & Heq & Hf').
  apply app_inv_head in Heq as ->.
  exists es. rewrite take_app_length' by done.
  rewrite drop_app_length' by done. by rewrite <- elem_of_listdir.
Qed.

Lemma stored_ids_intro (fs : gmap str node) (d f : str)
    (es : gmap str entry) :
  fs !! d = Some (NDir es) -> is_Some (es !! f) -> d ++ f ∈ stored_ids fs.
Proof.
  intros Hd Hf. unfold stored_ids.
  apply list_elem_of_In, in_flat_map. exists (d, NDir es). split.
  - by apply list_elem_of_In, elem_of_map_to_list.
  - apply list_elem_of_In. simpl. change (map ?g ?l) with (g <$> l).
    apply list_elem_of_fmap. exists f. by rewrite elem_of_listdir.
Qed.

Lemma length_ge_2 {A} (l : list A) (x y : A) :
  x ∈ l -> y ∈ l -> x <> y -> (2 <= length l)%nat.
Proof.
  destruct l as [|a [|b l]]; simpl; [by intros ?%elem_of_nil| |lia].
  intros ->%list_elem_of_singleton ->%list_elem_of_singleton. done.
Qed.

(** X7: in a store with the on-disk layout, a query that resolves keeps
    resolving to the same identifier when it is made longer: every query
    that extends it and is still a prefix of the identifier returns that
    identifier. *)
Theorem find_object_longer_prefix (q q' : str) (fs : gmap str node)
    (id : str) :
  store_wf fs -> find_object q fs = Ok id ->
  Py.startswith (Py.lower q') (Py.lower q) = true ->
  Py.startswith id (Py.lower q') = true ->
  find_object q' fs = Ok id.
Proof.
  intros Hwf Hq Hext Hid. rewrite find_object_matching in Hq |- * by done.
  apply unique_match_Ok in Hq.
  assert (Hstored : id ∈ stored_ids fs).
  { assert (Hin : id ∈ matching_ids q fs) by (rewrite Hq; by left).
    unfold matching_ids in Hin. by apply list_elem_of_filter in Hin as [_ ?]. }
  destruct (stored_ids_wf fs id Hwf Hstored) as (Hlow & _).
  enough (Hm : matching_ids q' fs = [id]) by by rewrite Hm.
  unfold matching_ids in *.
  rewrite (filter_ext_in _
    (fun x => Py.startswith (Py.lower x) (Py.lower q') = true
              /\ Py.startswith (Py.lower x) (Py.lower q) = true)).
  - rewrite <- list_filter_filter, Hq.
    rewrite filter_cons_True by by rewrite Hlow. done.
  - intros x _. split; [|tauto].
    intros Hx. split; [done|]. by apply (startswith_trans _ (Py.lower q')).
Qed.

(** X8: in a store with the on-disk layout, a query that is a prefix of two
    different stored identifiers raises the [ValueError] "Ambiguous prefix",
    with a count of at least two. *)
Theorem find_object_ambiguous (q : str) (fs : gmap str node) (id1 id2 : str) :
  store_wf fs ->
  id1 ∈ stored_ids fs -> id2 ∈ stored_ids fs -> id1 <> id2 ->
  Py.startswith id1 (Py.lower q) = true ->
  Py.startswith id2 (Py.lower q) = true ->
  exists n,
    (2 <= n)%nat
    /\ find_object q fs = Raise (ValueError (AmbiguousPrefix (Py.lower q) n)).
Proof.
  intros Hwf H1 H2 Hne Hs1 Hs2. rewrite find_object_matching by done.
  destruct (stored_ids_wf fs id1 Hwf H1) as (Hl1 & _).
  destruct (stored_ids_wf fs id2 Hwf H2) as (Hl2 & _).
  assert (Hlen : (2 <= length (matching_ids q fs))%nat).
  { apply (length_ge_2 _ id1 id2); [| |done];
      apply list_elem_of_filter; split; try done; by rewrite ?Hl1, ?Hl2. }
  exists (length (matching_ids q fs)). split; [done|].
  by destruct (matching_ids q fs) as [|? [|? ?]]; simpl in *; try lia.
Qed.

Section ReadThrough.
Context `{Zlib}.

(** X9: in a store with the on-disk layout, the identifier that
    [find_object] returns for a query resolves to itself, and reading
    through the query is the same as reading through that identifier, be
    the result an object or an exception. *)
Theorem read_object_through_prefix (q : str) (fs : gmap str node) (id : str) :
  store_wf fs -> find_object q fs = Ok id ->
  find_object id fs = Ok id /\ read_object q fs = read_object id fs.
Proof.
  intros Hwf Hq.
  destruct (find_object_Ok_inv q fs id Hq) as (_ & d & es & f & -> & Hd & Hf).
  destruct (stored_ids_wf fs (d ++ f) Hwf (stored_ids_intro fs d f es Hd Hf))
    as (Hlow & Hlen & es' & Hd' & Hf').
  assert (Hself : find_object (d ++ f) fs = Ok (d ++ f)).
  { unfold find_object, Py.len. rewrite Hlow, Hlen.
    change (Z.of_nat 40 =? 40) with true. cbv iota.
    change 2 with (Z.of_nat 2). rewrite slice_to_take, slice_from_drop.
    unfold path_exists. rewrite Hd'. by rewrite bool_decide_eq_true_2. }
  split; [done|]. unfold read_object. by rewrite Hq, Hself.
Qed.

End ReadThrough.

(** ** [hash_object]: what a write changes, and when it fails *)

Lemma write_file_other (fs fs' : gmap str node) (d0 f0 d f : str)
    (c : bytes) :
  write_file fs d0 f0 c = Ok fs' -> (d, f) <> (d0, f0) -> f <> [] ->
  path_exists fs' d f = path_exists fs d f
  /\ read_file fs' d f = read_file fs d f.
Proof.
  unfold write_file. intros Hw Hne Hf.
  assert (Hcase : d <> d0 \/ (d = d0 /\ f <> f0)).
  { destruct (decide (d = d0)) as [->|]; [right|by left].
    split; [done|]. intros ->. done. }
  unfold path_exists, read_file.
  destruct (fs !! d0) as [[|es]|] eqn:Ed0; [done| |].
  - assert (Hfs' : fs' = <[d0 := NDir (<[f0 := EFile c]> es)]> fs)
      by (destruct (es !! f0) as [[?|]|]; try done; by injection Hw as <-).
    subst fs'. destruct Hcase as [Hd|[-> Hff]].
    + by rewrite lookup_insert_ne.
    + rewrite lookup_insert_eq, Ed0. rewrite lookup_insert_ne by done.
      by destruct f.
  - injection Hw as <-. destruct Hcase as [Hd|[-> Hff]].
    + by rewrite lookup_insert_ne.
    + rewrite lookup_insert_eq, Ed0.
      rewrite lookup_singleton_ne by done.
      rewrite bool_decide_eq_false_2 by (by intros [? ?]).
      by destruct f.
Qed.

Lemma take_drop_eq {A} (n : nat) (l k : list A) :
  take n l = take n k -> drop n l = drop n k -> l = k.
Proof.
  intros Ht Hd. by rewrite <- (take_drop n l), <- (take_drop n k), Ht, Hd.
Qed.

Lemma object_full_encodable (kind : str) (kb payload : bytes) :
  Py.encode_utf8 kind = Some kb ->
  object_full kind payload
  = Ok (kb ++ x20
           :: ascii_bytes (NilZero.string_of_uint
                             (N.to_uint (N.of_nat (length payload))))
           ++ x00 :: payload).
Proof.
  intros Hk. unfold object_full.
  rewrite encode_utf8_app, Hk.
  rewrite encode_utf8_ascii.
  - unfold Py.str_of_nat. rewrite !map_app, !map_B_lit.
    cbn [or_raise mbind result_bind mret result_ret].
    by rewrite <- !app_assoc.
  - apply is_ascii_app; [repeat constructor|].
    apply is_ascii_app; [apply digits_ascii, str_of_nat_digits|].
    repeat constructor.
Qed.

Lemma object_full_not_encodable (kind : str) (payload : bytes) :
  Py.encode_utf8 kind = None ->
  object_full kind payload = Raise UnicodeEncodeError.
Proof.
  intros Hk. unfold object_full. by rewrite encode_utf8_app, Hk.
Qed.

Lemma write_file_Raise (fs : gmap str node) (d f : str) (c : bytes)
    (e : exn) :
  write_file fs d f c = Raise e ->
  (e = FileExistsError /\ fs !! d = Some NFile)
  \/ (e = IsADirectoryError
      /\ exists es, fs !! d = Some (NDir es) /\ es !! f = Some ESubdir).
Proof.
  unfold write_file.
  destruct (fs !! d) as [[|es]|]; [intros [= <-]; by left| |done].
  destruct (es !! f) as [[?|]|] eqn:Ef; try done.
  intros [= <-]. right. eauto.
Qed.

Section Writing.
Context `{Zlib}.

(** The normal form of [hash_object]: the bytes, then the write. *)
Lemma hash_object_unfold (data : py_data) (kind : str) (fs : gmap str node) :
  hash_object data kind fs
  = (match data with
     | PyStr s => or_raise UnicodeEncodeError (Py.encode_utf8 s)
     | PyBytes b => Ok b
     end ≫= fun data_bytes =>
     object_full kind data_bytes ≫= fun full =>
     write_file fs (take 2 (Sha1.hexdigest full))
       (drop 2 (Sha1.hexdigest full)) (compress full) ≫= fun fs' =>
     mret (Sha1.hexdigest full, fs')).
Proof.
  unfold hash_object. change 2 with (Z.of_nat 2).
  destruct (match data with PyBytes b => _ | PyStr s => _ end); [|done].
  simpl. destruct (object_full kind a); [|done]. simpl.
  by rewrite slice_to_take, slice_from_drop.
Qed.

(** X10: a write leaves every other object as it was: for a full
    identifier (40 hexadecimal digits) other than the one returned,
    [read_object] gives the same result, object or exception, after the
    write as before. *)
Theorem hash_object_frame (data : py_data) (kind : str)
    (fs fs' : gmap str node) (sha id : str) :
  hash_object data kind fs = Ok (sha, fs') ->
  hex_query id = true ->
  length id = 40%nat -> Py.lower id <> sha ->
  read_object id fs' = read_object id fs.
Proof.
  intros Hw _ Hlen Hne.
  destruct (hash_object_pure _ _ _ _ _ Hw) as (full & Hsha & Hpure).
  rewrite Hpure in Hw.
  destruct (write_file fs _ _ _) as [fs1|] eqn:Ew; [|done].
  simpl in Hw. apply Ok_pair_inj in Hw as [_ ->].
  destruct (write_file_other fs fs' _ _ (take 2 (Py.lower id))
              (drop 2 (Py.lower id)) _ Ew) as [Hex Hrd].
  - intros [= Ht Hd]. apply Hne. by apply (take_drop_eq 2).
  - intros Hnil. apply (f_equal length) in Hnil.
    rewrite length_drop, lower_length, Hlen in Hnil. done.
  - unfold read_object, find_object, Py.len.
    rewrite lower_length, Hlen.
    change (Z.of_nat 40 =? 40) with true. cbv iota.
    change 2 with (Z.of_nat 2). rewrite !slice_to_take, !slice_from_drop.
    rewrite Hex.
    destruct (path_exists fs _ _); [|done]. simpl.
    rewrite !slice_to_take, !slice_from_drop. by rewrite Hrd.
Qed.

(** X11: in a store with the on-disk layout, [hash_object] returns for every
    kind and every string or bytes that have a UTF-8 encoding, and the store
    it leaves has the on-disk layout again. *)
Theorem hash_object_keeps_layout (data : py_data) (kind : str)
    (fs : gmap str node) :
  store_wf fs ->
  is_Some (Py.encode_utf8 kind) ->
  (forall s, data = PyStr s -> is_Some (Py.encode_utf8 s)) ->
  exists sha fs', hash_object data kind fs = Ok (sha, fs') /\ store_wf fs'.
Proof.
  intros Hwf [kb Hk] Hdata. rewrite hash_object_unfold.
  assert (Hb : exists b,
             match data with
             | PyStr s => or_raise UnicodeEncodeError (Py.encode_utf8 s)
             | PyBytes b => Ok b
             end = Ok b).
  { destruct data as [b|s]; [eauto|].
    destruct (Hdata s eq_refl) as [b ->]. eauto. }
  destruct Hb as [b ->]. cbn [mbind result_bind].
  rewrite (object_full_encodable kind kb b Hk). cbn [mbind result_bind].
  match goal with |- context [Sha1.hexdigest ?f] => set (full := f) end.
  destruct (write_file_wf fs _ _ (compress full) Hwf
              (hex_name_bucket full) (hex_name_entry full))
    as (fs' & -> & Hwf').
  cbn [mbind result_bind mret result_ret]. eauto.
Qed.

(** X12: the exceptions of [hash_object]: [UnicodeEncodeError] when the
    kind or the string has no UTF-8 encoding, [FileExistsError] when the
    name of the bucket is taken by a file, [IsADirectoryError] when the name
    of the entry is taken by a directory; nothing else. *)
Theorem hash_object_errors (data : py_data) (kind : str)
    (fs : gmap str node) (e : exn) :
  hash_object data kind fs = Raise e ->
  (e = UnicodeEncodeError
   /\ (Py.encode_utf8 kind = None
       \/ exists s, data = PyStr s /\ Py.encode_utf8 s = None))
  \/ (e = FileExistsError
      /\ exists full, fs !! take 2 (Sha1.hexdigest full) = Some NFile)
  \/ (e = IsADirectoryError
      /\ exists full es,
          fs !! take 2 (Sha1.hexdigest full) = Some (NDir es)
          /\ es !! drop 2 (Sha1.hexdigest full) = Some ESubdir).
Proof.
  rewrite hash_object_unfold.
  destruct data as [b|s].
  - simpl. destruct (Py.encode_utf8 kind) as [kb|] eqn:Hk.
    + rewrite (object_full_encodable kind kb b Hk). simpl.
      destruct (write_file _ _ _ _) as [fs'|e'] eqn:Ew; [done|].
      simpl. intros [= <-].
      apply write_file_Raise in Ew as [[-> ?]|(-> & es & ? & ?)];
        right; [left|right]; eauto 10.
    + rewrite object_full_not_encodable by done. intros [= <-].
      left. eauto.
  - destruct (Py.encode_utf8 s) as [b|] eqn:Hs;
      [|intros [= <-]; left; eauto].
    simpl. destruct (Py.encode_utf8 kind) as [kb|] eqn:Hk.
    + rewrite (object_full_encodable kind kb b Hk). simpl.
      destruct (write_file _ _ _ _) as [fs'|e'] eqn:Ew; [done|].
      simpl. intros [= <-].
      apply write_file_Raise in Ew as [[-> ?]|(-> & es & ? & ?)];
        right; [left|right]; eauto 10.
    + rewrite object_full_not_encodable by done. intros [= <-].
      left. eauto.
Qed.

Lemma read_object_content (q id : str) (fs : gmap str node)
    (es : gmap str entry) (full : bytes) :
  find_object q fs = Ok id -> length id = 40%nat ->
  fs !! take 2 id = Some (NDir es) ->
  es !! drop 2 id = Some (EFile (compress full)) ->
  read_object q fs = parse_object full.
Proof.
  intros Hq Hlen Hd Hf. unfold read_object. rewrite Hq. simpl.
  change 2 with (Z.of_nat 2). rewrite slice_to_take, slice_from_drop.
  rewrite (read_file_stored fs _ _ es (compress full)); [|done|done|].
  - simpl. by rewrite decompress_compress.
  - intros Hnil. apply (f_equal length) in Hnil.
    rewrite length_drop, Hlen in Hnil. done.
Qed.

(** X13: the round trip of any kind.  For a kind that has a UTF-8 encoding
    and no null character, [read_object] on the identifier that
    [hash_object] returned gives the payload back, with the kind up to its
    first space: the whole kind when it has no space. *)
Theorem hash_object_read_object_kind (a rest : str) (payload : bytes)
    (fs fs' : gmap str node) (sha : str) :
  is_Some (Py.encode_utf8 (a ++ rest)) -> 0%N ∉ a ++ rest -> 32%N ∉ a ->
  rest = [] \/ (exists rest', rest = 32%N :: rest') ->
  hash_object (PyBytes payload) (a ++ rest) fs = Ok (sha, fs') ->
  read_object sha fs' = Ok (a, payload).
Proof.
  intros [kb Hk] H0 H32 Hrest Hw.
  rewrite hash_object_unfold in Hw. simpl in Hw.
  rewrite (object_full_encodable _ kb payload Hk) in Hw. simpl in Hw.
  set (digits := ascii_bytes _) in Hw.
  set (full := kb ++ x20 :: digits ++ x00 :: payload) in Hw.
  destruct (write_file fs _ _ _) as [fs1|] eqn:Ew; [|done].
  simpl in Hw. apply Ok_pair_inj in Hw as [<- <-].
  destruct (write_file_stored _ _ _ _ _ Ew) as (es & Hd & Hf).
  rewrite (read_object_content _ (Sha1.hexdigest full) _ es full);
    [|by apply (find_object_full _ _ es);
        [apply hexdigest_length|apply hexdigest_lower| |eexists]
     |apply hexdigest_length|done|done].
  rewrite encode_utf8_app in Hk.
  destruct (Py.encode_utf8 a) as [ab|] eqn:Ha; [|done].
  destruct (Py.encode_utf8 rest) as [rb|] eqn:Hr; [|done].
  injection Hk as <-.
  assert (Hab0 : x00 ∉ ab).
  { intros Hin. apply (encode_utf8_low a ab x00 Ha) in Hin; [|done].
    apply H0, elem_of_app. by left. }
  assert (Hab32 : x20 ∉ ab).
  { intros Hin. by apply (encode_utf8_low a ab x20 Ha) in Hin. }
  assert (Hrb0 : x00 ∉ rb).
  { intros Hin. apply (encode_utf8_low rest rb x00 Hr) in Hin; [|done].
    apply H0, elem_of_app. by right. }
  assert (Hdig : x00 ∉ digits).
  { unfold digits. rewrite <- map_B_lit. change x00 with (Py.B 0).
    pose proof (str_of_nat_digits (N.of_nat (length payload))) as Hd'.
    apply notin_map_B; [done | by apply digits_ascii |].
    by apply digits_notin. }
  assert (Hshape : exists size,
             full = ab ++ x20 :: size ++ x00 :: payload /\ x00 ∉ size).
  { unfold full. destruct Hrest as [->|(rest' & ->)].
    - injection Hr as <-. exists digits. by rewrite app_nil_r.
    - simpl in Hr.
      destruct (Py.encode_utf8 rest') as [rb'|] eqn:Hr'; [|done].
      injection Hr as <-.
      exists (rb' ++ x20 :: digits). split.
      + rewrite <- !app_assoc. reflexivity.
      + rewrite elem_of_app, elem_of_cons.
        intros [?|[?|?]]; [|done|done].
        apply Hrb0. by right. }
  destruct Hshape as (size & -> & Hsize).
  rewrite parse_object_header by done.
  by rewrite (decode_encode_utf8 a ab Ha).
Qed.

End Writing.

(** ** [read_tree]: errors, and payloads without a null byte *)

(** X14: after any run of whole entries (whose modes and names parse),
    [read_tree] raises at the first entry that does not parse, once the
    entries before it have been yielded: [UnicodeDecodeError] when its name
    is not UTF-8, and otherwise the [ValueError] of [int] when its mode is
    not an octal literal. *)
Theorem read_tree_bad_entry (ents : list raw_entry) (es : list tree_entry)
    (m n rest : bytes) (fuel : nat) :
  Forall2 (fun e v => entry_delimited e /\ length e.2 = 20%nat
                      /\ entry_value e = Some v) ents es ->
  x20 ∉ m -> x00 ∉ n -> (length ents < fuel)%nat ->
  let data := concat (map entry_bytes ents) ++ m ++ x20 :: n ++ x00 :: rest in
  (Py.decode_utf8 n = None ->
   read_tree fuel data = (es, GenRaise UnicodeDecodeError))
  /\ (is_Some (Py.decode_utf8 n) -> Py.int_base8 m = None ->
      read_tree fuel data
      = (es, GenRaise (ValueError (InvalidLiteralForInt m)))).
Proof.
  intros Hents Hm Hn Hfuel data.
  assert (Hrun : read_tree fuel data
                 = let '(es', e) :=
                     read_tree_loop (S (fuel - length ents - 1)) data
                       (Py.len (concat (map entry_bytes ents))) in
                   (es ++ es', e)).
  { unfold read_tree.
    replace fuel with (length ents + S (fuel - length ents - 1))%nat at 1
      by lia.
    pose proof (read_tree_loop_entries ents es Hents []
                  (m ++ x20 :: n ++ x00 :: rest)) as Hloop.
    cbn [app] in Hloop. rewrite Hloop.
    change (Py.len []) with 0. by rewrite Z.add_0_l. }
  rewrite Hrun. unfold data. rewrite read_tree_loop_entry by done.
  split.
  - intros ->. by rewrite app_nil_r.
  - intros [name ->] ->. by rewrite app_nil_r.
Qed.

Lemma find_no_byte (b : byte) (l : bytes) (s : Z) :
  b ∉ l -> Py.find b l s = -1.
Proof.
  intros Hb. unfold Py.find. rewrite index_of_notin; [done|].
  intros Hin. apply Hb. by eapply subseteq_drop.
Qed.

Lemma find_some_byte (b : byte) (l : bytes) (s : nat) :
  b ∈ drop s l -> Py.find b l (Z.of_nat s) <> -1.
Proof.
  intros Hb.
  assert (Hs : (s <= length l)%nat).
  { destruct (decide (s <= length l)%nat); [done|].
    rewrite drop_ge in Hb by lia. by apply elem_of_nil in Hb. }
  rewrite find_from by done.
  destruct (Py.index_of b (drop s l)) eqn:E; [lia|].
  by apply index_of_None in E.
Qed.

Lemma read_tree_loop_20_no_null (fuel : nat) (data : bytes) :
  x00 ∉ data -> x20 ∈ drop 20 data ->
  (read_tree_loop fuel data 20).2 <> StopIteration.
Proof.
  intros H0 H20. induction fuel as [|fuel IH]; [done|].
  cbn [read_tree_loop].
  assert (Hlen : (20 <? Py.len data) = true).
  { apply Z.ltb_lt. unfold Py.len.
    destruct (decide (20 < length data)%nat); [lia|].
    rewrite drop_ge in H20 by lia. by apply elem_of_nil in H20. }
  rewrite Hlen.
  pose proof (find_some_byte x20 data 20 H20) as Hj.
  change (Z.of_nat 20) with 20 in Hj.
  rewrite (proj2 (Z.eqb_neq _ _) Hj).
  rewrite (find_no_byte x00 data _ H0).
  destruct (Py.decode_utf8 _); [|done].
  destruct (Py.int_base8 _); [|done].
  change (-1 + 21) with 20.
  by destruct (read_tree_loop fuel data 20).
Qed.

(** X15: on a payload that has no null byte but has a space at position 20
    or later, the generator of [read_tree] never stops: the cursor goes back
    to position 20 at every turn, so the iteration ends with an exception
    or does not end at all. *)
Theorem read_tree_no_null (data : bytes) (fuel : nat) :
  x00 ∉ data -> x20 ∈ drop 20 data ->
  (read_tree fuel data).2 <> StopIteration.
Proof.
  intros H0 H20. unfold read_tree.
  destruct fuel as [|fuel]; [done|]. cbn [read_tree_loop].
  assert (Hlen : (0 <? Py.len data) = true).
  { apply Z.ltb_lt. unfold Py.len. destruct data; [|simpl; lia].
    by apply elem_of_nil in H20. }
  rewrite Hlen.
  assert (Hj : Py.find x20 data 0 <> -1).
  { apply (find_some_byte x20 data 0). rewrite drop_0.
    by eapply subseteq_drop. }
  rewrite (proj2 (Z.eqb_neq _ _) Hj).
  rewrite (find_no_byte x00 data _ H0).
  destruct (Py.decode_utf8 _); [|done].
  destruct (Py.int_base8 _); [|done].
  change (-1 + 21) with 20.
  pose proof (read_tree_loop_20_no_null fuel data H0 H20).
  by destruct (read_tree_loop fuel data 20).
Qed.

(** X16: every tuple that [read_tree] yields carries an identifier of
    lower-case hexadecimal digits, two for each of at most 20 bytes, and a
    name that is the decoding of UTF-8 bytes, whatever the payload is. *)
Theorem read_tree_entries_sound (fuel : nat) (data : bytes) :
  Forall entry_sound (read_tree fuel data).1.
Proof. apply read_tree_loop_sound. Qed.

(** ** The errors of [read_object] and of [cat_file] *)

Lemma read_file_Raise (fs : gmap str node) (d f : str) (e : exn) :
  read_file fs d f = Raise e ->
  e = FileNotFoundError \/ e = IsADirectoryError \/ e = NotADirectoryError.
Proof.
  unfold read_file.
  destruct (fs !! d) as [[|es]|]; [intros [= <-]; tauto| |intros [= <-]; tauto].
  destruct f; [intros [= <-]; tauto|].
  destruct (es !! _) as [[?|]|]; [done|intros [= <-]; tauto|intros [= <-]; tauto].
Qed.

Lemma parse_object_Raise (dec : bytes) (e : exn) :
  parse_object dec = Raise e ->
  e = ValueError NotEnoughValuesToUnpack \/ e = UnicodeDecodeError.
Proof.
  unfold parse_object.
  destruct (Py.split1 x20 _) as [|tb [|size [|? ?]]];
    try (intros [= <-]; tauto).
  destruct (Py.decode_utf8 tb); [done|]. intros [= <-]. tauto.
Qed.

Lemma read_tree_loop_Raise (fuel : nat) (data : bytes) (i : Z) (e : exn) :
  (read_tree_loop fuel data i).2 = GenRaise e ->
  e = UnicodeDecodeError \/ exists m, e = ValueError (InvalidLiteralForInt m).
Proof.
  revert i. induction fuel as [|fuel IH]; intros i; [done|].
  cbn [read_tree_loop].
  destruct (i <? Py.len data); [|done].
  destruct (_ =? -1); [done|].
  destruct (Py.decode_utf8 _); [|intros [= <-]; tauto].
  destruct (Py.int_base8 _); [|intros [= <-]; eauto].
  specialize (IH (Py.find x00 data (Py.find x20 data i + 1) + 21)).
  by destruct (read_tree_loop fuel data _).
Qed.

Section Errors.
Context `{Zlib}.

Lemma read_object_Raise (q : str) (fs : gmap str node) (e : exn) :
  read_object q fs = Raise e -> read_object_error e.
Proof.
  unfold read_object.
  destruct (find_object q fs) as [full|e'] eqn:Ef.
  - simpl. destruct (read_file fs _ _) as [raw|e'] eqn:Er.
    + simpl. destruct (decompress raw) as [dec|]; [|by intros [= <-]].
      simpl. by intros [->| ->]%parse_object_Raise.
    + simpl. intros [= <-].
      by apply read_file_Raise in Er as [->|[->| ->]].
  - simpl. intros [= <-].
    by apply find_object_Raise_inv in Ef as [->|(n & Hn & ->)].
Qed.


Lemma cat_file_Raised (fuel : nat) (mode sha : str) (fs : gmap str node)
    (e : exn) :
  (cat_file fuel mode sha fs).2 = Raised e ->
  read_object_error e
  \/ (exists t, e = ValueError (ExpectedObjectType mode t) /\ mode ∈ kinds)
  \/ (exists t, e = AssertionError t)
  \/ (exists m, e = ValueError (InvalidLiteralForInt m))
  \/ (e = ValueError (UnexpectedMode mode) /\ mode ∉ known_modes)
  \/ e = OverflowError.
Proof.
  unfold cat_file.
  destruct (read_object sha fs) as [[t data]|e'] eqn:Er;
    [|simpl; intros [= <-]; left; by apply read_object_Raise in Er].
  destruct (is_in mode ["commit"; "tree"; "blob"]%string) eqn:M1.
  { destruct (bool_decide (t <> mode)); [|done]. simpl. intros [= <-].
    right. left. exists t. split; [done|].
    apply is_in_true in M1. revert M1. unfold kinds. simpl.
    rewrite !elem_of_cons. tauto. }
  destruct (is_in mode ["-s"; "--size"; "size"]%string) eqn:M2.
  { by rewrite print_ascii by apply digits_ascii, str_of_nat_digits. }
  destruct (is_in mode ["-t"; "--type"; "type"]%string) eqn:M3.
  { destruct (read_object_type _ _ _ _ Er) as (tb & Htb).
    apply encode_decode_utf8 in Htb. by rewrite (print_encodable _ tb). }
  destruct (is_in mode ["-p"; "--pretty"; "pretty"]%string) eqn:M4.
  { destruct (is_in t ["commit"; "blob"]%string); [done|].
    destruct (bool_decide (t = Py.lit "tree"));
      [|simpl; intros [= <-]; eauto 10].
    pose proof (read_tree_loop_sound fuel data 0) as Hsound.
    pose proof (read_tree_loop_Raise fuel data 0) as Hraise.
    unfold read_tree. destruct (read_tree_loop fuel data 0) as [es ge].
    cbn [fst snd] in *. intros Hp.
    apply print_tree_Raised in Hp as [->| ->]; [by do 5 right| |done].
    destruct (Hraise e eq_refl) as [->|(m & ->)]; [by left|eauto 10]. }
  simpl. intros [= <-]. do 4 right. left. split; [done|].
  apply is_in_false in M1, M2, M3, M4.
  unfold known_modes. simpl in *. rewrite !elem_of_cons in *. tauto.
Qed.


(** X19: every mode that the command line passes to [cat_file] is a known
    one, so a call from the command line never raises the [ValueError]
    "unexpected mode"; the command line stops without a call only when no
    flag is set. *)
Theorem cli_mode_known (args : cat_file_args) :
  match cli_mode args with
  | Some mode =>
      mode ∈ known_modes
      /\ forall fuel sha fs m,
          (cat_file fuel mode sha fs).2 <> Raised (ValueError (UnexpectedMode m))
  | None =>
      args = CatFileArgs false false false false false false
  end.
Proof.
  assert (Hknown : forall mode fuel sha fs m,
             mode ∈ known_modes ->
             (cat_file fuel mode sha fs).2
             <> Raised (ValueError (UnexpectedMode m))).
  { intros mode fuel sha fs m Hm He.
    destruct (cat_file_Raised fuel mode sha fs _ He)
      as [Hr|[(t & Hr & _)|[(t & Hr)|[(m' & Hr)|[[_ Hno]|Hr]]]]]; done. }
  destruct args as [[] [] [] [] [] []]; cbn;
    try done; (split; [compute_done | intros; apply Hknown; compute_done]).
Qed.

End Errors.

(** ** [file_io]: one file at a time *)

Lemma component_nonempty (c : str) : component c = true -> c <> [].
Proof. intros Hc ->. by vm_compute in Hc. Qed.

(** X20: for a bucket and a file whose names are path components, a file
    written with [write_file] reads back with [read_file], every other file
    (named by components) reads as before, and writing the same bytes again
    changes nothing. *)
Theorem write_file_read_file (fs fs' : gmap str node) (d f : str)
    (data : bytes) :
  component d = true -> component f = true ->
  write_file fs d f data = Ok fs' ->
  read_file fs' d f = Ok data
  /\ (forall d' f',
         component d' = true -> component f' = true ->
         (d', f') <> (d, f) ->
         read_file fs' d' f' = read_file fs d' f')
  /\ write_file fs' d f data = Ok fs'.
Proof.
  intros _ Hf%component_nonempty Hw. split; [|split].
  - destruct (write_file_stored _ _ _ _ _ Hw) as (es & Hd & He).
    by apply (read_file_stored _ _ _ es).
  - intros d' f' _ Hf'%component_nonempty Hne.
    by destruct (write_file_other _ _ _ _ d' f' _ Hw Hne Hf').
  - by apply (write_file_again fs).
Qed.

(** ** [_get_git_dir] *)

Lemma startswith_prefix (p x : str) : Py.startswith (p ++ x) p = true.
Proof.
  induction p as [|c p IH]; [by destruct x|]. simpl.
  by rewrite N.eqb_refl.
Qed.

Lemma endswith_app (a s : str) : endswith (a ++ s) s = true.
Proof. unfold endswith. rewrite rev_app_distr. apply startswith_prefix. Qed.

(** X21: the path that [_get_git_dir] returns always ends in [.git], and
    [_get_git_dir] returns such a path unchanged: applied to its own result
    it gives the same path. *)
Theorem get_git_dir_ends_in_git (cwd : str) (repo : option str) :
  endswith (_get_git_dir cwd repo) (Py.lit ".git") = true
  /\ _get_git_dir cwd (Some (_get_git_dir cwd repo)) = _get_git_dir cwd repo.
Proof.
  assert (Hjoin : forall a, endswith (path_join a (Py.lit ".git"))
                              (Py.lit ".git") = true).
  { intros a. unfold path_join.
    change (Py.startswith (Py.lit ".git") (Py.lit "/")) with false.
    cbv iota. destruct (_ || _); [apply endswith_app|].
    rewrite app_assoc. apply endswith_app. }
  assert (Hends : endswith (_get_git_dir cwd repo) (Py.lit ".git") = true).
  { unfold _get_git_dir. destruct repo as [repo|]; [|apply Hjoin].
    destruct (endswith repo (Py.lit "/" ++ Py.lit ".git")
              || endswith repo (Py.lit ".git")) eqn:E; [|apply Hjoin].
    apply orb_true_iff in E as [E|E]; [|done].
    unfold endswith in *. apply (startswith_trans _ _ _ E).
    by vm_compute. }
  split; [done|].
  unfold _get_git_dir at 1. rewrite Hends. by rewrite orb_true_r.
Qed.

(** ** The declared size, and content addressing *)

Lemma write_file_lookup (fs fs' : gmap str node) (d0 f0 d f : str)
    (c c' : bytes) (es' : gmap str entry) :
  write_file fs d0 f0 c = Ok fs' ->
  fs' !! d = Some (NDir es') -> es' !! f = Some (EFile c') ->
  (d = d0 /\ f = f0 /\ c' = c)
  \/ exists es, fs !! d = Some (NDir es) /\ es !! f = Some (EFile c').
Proof.
  unfold write_file. intros Hw Hd Hf.
  destruct (fs !! d0) as [[|es]|] eqn:Ed0; [done| |].
  - assert (Hfs' : fs' = <[d0 := NDir (<[f0 := EFile c]> es)]> fs)
      by (destruct (es !! f0) as [[?|]|]; try done; by injection Hw as <-).
    subst fs'. destruct (decide (d = d0)) as [->|Hne].
    + rewrite lookup_insert_eq in Hd. injection Hd as <-.
      destruct (decide (f = f0)) as [->|Hnf].
      * rewrite lookup_insert_eq in Hf. injection Hf as <-. by left.
      * rewrite lookup_insert_ne in Hf by done. right. eauto.
    + rewrite lookup_insert_ne in Hd by done. right. eauto.
  - injection Hw as <-. destruct (decide (d = d0)) as [->|Hne].
    + rewrite lookup_insert_eq in Hd. injection Hd as <-.
      apply lookup_singleton_Some in Hf as [<- [= <-]]. by left.
    + rewrite lookup_insert_ne in Hd by done. right. eauto.
Qed.

Section Content.
Context `{Zlib}.

(** X22: [read_object] does not compare the size that the header declares
    with the payload: a stored frame [kind, space, token, null byte,
    payload] reads as [(kind, payload)] whatever the token is. *)
Theorem read_object_ignores_size (q id kind : str) (size payload : bytes)
    (fs : gmap str node) (es : gmap str entry) :
  find_object q fs = Ok id -> length id = 40%nat ->
  fs !! take 2 id = Some (NDir es) ->
  es !! drop 2 id
  = Some (EFile (compress (map Py.B kind ++ x20 :: size ++ x00 :: payload))) ->
  is_ascii kind -> 0%N ∉ kind -> 32%N ∉ kind -> x00 ∉ size ->
  read_object q fs = Ok (kind, payload).
Proof.
  intros Hq Hlen Hd Hf Hk H0 H32 Hsize.
  rewrite (read_object_content q id fs es _ Hq Hlen Hd Hf).
  rewrite parse_object_header; [by rewrite decode_utf8_ascii| | |done].
  - change x00 with (Py.B 0). by apply notin_map_B.
  - change x20 with (Py.B 32). by apply notin_map_B.
Qed.

(** X23: [hash_object] keeps the store content-addressed: when every file
    of the store holds a compressed frame whose digest is its bucket name
    followed by its own name, the same holds after a write. *)
Theorem hash_object_content_addressed (data : py_data) (kind : str)
    (fs fs' : gmap str node) (sha : str) :
  content_addressed fs ->
  hash_object data kind fs = Ok (sha, fs') ->
  content_addressed fs'.
Proof.
  intros Hca Hw.
  destruct (hash_object_pure _ _ _ _ _ Hw) as (full & Hsha & Hpure).
  rewrite Hpure in Hw.
  destruct (write_file fs _ _ _) as [fs1|] eqn:Ew; [|done].
  simpl in Hw. apply Ok_pair_inj in Hw as [_ ->].
  intros d es f c Hd Hf.
  destruct (write_file_lookup _ _ _ _ _ _ _ _ _ Ew Hd Hf)
    as [(-> & -> & ->)|(es0 & Hd0 & Hf0)].
  - exists full. split; [apply decompress_compress|].
    by rewrite take_drop.
  - by apply (Hca d es0 f c).
Qed.

End Content.

(** * Further checks on concrete data *)

Example read_object_a_tree :
  read_object a_tree_id tree_store = Ok (Py.lit "tree", a_tree).
Proof. vm_compute. reflexivity. Qed.

Example find_object_two_prefix :
  find_object (Py.lit "3b1") two_store = Ok hello_id.
Proof. vm_compute. reflexivity. Qed.



Example hash_object_blocked :
  hash_object (PyBytes hello) blob blocked_store = Raise FileExistsError.
Proof. vm_compute. reflexivity. Qed.

Example hash_object_tag_v1 :
  hash_object (PyBytes hello) (Py.lit "tag" ++ Py.lit " v1") ∅
  = Ok (tag_v1_id, tag_v1_store).
Proof. vm_compute. reflexivity. Qed.

Example find_object_wrong_size :
  find_object (Py.lit "d040") wrong_size_store = Ok wrong_size_id.
Proof. vm_compute. reflexivity. Qed.


(** A tree whose second entry has the mode [-1]: the line of the first
    entry is printed, then [stat.S_ISDIR] raises [OverflowError]. *)
Example cat_file_tree_overflow :
  cat_file 3 (Py.lit "-p") neg_tree_id neg_tree_store
  = (ascii_bytes "100644 blob 3b18e512dba79e4c8300dd08aeb37f8e728b8dad"
       ++ [Py.byte_of_Z 9] ++ ascii_bytes "a.txt" ++ [Py.byte_of_Z 10],
     Raised OverflowError).
Proof. vm_compute. reflexivity. Qed.

Lemma cat_file_size_witness :
  cat_file 0 (Py.lit "size") hello_id hello_store
  = (ascii_bytes (NilZero.string_of_uint
                    (N.to_uint (N.of_nat (length hello)))) ++ [x0a],
     Returned).
Proof.
  apply (cat_file_size 0 _ _ blob hello); [apply read_object_hello|].
  compute_done.
Defined.

Lemma cat_file_type_witness :
  exists tb,
    Py.encode_utf8 blob = Some tb
    /\ cat_file 0 (Py.lit "-t") hello_id hello_store = (tb ++ [x0a], Returned).
Proof.
  apply (cat_file_type 0 _ _ blob hello); [apply read_object_hello|].
  compute_done.
Defined.

Lemma cat_file_pretty_raw_witness :
  cat_file 0 (Py.lit "--pretty") hello_id hello_store = (hello, Returned).
Proof.
  destruct (cat_file_pretty_raw 0 (Py.lit "--pretty") hello_id blob hello
              hello_store read_object_hello ltac:(compute_done)) as [Hraw _].
  apply Hraw. compute_done.
Defined.

Lemma cat_file_pretty_tree_witness :
  exists lines,
    Forall2 (fun entry line => tree_line entry ≫= print = Ok line)
      (read_tree 2 a_tree).1 lines
    /\ cat_file 2 (Py.lit "-p") a_tree_id tree_store
       = (concat lines, outcome_of (read_tree 2 a_tree).2).
Proof.
  destruct (cat_file_pretty_tree 2 (Py.lit "-p") a_tree_id a_tree tree_store
              read_object_a_tree ltac:(compute_done)) as [Hfits _].
  apply Hfits. compute_done.
Defined.

Lemma find_object_sound_witness :
  Py.startswith hello_id (Py.lower (Py.lit "3b1")) = true
  /\ exists d es f,
      hello_id = d ++ f /\ two_store !! d = Some (NDir es)
      /\ is_Some (es !! f).
Proof.
  apply (find_object_sound (Py.lit "3b1") two_store hello_id eq_refl
           find_object_two_prefix).
Defined.


Lemma find_object_longer_prefix_witness :
  find_object (Py.lit "3B18e5") two_store = Ok hello_id.
Proof.
  apply (find_object_longer_prefix (Py.lit "3b1"));
    [apply store_wf_two | apply find_object_two_prefix | |];
    vm_compute; reflexivity.
Defined.

Lemma find_object_ambiguous_witness :
  exists n,
    (2 <= n)%nat
    /\ find_object (Py.lit "3b") two_store
       = Raise (ValueError (AmbiguousPrefix (Py.lower (Py.lit "3b")) n)).
Proof.
  apply (find_object_ambiguous _ _ hello_id v84_id);
    [apply store_wf_two | compute_done | compute_done | compute_done | |];
    vm_compute; reflexivity.
Defined.

Lemma read_object_through_prefix_witness :
  find_object hello_id two_store = Ok hello_id
  /\ read_object (Py.lit "3b1") two_store = read_object hello_id two_store.
Proof.
  apply read_object_through_prefix;
    [apply store_wf_two | apply find_object_two_prefix].
Defined.

Lemma hash_object_frame_witness :
  read_object hello_id two_store = read_object hello_id hello_store.
Proof.
  apply (hash_object_frame (PyBytes v84) blob hello_store two_store v84_id);
    [apply hash_object_v84 | reflexivity | reflexivity | compute_done].
Defined.

Lemma hash_object_keeps_layout_witness :
  exists sha fs',
    hash_object (PyBytes hello) blob ∅ = Ok (sha, fs') /\ store_wf fs'.
Proof.
  apply hash_object_keeps_layout; [apply store_wf_empty | |done].
  exists (ascii_bytes "blob"). vm_compute. reflexivity.
Defined.

Lemma hash_object_errors_witness :
  (FileExistsError = UnicodeEncodeError
   /\ (Py.encode_utf8 blob = None
       \/ exists s, PyBytes hello = PyStr s /\ Py.encode_utf8 s = None))
  \/ (FileExistsError = FileExistsError
      /\ exists full,
          blocked_store !! take 2 (Sha1.hexdigest full) = Some NFile)
  \/ (FileExistsError = IsADirectoryError
      /\ exists full es,
          blocked_store !! take 2 (Sha1.hexdigest full) = Some (NDir es)
          /\ es !! drop 2 (Sha1.hexdigest full) = Some ESubdir).
Proof. apply (hash_object_errors _ _ _ _ hash_object_blocked). Defined.

Lemma hash_object_read_object_kind_witness :
  read_object tag_v1_id tag_v1_store = Ok (Py.lit "tag", hello).
Proof.
  apply (hash_object_read_object_kind (Py.lit "tag") (Py.lit " v1") hello ∅);
    [exists (ascii_bytes "tag v1"); vm_compute; reflexivity
    | compute_done | compute_done
    | right; by exists (Py.lit "v1")
    | apply hash_object_tag_v1].
Defined.

Lemma read_tree_bad_entry_witness :
  read_tree 2 (concat (map entry_bytes [file_entry])
                 ++ ascii_bytes "9" ++ x20 :: ascii_bytes "b" ++ x00 :: [])
  = ([(33188, Py.lit "a.txt", hello_id)],
     GenRaise (ValueError (InvalidLiteralForInt (ascii_bytes "9")))).
Proof.
  assert (Hents : Forall2
            (fun e v => entry_delimited e /\ length e.2 = 20%nat
                        /\ entry_value e = Some v)
            [file_entry] [(33188, Py.lit "a.txt", hello_id)]).
  { constructor; [|constructor].
    split; [split; compute_done | split; [reflexivity|]].
    vm_compute. reflexivity. }
  destruct (read_tree_bad_entry _ _ (ascii_bytes "9") (ascii_bytes "b") [] 2
              Hents ltac:(compute_done) ltac:(compute_done)
              ltac:(simpl; lia)) as [_ Hmode].
  apply Hmode; [by exists (Py.lit "b") | by vm_compute].
Defined.

Lemma read_tree_no_null_witness :
  (read_tree 5 loop_tree).2 <> StopIteration.
Proof. apply read_tree_no_null; compute_done. Defined.



Lemma write_file_read_file_witness :
  read_file hello_store (Py.lit "3b") (drop 2 hello_id)
  = Ok (tag_compress (framed blob hello)).
Proof.
  destruct (write_file_read_file ∅ hello_store (Py.lit "3b") (drop 2 hello_id)
              (tag_compress (framed blob hello)))
    as (Hread & _ & _);
    [reflexivity | reflexivity | vm_compute; reflexivity | exact Hread].
Defined.

Lemma read_object_ignores_size_witness :
  read_object (Py.lit "d040") wrong_size_store = Ok (blob, hello).
Proof.
  apply (read_object_ignores_size _ wrong_size_id blob (ascii_bytes "999")
           hello _
           {[ drop 2 wrong_size_id :=
                EFile (tag_compress
                         (ascii_bytes "blob 999" ++ [x00] ++ hello)) ]});
    [apply find_object_wrong_size | reflexivity
    | vm_compute; reflexivity | vm_compute; reflexivity
    | repeat constructor | compute_done | compute_done | compute_done].
Defined.

Lemma content_addressed_empty : content_addressed (∅ : gmap str node).
Proof. intros d es f c Hd. by rewrite lookup_empty in Hd. Qed.

Lemma hash_object_content_addressed_witness : content_addressed hello_store.
Proof.
  apply (hash_object_content_addressed (PyBytes hello) blob ∅ _ hello_id);
    [apply content_addressed_empty | apply hash_object_hello].
Defined.

(** * The repository layout: [init] *)

(** ** The tree file system *)

Lemma tlookup_app t p q :
  tlookup t (p ++ q) = tlookup t p ≫= fun t' => tlookup t' q.
Proof.
  revert t. induction p as [|c p IH]; intros t; [done|].
  cbn [app tlookup]. destruct t as [b|m]; [done|].
  destruct (m !! c) as [t'|]; cbn [mbind option_bind]; [apply IH | done].
Qed.

Lemma tisdir_app_inv t p q : tisdir t (p ++ q) = true -> tisdir t p = true.
Proof.
  unfold tisdir. rewrite tlookup_app.
  destruct (tlookup t p) as [[b|m]|]; cbn [mbind option_bind]; try done.
  by destruct q.
Qed.

Lemma tisdir_prefix t p q :
  q `prefix_of` p -> tisdir t p = true -> tisdir t q = true.
Proof. intros [k ->]. apply tisdir_app_inv. Qed.

Lemma texists_app_inv t p q : texists t (p ++ q) = true -> texists t p = true.
Proof.
  unfold texists. rewrite tlookup_app.
  by destruct (tlookup t p) as [?|].
Qed.

Lemma tisdir_texists t p : tisdir t p = true -> texists t p = true.
Proof. unfold tisdir, texists. by destruct (tlookup t p) as [[|]|]. Qed.

Lemma tfile_tisdir t p b : tfile t p = Some b -> tisdir t p = false.
Proof. unfold tisdir, tfile. by destruct (tlookup t p) as [[|]|]. Qed.

Lemma tlookup_cases t p :
  tisdir t p = true \/ (exists b, tfile t p = Some b) \/ tlookup t p = None.
Proof.
  unfold tisdir, tfile. destruct (tlookup t p) as [[b|m]|]; eauto.
Qed.

Lemma tfile_parent t p c b : tfile t (p ++ [c]) = Some b -> tisdir t p = true.
Proof.
  unfold tisdir, tfile. rewrite tlookup_app.
  by destruct (tlookup t p) as [[|]|].
Qed.

Lemma mkdir_cons_ne c p m :
  p <> [] ->
  mkdir (c :: p) (TDir m) =
    match m !! c with
    | Some t' =>
        match mkdir p t' with
        | Ok t'' => Ok (TDir (<[c := t'']> m))
        | Raise e => Raise e
        end
    | None => Raise FileNotFoundError
    end.
Proof. by destruct p. Qed.

Lemma open_write_cons_ne c p content m :
  p <> [] ->
  open_write (c :: p) content (TDir m) =
    match m !! c with
    | Some t' =>
        match open_write p content t' with
        | Ok t'' => Ok (TDir (<[c := t'']> m))
        | Raise e => Raise e
        end
    | None => Raise FileNotFoundError
    end.
Proof. by destruct p. Qed.

Lemma mkdir_Ok_tisdir p :
  forall t t', mkdir p t = Ok t' ->
    forall q, tisdir t' q = tisdir t q || bool_decide (q = p).
Proof.
  induction p as [|c p IH]; intros t t' H q; [done|].
  destruct t as [b|m]; [done|].
  destruct (decide (p = [])) as [->|Hp].
  - cbn [mkdir] in H. destruct (m !! c) eqn:Hc; [done|]. injection H as <-.
    destruct q as [|d q]; [done|].
    unfold tisdir; cbn [tlookup]. destruct (decide (d = c)) as [->|Hne].
    + rewrite lookup_insert_eq, Hc. cbn [mbind option_bind].
      destruct q as [|d q]; cbn [tlookup].
      * by rewrite bool_decide_eq_true_2.
      * rewrite lookup_empty. cbn [mbind option_bind].
        by rewrite bool_decide_eq_false_2.
    + rewrite lookup_insert_ne by done.
      rewrite bool_decide_eq_false_2 by congruence. by rewrite orb_false_r.
  - rewrite mkdir_cons_ne in H by done.
    destruct (m !! c) as [t1|] eqn:Hc; [|done].
    destruct (mkdir p t1) as [t1'|] eqn:Hm; [|done]. injection H as <-.
    destruct q as [|d q]; [done|].
    unfold tisdir; cbn [tlookup]. destruct (decide (d = c)) as [->|Hne].
    + rewrite lookup_insert_eq, Hc. cbn [mbind option_bind].
      specialize (IH _ _ Hm q). unfold tisdir in IH. rewrite IH. f_equal.
      apply bool_decide_ext. split; congruence.
    + rewrite lookup_insert_ne by done.
      rewrite bool_decide_eq_false_2 by congruence. by rewrite orb_false_r.
Qed.

Lemma mkdir_Ok_tfile p :
  forall t t', mkdir p t = Ok t' -> forall q, tfile t' q = tfile t q.
Proof.
  induction p as [|c p IH]; intros t t' H q; [done|].
  destruct t as [b|m]; [done|].
  destruct (decide (p = [])) as [->|Hp].
  - cbn [mkdir] in H. destruct (m !! c) eqn:Hc; [done|]. injection H as <-.
    destruct q as [|d q]; [done|].
    unfold tfile; cbn [tlookup]. destruct (decide (d = c)) as [->|Hne].
    + rewrite lookup_insert_eq, Hc. cbn [mbind option_bind].
      destruct q as [|d q]; cbn [tlookup]; [done|].
      by rewrite lookup_empty.
    + by rewrite lookup_insert_ne.
  - rewrite mkdir_cons_ne in H by done.
    destruct (m !! c) as [t1|] eqn:Hc; [|done].
    destruct (mkdir p t1) as [t1'|] eqn:Hm; [|done]. injection H as <-.
    destruct q as [|d q]; [done|].
    unfold tfile; cbn [tlookup]. destruct (decide (d = c)) as [->|Hne].
    + rewrite lookup_insert_eq, Hc. cbn [mbind option_bind].
      specialize (IH _ _ Hm q). unfold tfile in IH. by rewrite IH.
    + by rewrite lookup_insert_ne.
Qed.

Lemma mkdir_fresh parent c :
  forall t, tisdir t parent = true -> tlookup t (parent ++ [c]) = None ->
    exists t', mkdir (parent ++ [c]) t = Ok t'.
Proof.
  induction parent as [|d ps IH]; intros t Hd Hn.
  - destruct t as [b|m]; [done|]. cbn [app tlookup] in Hn. cbn [app mkdir].
    destruct (m !! c); [done|]. eauto.
  - destruct t as [b|m]; [done|].
    unfold tisdir in Hd. cbn [app tlookup] in Hd, Hn.
    cbn [app]. rewrite mkdir_cons_ne by (by destruct ps).
    destruct (m !! d) as [t1|]; [|done]. cbn [mbind option_bind] in Hd, Hn.
    destruct (IH t1 Hd Hn) as [t1' ->]. eauto.
Qed.

Lemma mkdir_exists p :
  forall t, texists t p = true -> mkdir p t = Raise FileExistsError.
Proof.
  induction p as [|c p IH]; intros t H; [done|].
  destruct t as [b|m]; [done|].
  unfold texists in H. cbn [tlookup] in H.
  destruct (decide (p = [])) as [->|Hp].
  - cbn [mkdir]. by destruct (m !! c).
  - rewrite mkdir_cons_ne by done.
    destruct (m !! c) as [t1|]; [|done]. cbn [mbind option_bind] in H.
    by rewrite (IH t1).
Qed.

Lemma mkdir_under_file p c q :
  forall t b,
    tfile t p = Some b -> mkdir (p ++ c :: q) t = Raise NotADirectoryError.
Proof.
  induction p as [|d p IH]; intros t b H.
  - destruct t as [b'|m]; [done|done].
  - destruct t as [b'|m]; [done|].
    unfold tfile in H. cbn [tlookup] in H. cbn [app].
    rewrite mkdir_cons_ne by (by destruct p).
    destruct (m !! d) as [t1|]; [|done]. cbn [mbind option_bind] in H.
    by rewrite (IH t1 b).
Qed.

Lemma open_write_tfile p content :
  forall t t', open_write p content t = Ok t' ->
    forall q, tfile t' q = if decide (q = p) then Some content else tfile t q.
Proof.
  induction p as [|c p IH]; intros t t' H q; [done|].
  destruct t as [b|m]; [done|].
  destruct (decide (p = [])) as [->|Hp].
  - assert (t' = TDir (<[c := TFile content]> m) /\
            forall d r, tlookup (TDir m) (c :: d :: r) = None) as [-> Hr].
    { cbn [open_write] in H. cbn [tlookup].
      destruct (m !! c) as [[|]|]; try done; (split; [congruence|done]). }
    destruct q as [|d q]; [done|].
    destruct (decide (d = c)) as [->|Hne]; unfold tfile.
    + destruct q as [|d q].
      * rewrite decide_True by done. cbn [tlookup].
        by rewrite lookup_insert_eq.
      * rewrite decide_False by done. rewrite Hr. cbn [tlookup].
        by rewrite lookup_insert_eq.
    + cbn [tlookup].
      rewrite lookup_insert_ne by done. rewrite decide_False; [done|congruence].
  - rewrite open_write_cons_ne in H by done.
    destruct (m !! c) as [t1|] eqn:Hc; [|done].
    destruct (open_write p content t1) as [t1'|] eqn:Hm; [|done].
    injection H as <-.
    destruct q as [|d q]; [done|].
    unfold tfile; cbn [tlookup]. destruct (decide (d = c)) as [->|Hne].
    + rewrite lookup_insert_eq, Hc. cbn [mbind option_bind].
      specialize (IH _ _ Hm q). unfold tfile in IH. rewrite IH.
      destruct (decide (q = p)) as [->|Hq].
      * by rewrite decide_True.
      * rewrite decide_False; [done|congruence].
    + rewrite lookup_insert_ne by done. rewrite decide_False; [done|congruence].
Qed.

Lemma open_write_tisdir p content :
  forall t t',
    open_write p content t = Ok t' -> forall q, tisdir t' q = tisdir t q.
Proof.
  induction p as [|c p IH]; intros t t' H q; [done|].
  destruct t as [b|m]; [done|].
  destruct (decide (p = [])) as [->|Hp].
  - assert (t' = TDir (<[c := TFile content]> m) /\
            forall r, tisdir (TDir m) (c :: r) = false) as [-> Hr].
    { cbn [open_write] in H. unfold tisdir. cbn [tlookup].
      destruct (m !! c) as [[|]|]; try done.
      - split; [congruence|]. by intros [|].
      - split; [congruence|]. done. }
    destruct q as [|d q]; [done|].
    destruct (decide (d = c)) as [->|Hne].
    + rewrite Hr. unfold tisdir; cbn [tlookup].
      rewrite lookup_insert_eq. by destruct q.
    + unfold tisdir; cbn [tlookup]. by rewrite lookup_insert_ne.
  - rewrite open_write_cons_ne in H by done.
    destruct (m !! c) as [t1|] eqn:Hc; [|done].
    destruct (open_write p content t1) as [t1'|] eqn:Hm; [|done].
    injection H as <-.
    destruct q as [|d q]; [done|].
    unfold tisdir; cbn [tlookup]. destruct (decide (d = c)) as [->|Hne].
    + rewrite lookup_insert_eq, Hc. cbn [mbind option_bind].
      specialize (IH _ _ Hm q). unfold tisdir in IH. by rewrite IH.
    + by rewrite lookup_insert_ne.
Qed.

Lemma open_write_succeeds parent c content :
  forall t, tisdir t parent = true -> tisdir t (parent ++ [c]) = false ->
    exists t', open_write (parent ++ [c]) content t = Ok t'.
Proof.
  induction parent as [|d ps IH]; intros t Hd Hn.
  - destruct t as [b|m]; [done|]. unfold tisdir in Hn.
    cbn [app tlookup] in Hn. cbn [app open_write].
    destruct (m !! c) as [[|]|]; try done; eauto.
  - destruct t as [b|m]; [done|].
    unfold tisdir in Hd, Hn. cbn [app tlookup] in Hd, Hn.
    cbn [app]. rewrite open_write_cons_ne by (by destruct ps).
    destruct (m !! d) as [t1|]; [|done]. cbn [mbind option_bind] in Hd, Hn.
    destruct (IH t1 Hd Hn) as [t1' ->]. eauto.
Qed.

Lemma open_write_same p content :
  forall t,
    p <> [] -> tfile t p = Some content -> open_write p content t = Ok t.
Proof.
  induction p as [|c p IH]; intros t Hne H; [done|].
  - destruct t as [b|m]; [done|].
    unfold tfile in H. cbn [tlookup] in H.
    destruct (decide (p = [])) as [->|Hp].
    + cbn [open_write]. destruct (m !! c) as [[b|m']|] eqn:Hc; try done.
      cbn in H. injection H as ->. by rewrite insert_id.
    + rewrite open_write_cons_ne by done.
      destruct (m !! c) as [t1|] eqn:Hc; [|done]. cbn [mbind option_bind] in H.
      rewrite (IH t1) by done. by rewrite insert_id.
Qed.

Lemma open_write_twice p c1 c2 :
  forall t t1,
    open_write p c1 t = Ok t1 -> open_write p c2 t1 = open_write p c2 t.
Proof.
  induction p as [|c p IH]; intros t t1 H; [done|].
  destruct t as [b|m]; [done|].
  destruct (decide (p = [])) as [->|Hp].
  - assert (t1 = TDir (<[c := TFile c1]> m) /\
            open_write [c] c2 (TDir m) = Ok (TDir (<[c := TFile c2]> m)))
      as [-> ->].
    { cbn [open_write] in H |- *.
      destruct (m !! c) as [[|]|]; try done; split; congruence. }
    cbn [open_write]. rewrite lookup_insert_eq. by rewrite insert_insert_eq.
  - rewrite open_write_cons_ne in H by done.
    rewrite open_write_cons_ne by done.
    destruct (m !! c) as [t'|] eqn:Hc; [|done].
    destruct (open_write p c1 t') as [t''|] eqn:Hm; [|done].
    injection H as <-.
    rewrite open_write_cons_ne by done.
    rewrite lookup_insert_eq, (IH _ _ Hm).
    destruct (open_write p c2 t'); [|done]. by rewrite insert_insert_eq.
Qed.

Lemma open_write_under_file p c q content :
  forall t b, tfile t p = Some b ->
    open_write (p ++ c :: q) content t = Raise NotADirectoryError.
Proof.
  induction p as [|d p IH]; intros t b H.
  - by destruct t.
  - destruct t as [b'|m]; [done|].
    unfold tfile in H. cbn [tlookup] in H. cbn [app].
    rewrite open_write_cons_ne by (by destruct p).
    destruct (m !! d) as [t1|]; [|done]. cbn [mbind option_bind] in H.
    by rewrite (IH t1 b).
Qed.

(** *** [os.makedirs] *)

Lemma makedirs_nil t :
  makedirs t [] = if tisdir t [] then Ok t else Raise FileExistsError.
Proof. done. Qed.

Lemma makedirs_snoc t parent c :
  makedirs t (parent ++ [c]) =
    match
      (if negb (texists t parent) then
         match makedirs t parent with
         | Ok t1 => Ok t1
         | Raise FileExistsError => Ok t
         | Raise e => Raise e
         end
       else Ok t)
    with
    | Ok t1 =>
        match mkdir (parent ++ [c]) t1 with
        | Ok t2 => Ok t2
        | Raise e => if tisdir t1 (parent ++ [c]) then Ok t1 else Raise e
        end
    | Raise e => Raise e
    end.
Proof.
  unfold makedirs. rewrite length_app, Nat.add_1_r.
  cbn [makedirs_fuel]. by rewrite removelast_last.
Qed.

Lemma makedirs_existing t p : tisdir t p = true -> makedirs t p = Ok t.
Proof.
  intros H. destruct p as [|c parent _] using rev_ind.
  - by rewrite makedirs_nil, H.
  - rewrite makedirs_snoc.
    rewrite (texists_app_inv t parent [c]) by by apply tisdir_texists.
    cbn [negb]. rewrite mkdir_exists by by apply tisdir_texists.
    by rewrite H.
Qed.

Lemma makedirs_Ok p :
  forall t t', makedirs t p = Ok t' ->
    tisdir t' p = true /\
    (forall q, tfile t' q = tfile t q) /\
    (forall q, tisdir t q = true -> tisdir t' q = true) /\
    (forall q, tisdir t' q = true -> tisdir t q = true \/ q `prefix_of` p).
Proof.
  induction p as [|c parent IH] using rev_ind; intros t t' H.
  - rewrite makedirs_nil in H. destruct (tisdir t []) eqn:Hd; [|done].
    injection H as <-. auto.
  - rewrite makedirs_snoc in H.
    match type of H with
    | match ?pre with _ => _ end = _ => destruct pre as [t1|e] eqn:Hpre
    end; [|done].
    assert ((forall q, tfile t1 q = tfile t q) /\
            (forall q, tisdir t q = true -> tisdir t1 q = true) /\
            (forall q, tisdir t1 q = true ->
                  tisdir t q = true \/ q `prefix_of` parent))
      as (Hf & Hmono & Hnew).
    { destruct (negb (texists t parent)).
      - destruct (makedirs t parent) as [t1'|e] eqn:Hm.
        + injection Hpre as <-. by destruct (IH _ _ Hm) as (_ & ? & ? & ?).
        + destruct e; try done; injection Hpre as <-; auto.
      - injection Hpre as <-. auto. }
    destruct (mkdir (parent ++ [c]) t1) as [t2|e] eqn:Hmk.
    + injection H as <-.
      pose proof (mkdir_Ok_tisdir _ _ _ Hmk) as Hd.
      pose proof (mkdir_Ok_tfile _ _ _ Hmk) as Hf2.
      split; [|split; [|split]].
      * rewrite Hd, bool_decide_eq_true_2 by done. apply orb_true_r.
      * intros q. by rewrite Hf2.
      * intros q Hq. rewrite Hd, (Hmono q Hq). done.
      * intros q. rewrite Hd. intros [Hq|Hq]%orb_true_iff.
        -- destruct (Hnew q Hq) as [?|?]; [by left|right].
           by apply prefix_app_r.
        -- apply bool_decide_eq_true_1 in Hq as ->. by right.
    + destruct (tisdir t1 (parent ++ [c])) eqn:Hd; [|done].
      injection H as <-. split; [done|]. split; [done|]. split; [done|].
      intros q Hq. destruct (Hnew q Hq) as [?|?]; [by left|right].
      by apply prefix_app_r.
Qed.

Lemma makedirs_succeeds p :
  forall t,
    (forall q, q `prefix_of` p -> tfile t q = None) ->
    exists t', makedirs t p = Ok t'.
Proof.
  induction p as [|c parent IH] using rev_ind; intros t H.
  - rewrite makedirs_nil. unfold tisdir. specialize (H [] (prefix_nil _)).
    unfold tfile in H. cbn [tlookup] in *. destruct t; [done|eauto].
  - rewrite makedirs_snoc.
    assert (Hpar : forall q, q `prefix_of` parent -> tfile t q = None).
    { intros q Hq. apply H. by apply prefix_app_r. }
    assert (exists t1, (if negb (texists t parent) then
                     match makedirs t parent with
                     | Ok t1 => Ok t1
                     | Raise FileExistsError => Ok t
                     | Raise e => Raise e
                     end
                   else Ok t) = Ok t1 /\
                  tisdir t1 parent = true /\
                  (forall q, tfile t1 q = tfile t q)) as (t1 & -> & Hd & Hf).
    { destruct (texists t parent) eqn:He; cbn [negb].
      - exists t. split; [done|]. split; [|done].
        destruct (tlookup_cases t parent) as [?|[[b Hb]|Hn]]; [done| |].
        + by rewrite Hpar in Hb.
        + unfold texists in He. by rewrite Hn in He.
      - destruct (IH t Hpar) as [t1 Hm]. rewrite Hm. exists t1.
        split; [done|]. by destruct (makedirs_Ok _ _ _ Hm) as (? & ? & _). }
    destruct (tlookup_cases t1 (parent ++ [c])) as [Hc|[[b Hb]|Hn]].
    + rewrite mkdir_exists by by apply tisdir_texists.
      rewrite Hc. eauto.
    + rewrite Hf, H in Hb; done.
    + destruct (mkdir_fresh parent c t1 Hd Hn) as [t2 ->]. eauto.
Qed.

Lemma makedirs_under_file t p c b :
  tfile t p = Some b -> makedirs t (p ++ [c]) = Raise NotADirectoryError.
Proof.
  intros H. rewrite makedirs_snoc.
  assert (texists t p = true) as ->.
  { unfold texists, tfile in *. by destruct (tlookup t p). }
  cbn [negb]. rewrite (mkdir_under_file p c [] t b H).
  assert (tisdir t (p ++ [c]) = false) as ->; [|done].
  destruct (tisdir t (p ++ [c])) eqn:Hd; [|done].
  apply tisdir_app_inv in Hd. by rewrite (tfile_tisdir _ _ _ H) in Hd.
Qed.

Lemma makedirs_file t p c b :
  tfile t (p ++ [c]) = Some b -> makedirs t (p ++ [c]) = Raise FileExistsError.
Proof.
  intros H. rewrite makedirs_snoc.
  rewrite (tisdir_texists t p) by by eapply tfile_parent.
  cbn [negb]. rewrite mkdir_exists.
  - by rewrite (tfile_tisdir _ _ _ H).
  - unfold texists, tfile in *. by destruct (tlookup t (p ++ [c])).
Qed.

(** *** Text files *)

Lemma write_file_text_Ok t p data t' :
  write_file_text t p data = Ok t' ->
  exists content, Py.encode_utf8 data = Some content /\
    (forall q,
        tfile t' q = if decide (q = p) then Some content else tfile t q) /\
    (forall q, tisdir t q = true -> tisdir t' q = true) /\
    (forall q,
        tisdir t' q = true ->
        tisdir t q = true \/ q `prefix_of` removelast p).
Proof.
  unfold write_file_text.
  destruct (makedirs t (removelast p)) as [t1|] eqn:Hm; [|done].
  cbn [mbind result_bind].
  destruct (open_write p [] t1) as [t2|] eqn:Ho; [|done].
  cbn [mbind result_bind].
  destruct (Py.encode_utf8 data) as [content|]; [|done].
  cbn [or_raise mbind result_bind].
  rewrite (open_write_twice _ _ _ _ _ Ho). intros Hw.
  destruct (makedirs_Ok _ _ _ Hm) as (_ & Hf & Hmono & Hnew).
  exists content. split; [done|]. split; [|split].
  - intros q. rewrite (open_write_tfile _ _ _ _ Hw).
    destruct (decide (q = p)); [done|apply Hf].
  - intros q Hq. rewrite (open_write_tisdir _ _ _ _ Hw). by apply Hmono.
  - intros q. rewrite (open_write_tisdir _ _ _ _ Hw). apply Hnew.
Qed.

Lemma write_file_text_same t parent c data content :
  tfile t (parent ++ [c]) = Some content ->
  Py.encode_utf8 data = Some content ->
  write_file_text t (parent ++ [c]) data = Ok t.
Proof.
  intros Hf He. unfold write_file_text. rewrite removelast_last.
  pose proof (tfile_parent _ _ _ _ Hf) as Hd.
  rewrite makedirs_existing by done. cbn [mbind result_bind].
  destruct (open_write_succeeds parent c [] t Hd (tfile_tisdir _ _ _ Hf))
    as [t2 Ho].
  rewrite Ho, He. cbn [or_raise mbind result_bind].
  rewrite (open_write_twice _ _ _ _ _ Ho).
  apply open_write_same; [by destruct parent | done].
Qed.

Lemma not_prefix_snoc (parent : path) (c : str) :
  ~ (parent ++ [c]) `prefix_of` parent.
Proof.
  intros H%prefix_length. rewrite length_app in H. simpl in H. lia.
Qed.

Lemma write_file_text_succeeds t parent c data content :
  (forall q, q `prefix_of` parent -> tfile t q = None) ->
  tisdir t (parent ++ [c]) = false ->
  Py.encode_utf8 data = Some content ->
  exists t', write_file_text t (parent ++ [c]) data = Ok t'.
Proof.
  intros Hp Hn He. unfold write_file_text. rewrite removelast_last.
  destruct (makedirs_succeeds parent t Hp) as [t1 Hm]. rewrite Hm.
  cbn [mbind result_bind].
  destruct (makedirs_Ok _ _ _ Hm) as (Hd & _ & _ & Hnew).
  assert (Hn1 : tisdir t1 (parent ++ [c]) = false).
  { destruct (tisdir t1 (parent ++ [c])) eqn:E; [|done].
    destruct (Hnew _ E) as [?|?]; [congruence|].
    by destruct (not_prefix_snoc parent c). }
  destruct (open_write_succeeds parent c [] t1 Hd Hn1) as [t2 Ho].
  rewrite Ho, He. cbn [or_raise mbind result_bind].
  rewrite (open_write_twice _ _ _ _ _ Ho).
  apply open_write_succeeds; done.
Qed.

Lemma universal_newlines_id (s : str) :
  13%N ∉ s -> universal_newlines s = s.
Proof.
  induction s as [|c s IH]; [done|].
  intros [Hc Hs]%not_elem_of_cons. cbn [universal_newlines].
  destruct (N.eqb_spec c 13) as [->|_]; [done|]. by rewrite IH.
Qed.

Lemma read_file_text_tfile t p content s :
  tfile t p = Some content -> Py.encode_utf8 s = Some content -> 13%N ∉ s ->
  read_file_text t p = Ok s.
Proof.
  unfold tfile, read_file_text. intros Hf He Hs.
  destruct (tlookup t p) as [[b|m]|]; try done. injection Hf as ->.
  rewrite (decode_encode_utf8 _ _ He).
  cbn [or_raise mbind result_bind mret result_ret].
  by rewrite universal_newlines_id.
Qed.

(** *** [init] *)

Lemma makedirs_all_Ok g ds :
  forall t t', makedirs_all t g ds = Ok t' ->
    (forall d, d ∈ ds -> tisdir t' (g ++ d) = true) /\
    (forall q, tfile t' q = tfile t q) /\
    (forall q, tisdir t q = true -> tisdir t' q = true) /\
    (forall q, tisdir t' q = true ->
          tisdir t q = true \/ exists d, d ∈ ds /\ q `prefix_of` g ++ d).
Proof.
  induction ds as [|d ds IH]; intros t t' H.
  - injection H as <-. split; [|by auto]. by intros d Hd%elem_of_nil.
  - cbn [makedirs_all] in H.
    destruct (makedirs t (g ++ d)) as [t1|] eqn:Hm; [|done].
    destruct (makedirs_Ok _ _ _ Hm) as (Hd & Hf & Hmono & Hnew).
    destruct (IH _ _ H) as (Hd' & Hf' & Hmono' & Hnew').
    split; [|split; [|split]].
    + intros d' [->|Hin]%elem_of_cons; [by apply Hmono'|by apply Hd'].
    + intros q. by rewrite Hf'.
    + auto.
    + intros q Hq. destruct (Hnew' q Hq) as [Hq1|(d' & Hin & Hpre)].
      * destruct (Hnew q Hq1) as [?|?]; [by left|right].
        exists d. split; [by left|done].
      * right. exists d'. split; [by right|done].
Qed.

Lemma makedirs_all_existing g ds t :
  (forall d, d ∈ ds -> tisdir t (g ++ d) = true) -> makedirs_all t g ds = Ok t.
Proof.
  induction ds as [|d ds IH]; intros H; [done|].
  cbn [makedirs_all]. rewrite makedirs_existing by (apply H; by left).
  apply IH. intros d' Hd'. apply H. by right.
Qed.

Lemma makedirs_all_succeeds g ds :
  forall t, (forall d q, d ∈ ds -> q `prefix_of` g ++ d -> tfile t q = None) ->
    exists t', makedirs_all t g ds = Ok t'.
Proof.
  induction ds as [|d ds IH]; intros t H; [by eexists|].
  cbn [makedirs_all].
  destruct (makedirs_succeeds (g ++ d) t) as [t1 Hm].
  { intros q. apply H. by left. }
  rewrite Hm. apply IH. intros d' q Hd' Hq.
  destruct (makedirs_Ok _ _ _ Hm) as (_ & -> & _). eapply H; [by right|done].
Qed.

Lemma init_Ok_inv n b t rp t' :
  init n b t = Ok (rp, t') ->
  rp = b ++ [n] /\
  exists t1 t2 t3 t4,
    makedirs t (b ++ [n]) = Ok t1 /\
    makedirs_all t1 (git_dir n b) init_dirs = Ok t2 /\
    write_file_text t2 (git_dir n b ++ [Py.lit "HEAD"]) head_content = Ok t3 /\
    write_file_text t3 (git_dir n b ++ [Py.lit "config"]) config_content
      = Ok t4 /\
    write_file_text t4 (git_dir n b ++ [Py.lit "description"])
      description_content = Ok t'.
Proof.
  unfold init. fold (git_dir n b).
  destruct (makedirs t (b ++ [n])) as [t1|] eqn:H1; [|done].
  cbn [mbind result_bind].
  destruct (makedirs_all t1 _ _) as [t2|] eqn:H2; [|done].
  cbn [mbind result_bind].
  destruct (write_file_text t2 _ _) as [t3|] eqn:H3; [|done].
  cbn [mbind result_bind].
  destruct (write_file_text t3 _ _) as [t4|] eqn:H4; [|done].
  cbn [mbind result_bind].
  destruct (write_file_text t4 _ _) as [t5|] eqn:H5; [|done].
  cbn [mbind result_bind mret result_ret]. intros [= <- <-].
  split; [done|]. by exists t1, t2, t3, t4.
Qed.

Ltac path_neq :=
  let E := fresh "E" in
  intros E%app_inv_head; vm_compute in E; discriminate E.

Ltac in_list := repeat first [by left | right].

Lemma git_dir_prefix n b d : (b ++ [n]) `prefix_of` git_dir n b ++ d.
Proof. unfold git_dir. by do 2 apply prefix_app_r. Qed.

Lemma init_files_encodable f c :
  (f, c) ∈ init_files -> (13%N ∉ c) /\ exists bs, Py.encode_utf8 c = Some bs.
Proof.
  unfold init_files. rewrite !elem_of_cons, elem_of_nil.
  intros [[= -> ->]|[[= -> ->]|[[= -> ->]|[]]]];
    (split; [compute_done | eexists; vm_compute; reflexivity]).
Qed.

Lemma init_file_not_dir n b f c d :
  (f, c) ∈ init_files -> d ∈ init_dirs ->
  ~ (git_dir n b ++ [f]) `prefix_of` (git_dir n b ++ d).
Proof.
  unfold init_files, init_dirs. rewrite !elem_of_cons, !elem_of_nil.
  intros Hf Hd [k Hk]%prefix_app_inv.
  destruct Hf as [[= -> ->]|[[= -> ->]|[[= -> ->]|[]]]];
    destruct Hd as [->|[->|[->|[->|[->|[]]]]]];
    vm_compute in Hk; discriminate Hk.
Qed.

Lemma init_Ok_facts n b t rp t' :
  init n b t = Ok (rp, t') ->
  (forall d, d ∈ init_dirs -> tisdir t' (git_dir n b ++ d) = true) /\
  (forall f c, (f, c) ∈ init_files ->
     exists bs, Py.encode_utf8 c = Some bs /\
           tfile t' (git_dir n b ++ [f]) = Some bs) /\
  (forall q, (forall f c, (f, c) ∈ init_files -> q <> git_dir n b ++ [f]) ->
     tfile t' q = tfile t q) /\
  (forall q, tisdir t q = true -> tisdir t' q = true) /\
  (forall q, tisdir t' q = true ->
     tisdir t q = true \/
     exists d, d ∈ init_dirs /\ q `prefix_of` git_dir n b ++ d).
Proof.
  intros (-> & t1 & t2 & t3 & t4 & H1 & H2 & H3 & H4 & H5)%init_Ok_inv.
  destruct (makedirs_Ok _ _ _ H1) as (D1 & F1 & M1 & N1).
  destruct (makedirs_all_Ok _ _ _ _ H2) as (D2 & F2 & M2 & N2).
  destruct (write_file_text_Ok _ _ _ _ H3) as (c3 & E3 & F3 & M3 & N3).
  destruct (write_file_text_Ok _ _ _ _ H4) as (c4 & E4 & F4 & M4 & N4).
  destruct (write_file_text_Ok _ _ _ _ H5) as (c5 & E5 & F5 & M5 & N5).
  rewrite removelast_last in N3, N4, N5.
  split; [|split; [|split; [|split]]].
  - intros d Hd. by apply M5, M4, M3, D2.
  - intros f c. unfold init_files. rewrite !elem_of_cons, elem_of_nil.
    intros [[= -> ->]|[[= -> ->]|[[= -> ->]|[]]]].
    + exists c3. split; [done|].
      rewrite F5, decide_False by path_neq.
      rewrite F4, decide_False by path_neq.
      by rewrite F3, decide_True.
    + exists c4. split; [done|].
      rewrite F5, decide_False by path_neq.
      by rewrite F4, decide_True.
    + exists c5. split; [done|]. by rewrite F5, decide_True.
  - intros q Hq.
    rewrite F5, decide_False
      by (apply (Hq _ description_content); unfold init_files; in_list).
    rewrite F4, decide_False
      by (apply (Hq _ config_content); unfold init_files; in_list).
    rewrite F3, decide_False
      by (apply (Hq _ head_content); unfold init_files; in_list).
    by rewrite F2, F1.
  - intros q Hq. by apply M5, M4, M3, M2, M1.
  - intros q Hq.
    assert (Hg : q `prefix_of` git_dir n b ->
                 exists d, d ∈ init_dirs /\ q `prefix_of` git_dir n b ++ d).
    { intros Hp. exists [Py.lit "objects"].
      split; [unfold init_dirs; in_list | by apply prefix_app_r]. }
    destruct (N5 q Hq) as [Hq4|?]; [|by right; apply Hg].
    destruct (N4 q Hq4) as [Hq3|?]; [|by right; apply Hg].
    destruct (N3 q Hq3) as [Hq2|?]; [|by right; apply Hg].
    destruct (N2 q Hq2) as [Hq1|?]; [|by right].
    destruct (N1 q Hq1) as [?|Hp]; [by left|right].
    apply Hg. unfold git_dir. by apply prefix_app_r.
Qed.


(** X25: [init] on a repository it has made succeeds and changes
    nothing. *)
Theorem init_idempotent n b t rp t' :
  init n b t = Ok (rp, t') -> init n b t' = Ok (rp, t').
Proof.
  intros H. destruct (init_Ok_facts _ _ _ _ _ H) as (HA & HB & _).
  apply init_Ok_inv in H as [-> _].
  assert (Hrepo : tisdir t' (b ++ [n]) = true).
  { eapply tisdir_prefix; [apply (git_dir_prefix n b [Py.lit "objects"])|].
    apply HA. unfold init_dirs. in_list. }
  unfold init. fold (git_dir n b).
  rewrite makedirs_existing by done. cbn [mbind result_bind].
  rewrite makedirs_all_existing by done. cbn [mbind result_bind].
  destruct (HB (Py.lit "HEAD") head_content) as (c3 & E3 & F3);
    [unfold init_files; in_list|].
  destruct (HB (Py.lit "config") config_content) as (c4 & E4 & F4);
    [unfold init_files; in_list|].
  destruct (HB (Py.lit "description") description_content) as (c5 & E5 & F5);
    [unfold init_files; in_list|].
  rewrite (write_file_text_same _ _ _ _ _ F3 E3). cbn [mbind result_bind].
  rewrite (write_file_text_same _ _ _ _ _ F4 E4). cbn [mbind result_bind].
  by rewrite (write_file_text_same _ _ _ _ _ F5 E5).
Qed.

(** X26: for a repository name that is a path component and paths made of
    components, [init] touches nothing but its layout: every other regular
    file keeps its content and none is made, every directory stays, and a
    new directory lies on the path of a directory of the layout. *)
Theorem init_keeps n b t rp t' :
  component n = true -> plain_path b ->
  init n b t = Ok (rp, t') ->
  (forall q, plain_path q ->
     (forall f c, (f, c) ∈ init_files -> q <> git_dir n b ++ [f]) ->
     tfile t' q = tfile t q) /\
  (forall q, plain_path q -> tisdir t q = true -> tisdir t' q = true) /\
  (forall q, plain_path q -> tisdir t' q = true ->
     tisdir t q = true \/
     exists d, d ∈ init_dirs /\ q `prefix_of` git_dir n b ++ d).
Proof.
  intros _ _ H.
  destruct (init_Ok_facts _ _ _ _ _ H) as (_ & _ & HC & HD & HE).
  split; [|split]; intros q _; [apply HC | apply HD | apply HE].
Qed.

Lemma tisdir_tfile t p : tisdir t p = true -> tfile t p = None.
Proof. unfold tisdir, tfile. by destruct (tlookup t p) as [[|]|]. Qed.

Lemma init_ready_git n b t :
  init_ready n b t -> forall q, q `prefix_of` git_dir n b -> tfile t q = None.
Proof.
  intros [Hd _] q Hq. apply (Hd [Py.lit "objects"]).
  - unfold init_dirs. in_list.
  - by apply prefix_app_r.
Qed.

Lemma write_file_text_ready n b t f data t' :
  write_file_text t (git_dir n b ++ [f]) data = Ok t' ->
  (forall q, q `prefix_of` git_dir n b -> tfile t q = None) ->
  (forall f c, (f, c) ∈ init_files -> tisdir t (git_dir n b ++ [f]) = false) ->
  (forall q, q `prefix_of` git_dir n b -> tfile t' q = None) /\
  (forall f c, (f, c) ∈ init_files -> tisdir t' (git_dir n b ++ [f]) = false).
Proof.
  intros (content & _ & F & _ & N)%write_file_text_Ok Hg Hf.
  rewrite removelast_last in N. split.
  - intros q Hq. rewrite F, decide_False; [by apply Hg|].
    intros ->. by destruct (not_prefix_snoc (git_dir n b) f).
  - intros f' c' Hin.
    destruct (tisdir t' (git_dir n b ++ [f'])) eqn:E; [|done].
    destruct (N _ E) as [E0|Hp].
    + by rewrite (Hf f' c' Hin) in E0.
    + by destruct (not_prefix_snoc (git_dir n b) f').
Qed.

Lemma init_Ok_tfile n b t rp t' :
  init n b t = Ok (rp, t') ->
  forall q, tfile t' q = tfile t q \/ exists bs, tfile t' q = Some bs.
Proof.
  intros H q. destruct (init_Ok_facts _ _ _ _ _ H) as (_ & HB & HC & _).
  destruct (decide (q = git_dir n b ++ [Py.lit "HEAD"])) as [->|N1].
  { right. destruct (HB (Py.lit "HEAD") head_content) as (bs & _ & ?);
      [unfold init_files; in_list | eauto]. }
  destruct (decide (q = git_dir n b ++ [Py.lit "config"])) as [->|N2].
  { right. destruct (HB (Py.lit "config") config_content) as (bs & _ & ?);
      [unfold init_files; in_list | eauto]. }
  destruct (decide (q = git_dir n b ++ [Py.lit "description"])) as [->|N3].
  { right.
    destruct (HB (Py.lit "description") description_content) as (bs & _ & ?);
      [unfold init_files; in_list | eauto]. }
  left. apply HC. intros f c. unfold init_files.
  rewrite !elem_of_cons, elem_of_nil.
  by intros [[= -> ->]|[[= -> ->]|[[= -> ->]|[]]]].
Qed.

(** X27: for a repository name that is a path component and a base path
    made of components, [init] succeeds exactly when no regular file lies on
    the path of a directory of its layout and no directory stands where it
    writes a file. *)
Theorem init_succeeds_iff n b t :
  component n = true -> plain_path b ->
  (exists r, init n b t = Ok r) <-> init_ready n b t.
Proof.
  intros _ _. split.
  - intros [[rp t'] H].
    destruct (init_Ok_facts _ _ _ _ _ H) as (HA & HB & _ & HD & _).
    split.
    + intros d q Hin Hq.
      pose proof (tisdir_prefix t' _ _ Hq (HA d Hin)) as Hqd.
      apply tisdir_tfile in Hqd.
      destruct (init_Ok_tfile _ _ _ _ _ H q) as [<-|[bs Hbs]]; congruence.
    + intros f c Hin.
      destruct (tisdir t (git_dir n b ++ [f])) eqn:E; [|done].
      apply HD in E. destruct (HB f c Hin) as (bs & _ & Hbs).
      apply tfile_tisdir in Hbs. congruence.
  - intros Hr. pose proof (init_ready_git _ _ _ Hr) as Hg.
    destruct Hr as [Hd Hf].
    destruct (makedirs_succeeds (b ++ [n]) t) as [t1 H1].
    { intros q Hq. apply Hg. etransitivity; [done|].
      unfold git_dir. by apply prefix_app_r. }
    destruct (makedirs_Ok _ _ _ H1) as (_ & F1 & _ & N1).
    destruct (makedirs_all_succeeds (git_dir n b) init_dirs t1) as [t2 H2].
    { intros d q Hin Hq. rewrite F1. by apply (Hd d). }
    destruct (makedirs_all_Ok _ _ _ _ H2) as (_ & F2 & _ & N2).
    assert (Hg2 : forall q, q `prefix_of` git_dir n b -> tfile t2 q = None).
    { intros q Hq. rewrite F2, F1. by apply Hg. }
    assert (Hf2 : forall f c, (f, c) ∈ init_files ->
                         tisdir t2 (git_dir n b ++ [f]) = false).
    { intros f c Hin.
      destruct (tisdir t2 (git_dir n b ++ [f])) eqn:E; [|done].
      destruct (N2 _ E) as [E1|(d & Hdin & Hp)].
      - destruct (N1 _ E1) as [E0|Hp].
        + by rewrite (Hf f c Hin) in E0.
        + apply prefix_length in Hp. unfold git_dir in Hp.
          rewrite !length_app in Hp. simpl in Hp. lia.
      - by destruct (init_file_not_dir n b f c d). }
    destruct (init_files_encodable (Py.lit "HEAD") head_content)
      as [_ [c3 E3]]; [unfold init_files; in_list|].
    destruct (init_files_encodable (Py.lit "config") config_content)
      as [_ [c4 E4]]; [unfold init_files; in_list|].
    destruct (init_files_encodable (Py.lit "description") description_content)
      as [_ [c5 E5]]; [unfold init_files; in_list|].
    destruct (write_file_text_succeeds t2 (git_dir n b) (Py.lit "HEAD")
                head_content c3) as [t3 H3];
      [done | apply (Hf2 _ head_content); unfold init_files; in_list | done |].
    destruct (write_file_text_ready _ _ _ _ _ _ H3 Hg2 Hf2) as [Hg3 Hf3].
    destruct (write_file_text_succeeds t3 (git_dir n b) (Py.lit "config")
                config_content c4) as [t4 H4];
      [done | apply (Hf3 _ config_content); unfold init_files; in_list
      | done |].
    destruct (write_file_text_ready _ _ _ _ _ _ H4 Hg3 Hf3) as [Hg4 Hf4].
    destruct (write_file_text_succeeds t4 (git_dir n b)
                (Py.lit "description") description_content c5) as [t5 H5];
      [done | apply (Hf4 _ description_content); unfold init_files; in_list
      | done |].
    exists (b ++ [n], t5). unfold init. fold (git_dir n b).
    rewrite H1. cbn [mbind result_bind]. rewrite H2. cbn [mbind result_bind].
    rewrite H3. cbn [mbind result_bind]. rewrite H4. cbn [mbind result_bind].
    by rewrite H5.
Qed.

(** X28: where the repository path is a regular file, [init] raises
    [FileExistsError]. *)
Theorem init_repo_is_file n b t x :
  tfile t (b ++ [n]) = Some x -> init n b t = Raise FileExistsError.
Proof. intros H. unfold init. by rewrite (makedirs_file _ _ _ _ H). Qed.

(** X29: where [.git] in the repository is a regular file, [init] raises
    [NotADirectoryError]. *)
Theorem init_git_is_file n b t x :
  tfile t (git_dir n b) = Some x -> init n b t = Raise NotADirectoryError.
Proof.
  intros H. unfold init. fold (git_dir n b).
  rewrite makedirs_existing by (by eapply tfile_parent).
  cbn [mbind result_bind init_dirs makedirs_all].
  by rewrite (makedirs_under_file _ _ _ _ H).
Qed.

(** X30: a text written with [write_file] reads back with [read_file] in
    text mode as it was, when it holds no carriage return. *)
Theorem write_file_text_read_file_text t p s t' :
  write_file_text t p s = Ok t' -> 13%N ∉ s -> read_file_text t' p = Ok s.
Proof.
  intros (content & He & F & _)%write_file_text_Ok Hs.
  apply (read_file_text_tfile _ _ content); [|done|done].
  by rewrite F, decide_True.
Qed.

(** ** Checks of [init] on concrete data *)

Example init_fresh :
  init (Py.lit "repo") [] empty_root = Ok ([Py.lit "repo"], fresh_repo).
Proof. vm_compute. reflexivity. Qed.

Example init_ready_empty_root : init_ready (Py.lit "repo") [] empty_root.
Proof.
  split.
  - intros d [|c q] _ _; [done|]. unfold tfile. cbn [tlookup empty_root].
    by rewrite lookup_empty.
  - intros f c _. unfold tisdir. cbn [tlookup empty_root git_dir app].
    by rewrite lookup_empty.
Qed.

Example read_file_text_carriage_return :
  exists t',
    write_file_text empty_root [Py.lit "f"] [97%N; 13%N; 10%N] = Ok t' /\
    read_file_text t' [Py.lit "f"] = Ok [97%N; 10%N].
Proof. eexists. split; vm_compute; reflexivity. Qed.


Lemma init_idempotent_witness :
  init (Py.lit "repo") [] fresh_repo = Ok ([Py.lit "repo"], fresh_repo).
Proof. apply (init_idempotent _ _ _ _ _ init_fresh). Defined.

Lemma init_keeps_witness :
  tfile fresh_repo [Py.lit "notes"] = tfile empty_root [Py.lit "notes"]
  /\ tisdir fresh_repo [] = true.
Proof.
  destruct (init_keeps (Py.lit "repo") [] empty_root _ _ eq_refl
              (Forall_nil_2 _) init_fresh) as (Hf & Hd & _).
  split.
  - apply Hf; [by repeat constructor|].
    intros f c _ E. vm_compute in E. discriminate E.
  - apply Hd; [constructor | reflexivity].
Defined.

Lemma init_succeeds_iff_witness :
  exists r, init (Py.lit "repo") [] empty_root = Ok r.
Proof.
  apply (init_succeeds_iff (Py.lit "repo") [] empty_root eq_refl
           (Forall_nil_2 _)).
  apply init_ready_empty_root.
Defined.

Lemma init_repo_is_file_witness :
  init (Py.lit "repo") [] file_root = Raise FileExistsError.
Proof. apply (init_repo_is_file _ [] _ []). vm_compute. reflexivity. Defined.

Lemma init_git_is_file_witness :
  init (Py.lit "repo") [] git_file_root = Raise NotADirectoryError.
Proof. apply (init_git_is_file _ [] _ []). vm_compute. reflexivity. Defined.

Lemma write_file_text_read_file_text_witness :
  read_file_text fresh_repo (git_dir (Py.lit "repo") [] ++ [Py.lit "HEAD"])
  = Ok head_content.
Proof.
  apply (write_file_text_read_file_text fresh_repo _ _ fresh_repo);
    [vm_compute; reflexivity | compute_done].
Defined.
